(** * Orus gateway: the NDJSON decoding loops, the SSE relay, the embedding
    provider switch and the deadline dispatch, embedded from
    [ollama_client.go] and the last revision of [orus.go]. *)

From Stdlib Require Import ZArith String List Bool Lia.
From Stdlib Require Import SpecFloat.
From stdpp Require Import base option list gmap strings pretty.


(** ** Data model *)

(** [time.Time] and [time.Duration], both counted in nanoseconds; the zero
    [time.Time] is instant 0. *)
Definition Time := Z.
Definition Duration := Z.

(** [float32] and [float64] values are carried around, never computed with. *)
Definition float32 := spec_float.
Definition float64 := spec_float.

(** The line feed of the [\n] escapes in the Go format strings. *)
Definition LF : string := String (Ascii.ascii_of_nat 10) EmptyString.

(** What [encoding/json] produces for an [interface{}], and what the
    handlers hand to [json.Marshal]. *)
#[local] Unset Elimination Schemes.
Inductive JValue :=
| JNull
| JBool (b : bool)
| JNumber (n : Z)
| JString (s : string)
| JArray (items : list JValue)
| JObject (fields : list (string * JValue)).
#[local] Set Elimination Schemes.

Record Message := {
  Role : string;
  Content : string
}.

Record ChatRequest := {
  ChatRequest_Model : string;
  ChatRequest_Messages : list Message;
  ChatRequest_Stream : bool;
  ChatRequest_Format : string;
  ChatRequest_Think : bool;
  (* [None] is the nil slice *)
  ChatRequest_Images : option (list string)
}.

Record ChatResponse := {
  ChatResponse_Model : string;
  ChatResponse_Message : Message;
  ChatResponse_CreatedAt : Time;
  ChatResponse_Done : bool
}.

Record ChatStreamResponse := {
  ChatStreamResponse_Model : string;
  ChatStreamResponse_Message : Message;
  ChatStreamResponse_CreatedAt : Time;
  ChatStreamResponse_Done : bool;
  ChatStreamResponse_Progress : Z;
  ChatStreamResponse_Total : Z;
  ChatStreamResponse_Completed : Z
}.

Record PullModelProgress := {
  PullModelProgress_Status : string;
  PullModelProgress_Digest : string;
  PullModelProgress_Total : Z;
  PullModelProgress_Completed : Z
}.

(** The values stored under [OrusResponse.Data]. *)
#[local] Unset Elimination Schemes.
Inductive Any :=
| AString (s : string)
| AInt (n : Z)
| AFloat32 (x : float32)
| AFloat64 (x : float64)
| ASlice (items : list Any).
#[local] Set Elimination Schemes.

(** Modelled from the spec: type [OrusResponse] is declared outside the
    sources at hand; its fields are those of the composite literal in
    [GetSystemInfo] (the response envelope of the data model: success flag,
    message, error string, data payload, elapsed duration, serial). *)
Record OrusResponse := {
  OrusResponse_Success : bool;
  OrusResponse_Serial : string;
  OrusResponse_Message : string;
  OrusResponse_Error : string;
  OrusResponse_TimeTaken : Duration;
  OrusResponse_Data : gmap string Any
}.

(** Modelled from the spec: type [OrusRequest] is declared outside the
    sources at hand; the handlers index its [Body] by field name with the
    two-value form, so it is a map from strings to untyped values. *)
Record OrusRequest := {
  Body : gmap string JValue
}.

(** [new(OrusRequest)]: the zero value, whose [Body] is the nil map. *)
Definition new_OrusRequest : OrusRequest := {| Body := ∅ |}.

(** The inbound [*http.Request]: its body, and whether its context is done
    once k effects of the request have been observed. *)
Record Request := {
  Request_Body : string;
  Request_ctx_Done : nat -> bool
}.

(** ** The backend, seen from the client *)

(** One step of [json.Decoder]: [decoder.More()] answered true and
    [decoder.Decode] then produced a value or failed.  The end of the list is
    [decoder.More()] answering false. *)
Inductive Decoded (A : Type) :=
| Object (a : A)
| Malformed (err : string).
Arguments Object {A} a.
Arguments Malformed {A} err.

(** The outcome of [http.NewRequest] followed by [c.httpClient.Do]. *)
Inductive HttpReply (A : Type) :=
| RequestInvalid (err : string)
| TransportError (err : string)
| Response (status : Z) (raw : string) (body : list (Decoded A)).
Arguments RequestInvalid {A} err.
Arguments TransportError {A} err.
Arguments Response {A} status raw body.

(** A Go result pair [(value, error)] with a non-nil error collapsed to [Err]. *)
Inductive Result (A : Type) :=
| Ok (a : A)
| Err (err : string).
Arguments Ok {A} a.
Arguments Err {A} err.

Inductive BackendCall :=
| ApiChat (req : ChatRequest)
| ApiEmbeddings (model prompt : string)
| ApiPull (name : string) (stream : bool).

Inductive Payload :=
| Envelope (resp : OrusResponse)
| JsonMap (v : JValue).

(** Everything a request does that can be observed from outside, in the
    order it happens. *)
Inductive Effect :=
| HttpDo (url : string) (call : BackendCall)
| Decode (n : nat)
| Embed (text : string)
| SetHeader (key value : string)
| Write (s : string)
| Flush
| RespondError (status : Z) (code message : string)
| RespondJSON (status : Z) (payload : Payload).

Definition StatusOK : Z := 200.
Definition StatusBadRequest : Z := 400.
Definition StatusInternalServerError : Z := 500.
Definition StatusGatewayTimeout : Z := 504.

(** What lies outside the repository: the libraries, the clock, the backend
    and the in-process embedder. *)
Record Env := {
  baseURL : string;
  clock : nat -> Time;
  uuid : nat -> string;
  json_Marshal : JValue -> string;
  time_json : Time -> JValue;
  Duration_String : Duration -> string;
  json_messages : JValue -> Result (list Message);
  (* whether the write attempted after k observed effects fails *)
  write_fails : nat -> bool;
  Flusher : bool;
  BGEM3Embedder_Embed : string -> Result (list float32);
  api_chat : ChatRequest -> HttpReply ChatResponse;
  api_chat_stream : ChatRequest -> HttpReply ChatStreamResponse;
  api_embeddings : string -> string -> HttpReply (list float64);
  api_pull : string -> HttpReply PullModelProgress;
  NewOrusResponse : OrusResponse
}.

(** ** A state monad over the observable world *)

(** The effects observed so far, the number of clock readings taken and the
    number of identifiers drawn. *)
Record World := {
  trace : list Effect;
  ticks : nat;
  serials : nat
}.

Definition M (A : Type) : Type := World -> A * World.

Definition ret {A} (a : A) : M A := fun w => (a, w).

Definition bind {A B} (m : M A) (k : A -> M B) : M B :=
  fun w => let (a, w') := m w in k a w'.

Notation "x <- m ;; k" := (bind m (fun x => k))
  (at level 20, m at level 99, k at level 200, only parsing).
Notation "m ;; k" := (bind m (fun _ => k))
  (at level 100, k at level 200, only parsing, right associativity).

Definition emit (e : Effect) : M unit := fun w =>
  (tt, {| trace := trace w ++ [e]; ticks := ticks w; serials := serials w |}).

Definition world0 : World :=
  {| trace := []; ticks := 0; serials := 0 |}.

(** ** [ollama_client.go] *)

Section Gateway.
Variable env : Env.

(** [time.Now()]: the next reading of the clock. *)
Definition time_Now : M Time := fun w =>
  (clock env (ticks w),
   {| trace := trace w; ticks := S (ticks w); serials := serials w |}).

Definition time_Since (t : Time) : M Duration :=
  now <- time_Now ;; ret (now - t)%Z.

(** [uuid.New().String()]: the next identifier of the generator. *)
Definition uuid_New : M string := fun w =>
  (uuid env (serials w),
   {| trace := trace w; ticks := ticks w; serials := S (serials w) |}).

(** [fmt.Fprintf(w, ...)]: the write is attempted; the answer is whether it
    went through. *)
Definition Fprintf (s : string) : M bool := fun w =>
  (negb (write_fails env (length (trace w))),
   {| trace := trace w ++ [Write s]; ticks := ticks w; serials := serials w |}).

(** The non-blocking [select] on [ctx.Done()]. *)
Definition ctx_Done (r : Request) : M bool := fun w =>
  (Request_ctx_Done r (length (trace w)), w).

Definition status_error (status : Z) (raw : string) : string :=
  "error from Ollama (status " +:+ pretty status +:+ "): " +:+ raw.

Definition ChatResponse_zero : ChatResponse :=
  {| ChatResponse_Model := "";
     ChatResponse_Message := {| Role := ""; Content := "" |};
     ChatResponse_CreatedAt := 0%Z;
     ChatResponse_Done := false |}.

(** The [for decoder.More()] loop of [Chat]; [n] counts the values decoded
    so far. *)
Fixpoint Chat_loop (body : list (Decoded ChatResponse)) (n : nat)
    (finalResponse : ChatResponse) (fullContent : string)
  : M (Result (ChatResponse * string)) :=
  match body with
  | [] => ret (Ok (finalResponse, fullContent))
  | item :: rest =>
      emit (Decode n) ;;
      match item with
      | Malformed err => ret (Err ("error decoding response: " +:+ err))
      | Object chatResp =>
          let fullContent :=
            fullContent +:+ Content (ChatResponse_Message chatResp) in
          let finalResponse :=
            {| ChatResponse_Model := ChatResponse_Model chatResp;
               ChatResponse_Message :=
                 {| Role := Role (ChatResponse_Message chatResp);
                    Content := Content (ChatResponse_Message finalResponse) |};
               ChatResponse_CreatedAt := ChatResponse_CreatedAt chatResp;
               ChatResponse_Done := ChatResponse_Done chatResp |} in
          if ChatResponse_Done chatResp
          then ret (Ok (finalResponse, fullContent))
          else Chat_loop rest (S n) finalResponse fullContent
      end
  end.

(** [json.Marshal] of a [ChatRequest] does not fail; the branch is left
    out here and in [ChatStream]. *)
Definition Chat (req : ChatRequest) : M (Result ChatResponse) :=
  let url := baseURL env +:+ "/api/chat" in
  match api_chat env req with
  | RequestInvalid err => ret (Err ("error creating request: " +:+ err))
  | TransportError err =>
      emit (HttpDo url (ApiChat req)) ;;
      ret (Err ("error making request: " +:+ err))
  | Response status raw body =>
      emit (HttpDo url (ApiChat req)) ;;
      if decide (status <> StatusOK)
      then ret (Err (status_error status raw))
      else
        r <- Chat_loop body 0 ChatResponse_zero "" ;;
        match r with
        | Err err => ret (Err err)
        | Ok (finalResponse, fullContent) =>
            ret (Ok {| ChatResponse_Model := ChatResponse_Model finalResponse;
                       ChatResponse_Message :=
                         {| Role := Role (ChatResponse_Message finalResponse);
                            Content := fullContent |};
                       ChatResponse_CreatedAt :=
                         ChatResponse_CreatedAt finalResponse;
                       ChatResponse_Done := ChatResponse_Done finalResponse |})
        end
  end.

(** The loop of [ChatStream]; [fullContent] is declared inside the loop
    body, so it starts empty at every iteration.  [L] is the state the
    callback closes over. *)
Fixpoint ChatStream_loop {L : Type} (req : ChatRequest)
    (chatStreamProgressCallback : ChatStreamResponse -> L -> M L)
    (body : list (Decoded ChatStreamResponse)) (n : nat) (l : L)
  : M (L * option string) :=
  match body with
  | [] => ret (l, None)
  | item :: rest =>
      emit (Decode n) ;;
      match item with
      | Malformed err => ret (l, Some ("error decoding response: " +:+ err))
      | Object chatResp =>
          let fullContent := "" in
          let fullContent :=
            fullContent +:+ Content (ChatStreamResponse_Message chatResp) in
          now <- time_Now ;;
          let chatResp :=
            {| ChatStreamResponse_Model := ChatRequest_Model req;
               ChatStreamResponse_Message :=
                 {| Role := Role (ChatStreamResponse_Message chatResp);
                    Content := fullContent |};
               ChatStreamResponse_CreatedAt := now;
               ChatStreamResponse_Done := ChatStreamResponse_Done chatResp;
               ChatStreamResponse_Progress :=
                 ChatStreamResponse_Progress chatResp;
               ChatStreamResponse_Total := ChatStreamResponse_Total chatResp;
               ChatStreamResponse_Completed :=
                 ChatStreamResponse_Completed chatResp |} in
          l <- chatStreamProgressCallback chatResp l ;;
          if ChatStreamResponse_Done chatResp
          then ret (l, None)
          else ChatStream_loop req chatStreamProgressCallback rest (S n) l
      end
  end.

Definition ChatStream {L : Type} (req : ChatRequest)
    (chatStreamProgressCallback : ChatStreamResponse -> L -> M L) (l : L)
  : M (L * option string) :=
  let req :=
    {| ChatRequest_Model := ChatRequest_Model req;
       ChatRequest_Messages := ChatRequest_Messages req;
       ChatRequest_Stream := true;
       ChatRequest_Format := ChatRequest_Format req;
       ChatRequest_Think := ChatRequest_Think req;
       ChatRequest_Images := ChatRequest_Images req |} in
  let url := baseURL env +:+ "/api/chat" in
  match api_chat_stream env req with
  | RequestInvalid err => ret (l, Some ("error creating request: " +:+ err))
  | TransportError err =>
      emit (HttpDo url (ApiChat req)) ;;
      ret (l, Some ("error making request: " +:+ err))
  | Response status raw body =>
      emit (HttpDo url (ApiChat req)) ;;
      if decide (status <> StatusOK)
      then ret (l, Some (status_error status raw))
      else ChatStream_loop req chatStreamProgressCallback body 0 l
  end.

(** [GetEmbedding] decodes one value without asking [More]: the head of
    the body is what [Decode] yields, and an empty body is [io.EOF]. *)
Definition GetEmbedding (model text : string) : M (Result (list float64)) :=
  let url := baseURL env +:+ "/api/embeddings" in
  match api_embeddings env model text with
  | RequestInvalid err => ret (Err ("error creating request: " +:+ err))
  | TransportError err =>
      emit (HttpDo url (ApiEmbeddings model text)) ;;
      ret (Err ("error making request: " +:+ err))
  | Response status raw body =>
      emit (HttpDo url (ApiEmbeddings model text)) ;;
      if decide (status <> StatusOK)
      then ret (Err (status_error status raw))
      else
        emit (Decode 0) ;;
        match body with
        | [] => ret (Err ("error decoding response: " +:+ "EOF"))
        | Malformed err :: _ => ret (Err ("error decoding response: " +:+ err))
        | Object embedding :: _ => ret (Ok embedding)
        end
  end.

(** The loop of [PullModel]; a nil [progressCallback] is [None]. *)
Fixpoint PullModel_loop {L : Type}
    (progressCallback : option (PullModelProgress -> L -> M L))
    (body : list (Decoded PullModelProgress)) (n : nat) (l : L)
  : M (L * option string) :=
  match body with
  | [] => ret (l, None)
  | item :: rest =>
      emit (Decode n) ;;
      match item with
      | Malformed err => ret (l, Some err)
      | Object progress =>
          l <- match progressCallback with
               | Some callback => callback progress l
               | None => ret l
               end ;;
          if String.eqb (PullModelProgress_Status progress) "success"
          then ret (l, None)
          else PullModel_loop progressCallback rest (S n) l
      end
  end.

Definition PullModel {L : Type} (modelName : string)
    (progressCallback : option (PullModelProgress -> L -> M L)) (l : L)
  : M (L * option string) :=
  let url := baseURL env +:+ "/api/pull" in
  match api_pull env modelName with
  | RequestInvalid err => ret (l, Some err)
  | TransportError err =>
      emit (HttpDo url (ApiPull modelName true)) ;;
      ret (l, Some err)
  | Response status raw body =>
      emit (HttpDo url (ApiPull modelName true)) ;;
      if decide (status <> StatusOK)
      then ret (l, Some ("erro do servidor: status " +:+ pretty status))
      else PullModel_loop progressCallback body 0 l
  end.

(** ** [orus.go]: JSON shapes of what is written to the client *)

(** An SSE frame: [fmt.Fprintf(w, "data: %s\n\n", json)]. *)
Definition sse_data (json : string) : string :=
  "data: " +:+ json +:+ LF +:+ LF.

Definition omitempty_string (key s : string) : list (string * JValue) :=
  if String.eqb s "" then [] else [(key, JString s)].

Definition omitempty_int (key : string) (n : Z) : list (string * JValue) :=
  if Z.eqb n 0 then [] else [(key, JNumber n)].

Definition Message_json (m : Message) : JValue :=
  JObject [("role", JString (Role m)); ("content", JString (Content m))].

Definition ChatStreamResponse_json (c : ChatStreamResponse) : JValue :=
  JObject ([("model", JString (ChatStreamResponse_Model c));
            ("message", Message_json (ChatStreamResponse_Message c));
            ("created_at", time_json env (ChatStreamResponse_CreatedAt c));
            ("done", JBool (ChatStreamResponse_Done c));
            ("progress", JNumber (ChatStreamResponse_Progress c))]
           ++ omitempty_int "total" (ChatStreamResponse_Total c)
           ++ omitempty_int "completed" (ChatStreamResponse_Completed c)).

Definition PullModelProgress_json (p : PullModelProgress) : JValue :=
  JObject ([("status", JString (PullModelProgress_Status p))]
           ++ omitempty_string "digest" (PullModelProgress_Digest p)
           ++ omitempty_int "total" (PullModelProgress_Total p)
           ++ omitempty_int "completed" (PullModelProgress_Completed p)).

(** The maps handed to [json.Marshal], keys in the sorted order in which
    [encoding/json] writes them. *)
Definition error_frame (err : string) : JValue :=
  JObject [("error", JString err); ("status", JString "error")].

Definition pull_success_frame (name : string) : JValue :=
  JObject [("message",
            JString ("Model " +:+ name +:+ " downloaded successfully"));
           ("status", JString "success")].

Definition chat_summary_frame (content serial time_taken model : string)
  : JValue :=
  JObject [("content", JString content);
           ("message", JString "LLM request received successfully");
           ("model", JString model);
           ("serial", JString serial);
           ("status", JString "success");
           ("stream", JBool true);
           ("time_taken", JString time_taken)].

Definition chat_success_map (content serial time_taken model : string)
    (stream think : bool) : JValue :=
  JObject [("content", JString content);
           ("message", JString "LLM request received successfully");
           ("model", JString model);
           ("serial", JString serial);
           ("stream", JBool stream);
           ("success", JBool true);
           ("think", JBool think);
           ("time_taken", JString time_taken)].

(** ** [embedText]: the provider switch *)

Definition embed_failed (resp : OrusResponse) (err message : string)
    (startTime : Time) : M OrusResponse :=
  taken <- time_Since startTime ;;
  ret {| OrusResponse_Success := false;
         OrusResponse_Serial := OrusResponse_Serial resp;
         OrusResponse_Message := message;
         OrusResponse_Error := err;
         OrusResponse_TimeTaken := taken;
         OrusResponse_Data := OrusResponse_Data resp |}.

Definition embed_succeeded (resp : OrusResponse) (serial : string)
    (vector : list Any) (text model : string) (dimensions : nat)
    (quantization : string) (startTime : Time) : M OrusResponse :=
  let data : gmap string Any :=
    <["serial" := AString serial]>
    (<["vector" := ASlice vector]>
    (<["text" := AString text]>
    (<["model" := AString model]>
    (<["dimensions" := AInt (Z.of_nat dimensions)]>
    (<["quantization" := AString quantization]> ∅))))) in
  taken <- time_Since startTime ;;
  ret {| OrusResponse_Success := true;
         OrusResponse_Serial := OrusResponse_Serial resp;
         OrusResponse_Message := "Embed request received successfully";
         OrusResponse_Error := OrusResponse_Error resp;
         OrusResponse_TimeTaken := taken;
         OrusResponse_Data := data |}.

Definition embedText (model text : string) (startTime : Time)
  : M OrusResponse :=
  let resp := NewOrusResponse env in
  serial <- uuid_New ;;
  if String.eqb model "bge-m3" then
    emit (Embed text) ;;
    match BGEM3Embedder_Embed env text with
    | Err err =>
        embed_failed resp err
          ("Error embedding text with model " +:+ model) startTime
    | Ok vector32 =>
        embed_succeeded resp serial (map AFloat32 vector32) text model
          (length vector32) "float32" startTime
    end
  else if String.eqb model "nomic-embed-text:latest" then
    r <- GetEmbedding model text ;;
    match r with
    | Err err =>
        embed_failed resp err
          ("Error embedding text with model " +:+ model) startTime
    | Ok vector64 =>
        embed_succeeded resp serial (map AFloat64 vector64) text model
          (length vector64) "float64" startTime
    end
  else if String.eqb model "ollama-bge-m3" then
    r <- GetEmbedding "bge-m3:latest" text ;;
    match r with
    | Err err =>
        embed_failed resp err
          ("Error embedding text with model " +:+ model) startTime
    | Ok vector64 =>
        embed_succeeded resp serial (map AFloat64 vector64) text model
          (length vector64) "float64" startTime
    end
  else
    embed_failed resp "Invalid model" "Invalid model" startTime.

(** ** [EmbedText]: validation; what follows it is the deadline dispatch

    [Some (startTime, model, text)] means that the handler went on to
    dispatch [embedText model text startTime] under the deadline. *)
Definition EmbedText_from (request : OrusRequest) (startTime : Time)
  : M (option (Time * string * string)) :=
  match Body request !! "model" with
  | None =>
      emit (RespondError StatusBadRequest "missing_model"
              "Field 'model' is required") ;;
      ret None
  | Some (JString model) =>
      match Body request !! "text" with
      | None =>
          emit (RespondError StatusBadRequest "missing_text"
                  "Field 'text' is required") ;;
          ret None
      | Some (JString text) => ret (Some (startTime, model, text))
      | Some _ =>
          emit (RespondError StatusBadRequest "invalid_text"
                  "Field 'text' must be a string") ;;
          ret None
      end
  | Some _ =>
      emit (RespondError StatusBadRequest "invalid_model"
              "Field 'model' must be a string") ;;
      ret None
  end.

Definition EmbedText (r : Request) : M (option (Time * string * string)) :=
  startTime <- time_Now ;;
  let request := new_OrusRequest in
  EmbedText_from request startTime.

(** ** [OllamaPullModel] *)

Definition progressCallback (r : Request) (progress : PullModelProgress)
    (l : unit) : M unit :=
  done <- ctx_Done r ;;
  if done then ret tt
  else
    let data := json_Marshal env (PullModelProgress_json progress) in
    ok <- Fprintf (sse_data data) ;;
    if ok then emit Flush else ret tt.

(** The handler from the declaration of [req] on, for a given [req.Name]. *)
Definition OllamaPullModel_from (req_Name : string) (r : Request) : M unit :=
  if String.eqb req_Name "" then
    emit (RespondError StatusBadRequest "missing_name"
            "Field 'name' is required")
  else
    emit (SetHeader "Content-Type" "text/event-stream") ;;
    emit (SetHeader "Cache-Control" "no-cache") ;;
    emit (SetHeader "Connection" "keep-alive") ;;
    if negb (Flusher env) then
      emit (RespondError StatusInternalServerError "streaming_not_supported"
              "Streaming not supported")
    else
      res <- PullModel req_Name (Some (progressCallback r)) tt ;;
      match snd res with
      | Some err =>
          let errorData := json_Marshal env (error_frame err) in
          Fprintf (sse_data errorData) ;;
          emit Flush
      | None =>
          let successData := json_Marshal env (pull_success_frame req_Name) in
          Fprintf (sse_data successData) ;;
          emit Flush
      end.

(** [var req struct { Name string }] is never filled in. *)
Definition OllamaPullModel (r : Request) : M unit :=
  let req_Name := "" in
  OllamaPullModel_from req_Name r.

(** ** [CallLLM] *)

(** The closure over [w], [flusher] and the [content] slice. *)
Definition chatStreamProgressCallback (chatResp : ChatStreamResponse)
    (content : list string) : M (list string) :=
  let data := json_Marshal env (ChatStreamResponse_json chatResp) in
  Fprintf (sse_data data) ;;
  emit Flush ;;
  ret (content ++ [Content (ChatStreamResponse_Message chatResp)]).

(** The [if stream] branch. *)
Definition CallLLM_stream (chatRequest : ChatRequest) (model : string)
    (startTime : Time) : M unit :=
  emit (SetHeader "Content-Type" "text/event-stream") ;;
  emit (SetHeader "Cache-Control" "no-cache") ;;
  emit (SetHeader "Connection" "keep-alive") ;;
  let content : list string := [] in
  if negb (Flusher env) then
    emit (RespondError StatusInternalServerError "streaming_not_supported"
            "Streaming not supported")
  else
    emit Flush ;;
    res <- ChatStream chatRequest chatStreamProgressCallback content ;;
    let content := fst res in
    match snd res with
    | Some err =>
        let errorData := json_Marshal env (error_frame err) in
        Fprintf (sse_data errorData) ;;
        emit Flush
    | None =>
        serial <- uuid_New ;;
        taken <- time_Since startTime ;;
        let successData :=
          json_Marshal env
            (chat_summary_frame (String.concat "" content) serial
               (Duration_String env taken) model) in
        Fprintf (sse_data successData) ;;
        emit Flush
    end.

(** The [else] branch. *)
Definition CallLLM_sync (chatRequest : ChatRequest) (model : string)
    (stream think : bool) (response : OrusResponse) (startTime : Time)
  : M unit :=
  responseLLM <- Chat chatRequest ;;
  match responseLLM with
  | Err err =>
      taken <- time_Since startTime ;;
      emit (RespondJSON StatusInternalServerError
              (Envelope {| OrusResponse_Success := false;
                           OrusResponse_Serial := OrusResponse_Serial response;
                           OrusResponse_Message := "Error calling LLM";
                           OrusResponse_Error := err;
                           OrusResponse_TimeTaken := taken;
                           OrusResponse_Data := OrusResponse_Data response |}))
  | Ok responseLLM =>
      serial <- uuid_New ;;
      taken <- time_Since startTime ;;
      emit (RespondJSON StatusOK
              (JsonMap (chat_success_map
                          (Content (ChatResponse_Message responseLLM)) serial
                          (Duration_String env taken) model stream think)))
  end.

(** The handler from the first lookup in [request.Body] on.  ([json.Marshal]
    of a decoded JSON value does not fail; [json_messages] is that call
    followed by [json.Unmarshal] into [[]Message].) *)
Definition CallLLM_from (request : OrusRequest) (response : OrusResponse)
    (startTime : Time) : M unit :=
  match Body request !! "model" with
  | None =>
      emit (RespondError StatusBadRequest "missing_model"
              "Field 'model' is required")
  | Some (JString model) =>
      match Body request !! "think" with
      | None =>
          emit (RespondError StatusBadRequest "missing_think"
                  "Field 'think' is required")
      | Some (JBool think) =>
          match Body request !! "messages" with
          | None =>
              emit (RespondError StatusBadRequest "missing_messages"
                      "Field 'messages' is required")
          | Some messagesRaw =>
              match json_messages env messagesRaw with
              | Err err =>
                  emit (RespondError StatusBadRequest "invalid_messages"
                          ("Error unmarshalling messages: " +:+ err))
              | Ok messages =>
                  let stream :=
                    match Body request !! "stream" with
                    | Some (JBool b) => b
                    | _ => false
                    end in
                  let format :=
                    match Body request !! "format" with
                    | Some (JString format) => format
                    | _ => ""
                    end in
                  (* a decoded JSON array is never a [[]string] *)
                  let images :=
                    match Body request !! "images" with
                    | Some _ => Some []
                    | None => None
                    end in
                  let chatRequest :=
                    {| ChatRequest_Model := model;
                       ChatRequest_Messages := messages;
                       ChatRequest_Stream := stream;
                       ChatRequest_Format := format;
                       ChatRequest_Think := think;
                       ChatRequest_Images := images |} in
                  if stream
                  then CallLLM_stream chatRequest model startTime
                  else CallLLM_sync chatRequest model stream think response
                         startTime
              end
          end
      | Some _ =>
          emit (RespondError StatusBadRequest "invalid_think"
                  "Field 'think' must be a boolean")
      end
  | Some _ =>
      emit (RespondError StatusBadRequest "invalid_model"
              "Field 'model' must be a string")
  end.

Definition CallLLM (r : Request) : M unit :=
  startTime <- time_Now ;;
  let response := NewOrusResponse env in
  let request := new_OrusRequest in
  CallLLM_from request response startTime.

(** ** [EmbedText]: the dispatch under a deadline

    The block that follows the validation: [context.WithTimeout], the
    buffered [respChan], the worker goroutine and the handler's [select].
    Both goroutines, the channel and the context are one state; an event is
    one atomic move of one of them.  Time is counted from the handler's
    start and may pass in every state, also between the [go] statement and
    the handler's [select]: the scheduler promises nothing.  The context is
    done at its deadline and [embedText] returns when its time is up, neither
    later.  A goroutine parked in a [select] is woken by the first case that
    becomes ready, and a [select] entered with several cases ready takes any
    of them. *)

Definition Second : Duration := 1000000000%Z.

Record Dispatch := {
  (* when [r.Context()] is done; [None]: never *)
  parent_done : option Z;
  (* when [s.embedText] returns; [None]: never *)
  latency : option Z;
  (* what [s.embedText] returns *)
  result : OrusResponse
}.

(** [context.WithTimeout(r.Context(), 60*time.Second)]. *)
Definition deadline (d : Dispatch) : Z :=
  match parent_done d with
  | Some p => Z.min p (60 * Second)%Z
  | None => (60 * Second)%Z
  end.

Inductive Worker :=
| Running
| Selecting
| Exited.

Inductive Branch :=
| Received (resp : OrusResponse)
| Expired.

Inductive Handler :=
| Entering
| Parked
| Woken (b : Branch)
| Returned.

Record State := {
  elapsed : Z;
  ctxDone : bool;
  respChan : option OrusResponse;
  worker : Worker;
  handler : Handler;
  written : list Effect
}.

Inductive Event :=
| Tick (t : Z)
| Fire
| Return
| Send
| Abandon
| EnterPark
| EnterRecv
| EnterExpired
| Respond.

Definition timeoutResp (taken : Duration) : OrusResponse :=
  let timeoutResp := NewOrusResponse env in
  {| OrusResponse_Success := false;
     OrusResponse_Serial := OrusResponse_Serial timeoutResp;
     OrusResponse_Message := "Error Timeout";
     OrusResponse_Error := "Error Timeout";
     OrusResponse_TimeTaken := taken;
     OrusResponse_Data := OrusResponse_Data timeoutResp |}.

(** The two branches of the handler's [select]. *)
Definition respond (b : Branch) (taken : Duration) : Effect :=
  match b with
  | Received resp => RespondJSON StatusOK (Envelope resp)
  | Expired => RespondJSON StatusGatewayTimeout (Envelope (timeoutResp taken))
  end.

Definition init (d : Dispatch) : State :=
  {| elapsed := 0%Z;
     ctxDone := Z.leb (deadline d) 0;
     respChan := None;
     worker := Running;
     handler := Entering;
     written := [] |}.

Definition is_Running (k : Worker) : bool :=
  match k with Running => true | _ => false end.

(** Time may pass up to the next instant at which something is due: the
    deadline while the context is live, the return of [embedText] while the
    worker runs. *)
Definition may_pass (d : Dispatch) (s : State) (t : Z) : bool :=
  Z.ltb (elapsed s) t
  && (ctxDone s || Z.leb t (deadline d))
  && (negb (is_Running (worker s))
      || match latency d with Some l => Z.leb t l | None => true end).

Definition step (d : Dispatch) (ev : Event) (s : State) : option State :=
  match ev with
  | Tick t =>
      if may_pass d s t
      then Some {| elapsed := t; ctxDone := ctxDone s;
                   respChan := respChan s; worker := worker s;
                   handler := handler s; written := written s |}
      else None
  | Fire =>
      (* the timer, or the parent context, closes [ctx.Done()] *)
      if negb (ctxDone s) && Z.eqb (elapsed s) (deadline d)
      then Some {| elapsed := elapsed s; ctxDone := true;
                   respChan := respChan s; worker := worker s;
                   handler := match handler s with
                              | Parked => Woken Expired
                              | h => h
                              end;
                   written := written s |}
      else None
  | Return =>
      (* [resp := s.embedText(model, text, startTime)] *)
      match worker s, latency d with
      | Running, Some l =>
          if Z.eqb (elapsed s) l
          then Some {| elapsed := elapsed s; ctxDone := ctxDone s;
                       respChan := respChan s; worker := Selecting;
                       handler := handler s; written := written s |}
          else None
      | _, _ => None
      end
  | Send =>
      (* [case respChan <- resp]: into the buffer, or straight to the
         handler parked on the channel *)
      match worker s, respChan s with
      | Selecting, None =>
          match handler s with
          | Parked =>
              Some {| elapsed := elapsed s; ctxDone := ctxDone s;
                      respChan := None; worker := Exited;
                      handler := Woken (Received (result d));
                      written := written s |}
          | h =>
              Some {| elapsed := elapsed s; ctxDone := ctxDone s;
                      respChan := Some (result d); worker := Exited;
                      handler := h; written := written s |}
          end
      | _, _ => None
      end
  | Abandon =>
      (* [case <-ctx.Done()] of the worker *)
      match worker s with
      | Selecting =>
          if ctxDone s
          then Some {| elapsed := elapsed s; ctxDone := ctxDone s;
                       respChan := respChan s; worker := Exited;
                       handler := handler s; written := written s |}
          else None
      | _ => None
      end
  | EnterPark =>
      match handler s, respChan s with
      | Entering, None =>
          if ctxDone s then None
          else Some {| elapsed := elapsed s; ctxDone := ctxDone s;
                       respChan := respChan s; worker := worker s;
                       handler := Parked; written := written s |}
      | _, _ => None
      end
  | EnterRecv =>
      match handler s, respChan s with
      | Entering, Some resp =>
          Some {| elapsed := elapsed s; ctxDone := ctxDone s;
                  respChan := None; worker := worker s;
                  handler := Woken (Received resp); written := written s |}
      | _, _ => None
      end
  | EnterExpired =>
      match handler s with
      | Entering =>
          if ctxDone s
          then Some {| elapsed := elapsed s; ctxDone := ctxDone s;
                       respChan := respChan s; worker := worker s;
                       handler := Woken Expired; written := written s |}
          else None
      | _ => None
      end
  | Respond =>
      (* the chosen branch runs [respondJSON]; the deferred [cancel()]
         follows *)
      match handler s with
      | Woken b =>
          Some {| elapsed := elapsed s; ctxDone := true;
                  respChan := respChan s; worker := worker s;
                  handler := Returned;
                  written := written s ++ [respond b (elapsed s)] |}
      | _ => None
      end
  end.

Fixpoint run (d : Dispatch) (evs : list Event) (s : State) : option State :=
  match evs with
  | [] => Some s
  | ev :: evs =>
      match step d ev s with
      | Some s' => run d evs s'
      | None => None
      end
  end.

End Gateway.

(** ** What a decoding loop takes off a stream *)

(** The objects a [for decoder.More()] loop decodes before it leaves: the
    loop leaves after the first object on which [stop] holds, at the first
    value that fails to decode, or at the end of the stream. *)
Fixpoint consumed {A : Type} (stop : A -> bool) (body : list (Decoded A))
  : list A :=
  match body with
  | Object a :: rest => a :: (if stop a then [] else consumed stop rest)
  | _ => []
  end.

(** The error of the value at which the loop fails, if it gets to one. *)
Fixpoint decode_failure {A : Type} (stop : A -> bool)
    (body : list (Decoded A)) : option string :=
  match body with
  | [] => None
  | Malformed err :: _ => Some err
  | Object a :: rest => if stop a then None else decode_failure stop rest
  end.

(** The [Decode] left in the trace by the value that fails, after [k]
    objects went through. *)
Definition failed_decode {A : Type} (stop : A -> bool)
    (body : list (Decoded A)) (k : nat) : list Effect :=
  match decode_failure stop body with
  | Some _ => [Decode k]
  | None => []
  end.

(** What [json.Decoder] finds at the top level of a body, item after item:
    a value that decodes, a value on which [Decode] fails, or a closing
    bracket or brace, on which [More] answers false as it does at the end
    of the body. *)
Inductive Item (A : Type) :=
| Value (a : A)
| Invalid (err : string)
| Closing.
Arguments Value {A} a.
Arguments Invalid {A} err.
Arguments Closing {A}.

(** What a [for decoder.More()] loop can get out of such a body. *)
Fixpoint seen_by_decoder {A : Type} (items : list (Item A))
  : list (Decoded A) :=
  match items with
  | [] => []
  | Value a :: rest => Object a :: seen_by_decoder rest
  | Invalid err :: rest => Malformed err :: seen_by_decoder rest
  | Closing :: _ => []
  end.

Definition is_success (p : PullModelProgress) : bool :=
  String.eqb (PullModelProgress_Status p) "success".

Definition delta (c : ChatStreamResponse) : string :=
  Content (ChatStreamResponse_Message c).

(** What [ChatStream] hands to its callback for the decoded event [ev],
    stamped at [now]. *)
Definition delivered (req : ChatRequest) (now : Time)
    (ev : ChatStreamResponse) : ChatStreamResponse :=
  {| ChatStreamResponse_Model := ChatRequest_Model req;
     ChatStreamResponse_Message :=
       {| Role := Role (ChatStreamResponse_Message ev);
          Content := Content (ChatStreamResponse_Message ev) |};
     ChatStreamResponse_CreatedAt := now;
     ChatStreamResponse_Done := ChatStreamResponse_Done ev;
     ChatStreamResponse_Progress := ChatStreamResponse_Progress ev;
     ChatStreamResponse_Total := ChatStreamResponse_Total ev;
     ChatStreamResponse_Completed := ChatStreamResponse_Completed ev |}.

(** The same for a whole run of events, the first stamped with the [t]-th
    reading of the clock. *)
Definition deliveries (env : Env) (req : ChatRequest) (t : nat)
    (evs : list ChatStreamResponse) : list ChatStreamResponse :=
  imap (fun i ev => delivered req (clock env (t + i)) ev) evs.

(** A callback that only records what it is called with. *)
Definition record {A : Type} (a : A) (l : list A) : M (list A) :=
  ret (l ++ [a]).

(** The request as [ChatStream] sends it: [req.Stream = true]. *)
Definition streaming (req : ChatRequest) : ChatRequest :=
  {| ChatRequest_Model := ChatRequest_Model req;
     ChatRequest_Messages := ChatRequest_Messages req;
     ChatRequest_Stream := true;
     ChatRequest_Format := ChatRequest_Format req;
     ChatRequest_Think := ChatRequest_Think req;
     ChatRequest_Images := ChatRequest_Images req |}.

Definition chat_delta (c : ChatResponse) : string :=
  Content (ChatResponse_Message c).

(** [finalResponse] after the loop of [Chat] went through [evs]: the fields
    of the last one, the [Content] untouched. *)
Definition Chat_last (finalResponse : ChatResponse) (evs : list ChatResponse)
  : ChatResponse :=
  foldl (fun finalResponse chatResp =>
           {| ChatResponse_Model := ChatResponse_Model chatResp;
              ChatResponse_Message :=
                {| Role := Role (ChatResponse_Message chatResp);
                   Content := Content (ChatResponse_Message finalResponse) |};
              ChatResponse_CreatedAt := ChatResponse_CreatedAt chatResp;
              ChatResponse_Done := ChatResponse_Done chatResp |})
        finalResponse evs.


(** What holds of every state of a dispatch: nothing is written before the
    handler returns and one response after it, the result of the worker with
    status 200 or the timeout envelope with status 504, the latter not
    before the deadline. *)
Definition one_response (env : Env) (d : Dispatch) (s : State) : Prop :=
  match handler s with
  | Returned =>
      written s = [RespondJSON StatusOK (Envelope (result d))]
      \/ exists taken,
           (deadline d <= taken)%Z /\
           written s =
             [RespondJSON StatusGatewayTimeout
                (Envelope (timeoutResp env taken))]
  | _ => written s = []
  end.

(** What every state keeps, whatever the schedule. *)
Definition safe (env : Env) (d : Dispatch) (s : State) : Prop :=
  one_response env d s /\
  (forall resp, respChan s = Some resp -> resp = result d) /\
  (forall resp, handler s = Woken (Received resp) -> resp = result d) /\
  (ctxDone s = true -> handler s <> Returned -> (deadline d <= elapsed s)%Z) /\
  (handler s = Woken Expired -> (deadline d <= elapsed s)%Z).


(** The effects that reach the embedder or the backend. *)
Definition calls_out (e : Effect) : bool :=
  match e with
  | HttpDo _ _ | Decode _ | Embed _ => true
  | _ => false
  end.

(** The stream a client method decodes: the body of a 200 reply. *)
Definition response_body {A : Type} (reply : HttpReply A)
  : list (Decoded A) :=
  match reply with
  | Response status _ body =>
      if decide (status = StatusOK) then body else []
  | _ => []
  end.

(** Callbacks that only compute on their closure state and write. *)
Definition simple {A L : Type} (callback : A -> L -> M L) (f : A -> L -> L)
    (out : A -> list Effect) : Prop :=
  forall x l w,
    callback x l w =
    (f x l,
     {| trace := trace w ++ out x; ticks := ticks w; serials := serials w |}).

(** One frame of effects per element, numbered from [n]. *)
Definition numbered {A : Type} (out : A -> list Effect) (n : nat)
    (xs : list A) : list Effect :=
  concat (imap (fun i x => Decode (n + i) :: out x) xs).

(** ** A small backend to run the model on *)

Fixpoint demo_Marshal (v : JValue) : string :=
  match v with
  | JNull => "null"
  | JBool true => "true"
  | JBool false => "false"
  | JNumber n => pretty n
  | JString s => s
  | JArray items => "[" +:+ String.concat "," (map demo_Marshal items) +:+ "]"
  | JObject fields =>
      "{" +:+ String.concat ","
                (map (fun kv => fst kv +:+ ":" +:+ demo_Marshal (snd kv))
                     fields)
          +:+ "}"
  end.

Definition demo_event (content : string) (done : bool) : ChatStreamResponse :=
  {| ChatStreamResponse_Model := "llama3.1:8b-instruct";
     ChatStreamResponse_Message := {| Role := "assistant"; Content := content |};
     ChatStreamResponse_CreatedAt := 1700000000%Z;
     ChatStreamResponse_Done := done;
     ChatStreamResponse_Progress := 0%Z;
     ChatStreamResponse_Total := 0%Z;
     ChatStreamResponse_Completed := 0%Z |}.

Definition demo_reply (content : string) (done : bool) : ChatResponse :=
  {| ChatResponse_Model := "llama3.1:8b-instruct";
     ChatResponse_Message := {| Role := "assistant"; Content := content |};
     ChatResponse_CreatedAt := 1700000000%Z;
     ChatResponse_Done := done |}.

Definition demo_progress (status : string) (completed : Z)
  : PullModelProgress :=
  {| PullModelProgress_Status := status;
     PullModelProgress_Digest := "sha256:6a0746a1ec1a";
     PullModelProgress_Total := 100%Z;
     PullModelProgress_Completed := completed |}.

Definition demo_response : OrusResponse :=
  {| OrusResponse_Success := false;
     OrusResponse_Serial := "";
     OrusResponse_Message := "";
     OrusResponse_Error := "";
     OrusResponse_TimeTaken := 0%Z;
     OrusResponse_Data := ∅ |}.

(** The backend answers a chat with the deltas "Hel" and "lo"; the model
    "broken" gets a value that does not parse in between.  Pulling "llama3"
    ends in a success object followed by one more; pulling anything else
    ends without one. *)
Definition demo : Env :=
  {| baseURL := "http://localhost:11434";
     clock := fun k => (1000 + 10 * Z.of_nat k)%Z;
     uuid := fun k => "serial-" +:+ pretty k;
     json_Marshal := demo_Marshal;
     time_json := JNumber;
     Duration_String := fun d => pretty d +:+ "ns";
     json_messages := fun _ => Ok [];
     write_fails := fun _ => false;
     Flusher := true;
     BGEM3Embedder_Embed := fun _ => Ok [S754_zero false; S754_zero true];
     api_chat := fun _ =>
       Response StatusOK ""
         [Object (demo_reply "Hel" false); Object (demo_reply "lo" true)];
     api_chat_stream := fun req =>
       if String.eqb (ChatRequest_Model req) "broken"
       then Response StatusOK ""
              [Object (demo_event "Hel" false);
               Malformed "unexpected end of JSON input";
               Object (demo_event "lo" true)]
       else Response StatusOK ""
              [Object (demo_event "Hel" false); Object (demo_event "lo" true)];
     api_embeddings := fun _ _ =>
       Response StatusOK "" [Object [S754_zero false; S754_zero false;
                                     S754_zero true]];
     api_pull := fun name =>
       if String.eqb name "llama3"
       then Response StatusOK ""
              [Object (demo_progress "pulling manifest" 40);
               Object (demo_progress "success" 100);
               Object (demo_progress "verifying" 100)]
       else Response StatusOK ""
              [Object (demo_progress "pulling manifest" 40);
               Object (demo_progress "downloading" 70)];
     NewOrusResponse := demo_response |}.

Definition demo_request (model : string) : ChatRequest :=
  {| ChatRequest_Model := model;
     ChatRequest_Messages := [{| Role := "user"; Content := "Hi" |}];
     ChatRequest_Stream := true;
     ChatRequest_Format := "";
     ChatRequest_Think := false;
     ChatRequest_Images := None |}.

Definition demo_http : Request :=
  {| Request_Body := "{model:bge-m3,text:hello,name:llama3}";
     Request_ctx_Done := fun _ => false |}.

(** Two dispatches on the demo backend: one whose [embedText] needs 90
    seconds, one that is done after 2 seconds under a caller's context of 5
    seconds. *)
Definition demo_result : OrusResponse :=
  {| OrusResponse_Success := true;
     OrusResponse_Serial := "";
     OrusResponse_Message := "Embed request received successfully";
     OrusResponse_Error := "";
     OrusResponse_TimeTaken := (2 * Second)%Z;
     OrusResponse_Data := ∅ |}.

Definition demo_slow : Dispatch :=
  {| parent_done := None;
     latency := Some (90 * Second)%Z;
     result := demo_result |}.

Definition demo_fast : Dispatch :=
  {| parent_done := Some (5 * Second)%Z;
     latency := Some (2 * Second)%Z;
     result := demo_result |}.



(** ** The rest of [ollama_client.go]

    [Generate] and [ListModels] as functions of what the backend replies. *)

Record GenerateResponse := {
  GenerateResponse_Model : string;
  GenerateResponse_Response : string;
  GenerateResponse_CreatedAt : Time;
  GenerateResponse_Done : bool
}.

Definition GenerateResponse_zero : GenerateResponse :=
  {| GenerateResponse_Model := "";
     GenerateResponse_Response := "";
     GenerateResponse_CreatedAt := 0%Z;
     GenerateResponse_Done := false |}.

(** The [for decoder.More()] loop of [Generate]. *)
Fixpoint Generate_loop (body : list (Decoded GenerateResponse))
    (finalResponse : GenerateResponse) : Result GenerateResponse :=
  match body with
  | [] => Ok finalResponse
  | Malformed err :: _ => Err ("error decoding response: " +:+ err)
  | Object genResp :: rest =>
      let finalResponse :=
        {| GenerateResponse_Model := GenerateResponse_Model genResp;
           GenerateResponse_Response :=
             GenerateResponse_Response finalResponse
             +:+ GenerateResponse_Response genResp;
           GenerateResponse_CreatedAt := GenerateResponse_CreatedAt genResp;
           GenerateResponse_Done := GenerateResponse_Done genResp |} in
      if GenerateResponse_Done genResp
      then Ok finalResponse
      else Generate_loop rest finalResponse
  end.

Definition Generate (reply : HttpReply GenerateResponse)
  : Result GenerateResponse :=
  match reply with
  | RequestInvalid err => Err ("error creating request: " +:+ err)
  | TransportError err => Err ("error making request: " +:+ err)
  | Response status raw body =>
      if decide (status <> StatusOK)
      then Err (status_error status raw)
      else Generate_loop body GenerateResponse_zero
  end.

(** [ListModels]: [c.httpClient.Get] builds the request itself, so both
    failures before a reply are errors of the request being made; the body
    is decoded once, into the names of [result.Models], which are then
    written one by one into the slots of [models]. *)
Definition ListModels (reply : HttpReply (list string))
  : Result (list string) :=
  match reply with
  | RequestInvalid err => Err ("error making request: " +:+ err)
  | TransportError err => Err ("error making request: " +:+ err)
  | Response status raw body =>
      if decide (status <> StatusOK)
      then Err ("error from Ollama (status " +:+ pretty status +:+ ")")
      else
        match body with
        | [] => Err ("error decoding response: " +:+ "EOF")
        | Malformed err :: _ => Err ("error decoding response: " +:+ err)
        | Object names :: _ =>
            let models := replicate (length names) "" in
            Ok (foldl (fun models im => <[fst im := snd im]> models) models
                      (imap pair names))
        end
  end.

(** ** [orus.util.go] *)

(** The loop of [ConvertInterfaceToStrings]: [result] grows by [append];
    the values that are not strings are the ones a warning is printed for,
    in the order of the printing. *)
Fixpoint ConvertInterfaceToStrings_loop (input : list JValue)
    (result : list string) (warned : list JValue)
  : list string * list JValue :=
  match input with
  | [] => (result, warned)
  | JString str :: rest =>
      ConvertInterfaceToStrings_loop rest (result ++ [str]) warned
  | val :: rest =>
      ConvertInterfaceToStrings_loop rest result (warned ++ [val])
  end.

Definition ConvertInterfaceToStrings (input : list JValue)
  : list string * list JValue :=
  ConvertInterfaceToStrings_loop input [] [].

Definition as_string (val : JValue) : option string :=
  match val with
  | JString str => Some str
  | _ => None
  end.

(** ** [view/index.go] *)

Record View := {
  View_models : list string;
  View_optionsHtml : string
}.

Definition NewView : View :=
  {| View_models := []; View_optionsHtml := "" |}.

Definition SetModels (models : list string) (v : View) : View :=
  {| View_models := models; View_optionsHtml := View_optionsHtml v |}.

(** [fmt.Sprintf] of the option line for one model. *)
Definition option_line (model : string) : string :=
  "<option class='bg-white' value='" +:+ model +:+ "'>" +:+ model
  +:+ "</option>".

Definition renderOptions (v : View) : View :=
  let optionsHtml := "" in
  let optionsHtml :=
    optionsHtml
    +:+ "<option class='bg-white' value=''>Select a model</option>" in
  let optionsHtml :=
    optionsHtml
    +:+ "<option class='bg-white' value='bge-m3'>bge-m3</option>" in
  let optionsHtml :=
    foldl (fun optionsHtml model => optionsHtml +:+ option_line model)
          optionsHtml (View_models v) in
  {| View_models := View_models v; View_optionsHtml := optionsHtml |}.

(** [RenderIndex]; [indexHTML] is the embedded page as a function of what
    [fmt.Sprintf] puts in its place holder. *)
Definition RenderIndex (indexHTML : string -> string) (v : View)
  : M View :=
  let v := renderOptions v in
  let codeHtml := indexHTML (View_optionsHtml v) in
  emit (SetHeader "Content-Type" "text/html") ;;
  emit (Write codeHtml) ;;
  ret v.

(** ** [CallLLMCloud]

    The handler of the cloud route; [ChatStreamCloud] and [ChatCloud] of the
    client are declared outside the sources at hand and are taken as they
    come.  The four [log.Println] lines go to the process log and leave no
    effect here. *)
Section Cloud.
Variable env : Env.
Variable ChatStreamCloud :
  ChatRequest -> (ChatStreamResponse -> list string -> M (list string)) ->
  list string -> M (list string * option string).
Variable ChatCloud : ChatRequest -> M (Result ChatResponse).

Definition cloud_summary_frame (content serial time_taken model : string)
    (think : bool) : JValue :=
  JObject [("content", JString content);
           ("message", JString "LLM request received successfully");
           ("model", JString model);
           ("serial", JString serial);
           ("status", JString "success");
           ("stream", JBool true);
           ("think", JBool think);
           ("time_taken", JString time_taken)].

Definition CallLLMCloud_stream (chatRequest : ChatRequest) (model : string)
    (think : bool) (startTime : Time) : M unit :=
  emit (SetHeader "Content-Type" "text/event-stream") ;;
  emit (SetHeader "Cache-Control" "no-cache") ;;
  emit (SetHeader "Connection" "keep-alive") ;;
  let content : list string := [] in
  if negb (Flusher env) then
    emit (RespondError StatusInternalServerError "streaming_not_supported"
            "Streaming not supported")
  else
    emit Flush ;;
    res <- ChatStreamCloud chatRequest (chatStreamProgressCallback env)
             content ;;
    let content := fst res in
    match snd res with
    | Some err =>
        let errorData := json_Marshal env (error_frame err) in
        Fprintf env (sse_data errorData) ;;
        emit Flush
    | None =>
        serial <- uuid_New env ;;
        taken <- time_Since env startTime ;;
        let successData :=
          json_Marshal env
            (cloud_summary_frame (String.concat "" content) serial
               (Duration_String env taken) model think) in
        Fprintf env (sse_data successData) ;;
        emit Flush
    end.

Definition CallLLMCloud_sync (chatRequest : ChatRequest) (model : string)
    (stream think : bool) (response : OrusResponse) (startTime : Time)
  : M unit :=
  responseLLM <- ChatCloud chatRequest ;;
  match responseLLM with
  | Err err =>
      taken <- time_Since env startTime ;;
      emit (RespondJSON StatusInternalServerError
              (Envelope {| OrusResponse_Success := false;
                           OrusResponse_Serial := OrusResponse_Serial response;
                           OrusResponse_Message := "Error calling LLM";
                           OrusResponse_Error := err;
                           OrusResponse_TimeTaken := taken;
                           OrusResponse_Data := OrusResponse_Data response |}))
  | Ok responseLLM =>
      serial <- uuid_New env ;;
      taken <- time_Since env startTime ;;
      emit (RespondJSON StatusOK
              (JsonMap (chat_success_map
                          (Content (ChatResponse_Message responseLLM)) serial
                          (Duration_String env taken) model stream think)))
  end.

Definition CallLLMCloud_from (request : OrusRequest) (response : OrusResponse)
    (startTime : Time) : M unit :=
  match Body request !! "model" with
  | None =>
      emit (RespondError StatusBadRequest "missing_model"
              "Field 'model' is required")
  | Some (JString model) =>
      match Body request !! "think" with
      | None =>
          emit (RespondError StatusBadRequest "missing_think"
                  "Field 'think' is required")
      | Some (JBool think) =>
          match Body request !! "messages" with
          | None =>
              emit (RespondError StatusBadRequest "missing_messages"
                      "Field 'messages' is required")
          | Some messagesRaw =>
              match json_messages env messagesRaw with
              | Err err =>
                  emit (RespondError StatusBadRequest "invalid_messages"
                          ("Error unmarshalling messages: " +:+ err))
              | Ok messages =>
                  let stream :=
                    match Body request !! "stream" with
                    | Some (JBool b) => b
                    | _ => false
                    end in
                  let format :=
                    match Body request !! "format" with
                    | Some (JString format) => format
                    | _ => ""
                    end in
                  let images :=
                    match Body request !! "images" with
                    | Some _ => Some []
                    | None => None
                    end in
                  let chatRequest :=
                    {| ChatRequest_Model := model;
                       ChatRequest_Messages := messages;
                       ChatRequest_Stream := stream;
                       ChatRequest_Format := format;
                       ChatRequest_Think := think;
                       ChatRequest_Images := images |} in
                  if stream
                  then CallLLMCloud_stream chatRequest model think startTime
                  else CallLLMCloud_sync chatRequest model stream think
                         response startTime
              end
          end
      | Some _ =>
          emit (RespondError StatusBadRequest "invalid_think"
                  "Field 'think' must be a boolean")
      end
  | Some _ =>
      emit (RespondError StatusBadRequest "invalid_model"
              "Field 'model' must be a string")
  end.

Definition CallLLMCloud (r : Request) : M unit :=
  startTime <- time_Now env ;;
  let response := NewOrusResponse env in
  let request := new_OrusRequest in
  CallLLMCloud_from request response startTime.

End Cloud.

(** ** What the handlers and the dispatch are measured against *)

(** The request fields [EmbedText] and [CallLLM] insist on. *)
Definition embed_fields (request : OrusRequest) : option (string * string) :=
  match Body request !! "model", Body request !! "text" with
  | Some (JString model), Some (JString text) => Some (model, text)
  | _, _ => None
  end.

Definition chat_fields (env : Env) (request : OrusRequest)
  : option (string * bool * list Message) :=
  match Body request !! "model", Body request !! "think",
        Body request !! "messages" with
  | Some (JString model), Some (JBool think), Some messagesRaw =>
      match json_messages env messagesRaw with
      | Ok messages => Some (model, think, messages)
      | Err _ => None
      end
  | _, _, _ => None
  end.

(** What the worker keeps, whatever the schedule: the channel is filled by
    the worker's last move; the worker is past [embedText] only once the
    latency has elapsed; a result reaches the handler or the client only
    from a worker that is gone; the handler returns with the context
    cancelled. *)
Definition worker_kept (d : Dispatch) (s : State) : Prop :=
  (respChan s <> None -> worker s = Exited) /\
  (worker s <> Running ->
   exists l, latency d = Some l /\ (l <= elapsed s)%Z) /\
  (forall resp, handler s = Woken (Received resp) -> worker s = Exited) /\
  (forall resp,
     In (RespondJSON StatusOK (Envelope resp)) (written s) ->
     worker s = Exited) /\
  (handler s = Returned -> ctxDone s = true).

(** What the handler keeps: the context is live only up to the deadline, a
    parked handler has a live context, and a running [embedText] has not
    used up its time. *)
Definition handler_kept (d : Dispatch) (s : State) : Prop :=
  (ctxDone s = false -> (elapsed s <= deadline d)%Z) /\
  (handler s = Parked -> ctxDone s = false) /\
  (worker s = Running ->
   forall l, latency d = Some l -> (elapsed s <= l)%Z).

(** The time [embedText] takes is not negative. *)
Definition latency_is_duration (d : Dispatch) : Prop :=
  forall l, latency d = Some l -> (0 <= l)%Z.

(** The state [s] when the time has come to [t]. *)
Definition at_time (t : Z) (s : State) : State :=
  {| elapsed := t; ctxDone := ctxDone s; respChan := respChan s;
     worker := worker s; handler := handler s; written := written s |}.

(** The demo backend with the flusher and the upstream switched: when [up]
    is false the chat stream answers 503, the chat call is refused, pulls
    answer 500, embeddings 404, and the in-process embedder is not loaded;
    a request whose context is done from the start. *)
Definition demo_of (flusher up : bool) : Env :=
  {| baseURL := baseURL demo;
     clock := clock demo;
     uuid := uuid demo;
     json_Marshal := demo_Marshal;
     time_json := time_json demo;
     Duration_String := Duration_String demo;
     json_messages := fun v =>
       match v with
       | JArray _ => Ok [{| Role := "user"; Content := "Hi" |}]
       | _ => Err "json: cannot unmarshal into Go value of type []Message"
       end;
     write_fails := fun _ => false;
     Flusher := flusher;
     BGEM3Embedder_Embed :=
       if up then BGEM3Embedder_Embed demo
       else fun _ => Err "onnx runtime not loaded";
     api_chat :=
       if up then api_chat demo
       else fun _ => TransportError "connection refused";
     api_chat_stream :=
       if up then api_chat_stream demo
       else fun _ => Response 503 "model is loading" [];
     api_embeddings :=
       if up then api_embeddings demo
       else fun _ _ => Response 404 "model not found" [];
     api_pull :=
       if up then api_pull demo
       else fun _ => Response 500 "" [];
     NewOrusResponse := demo_response |}.

(** The demo backend with a chat stream of one's own. *)
Definition demo_stream (body : list (Decoded ChatStreamResponse)) : Env :=
  {| baseURL := baseURL demo;
     clock := clock demo;
     uuid := uuid demo;
     json_Marshal := demo_Marshal;
     time_json := time_json demo;
     Duration_String := Duration_String demo;
     json_messages := json_messages demo;
     write_fails := write_fails demo;
     Flusher := true;
     BGEM3Embedder_Embed := BGEM3Embedder_Embed demo;
     api_chat := api_chat demo;
     api_chat_stream := fun _ => Response StatusOK "" body;
     api_embeddings := api_embeddings demo;
     api_pull := api_pull demo;
     NewOrusResponse := demo_response |}.

Definition demo_gone : Request :=
  {| Request_Body := ""; Request_ctx_Done := fun _ => true |}.

Definition demo_body (fields : list (string * JValue)) : OrusRequest :=
  {| Body := list_to_map fields |}.

(** ** Strings and folds *)

Lemma append_nil_r (s : string) : s +:+ "" = s.
Proof.
  induction s as [|c s IH]; [reflexivity|].
  change (String c (s +:+ "") = String c s). now rewrite IH.
Qed.

Lemma append_assoc (a b c : string) : (a +:+ b) +:+ c = a +:+ (b +:+ c).
Proof.
  induction a as [|x a IH]; [reflexivity|].
  change (String x ((a +:+ b) +:+ c) = String x (a +:+ (b +:+ c))).
  now rewrite IH.
Qed.

Lemma concat_cons (x : string) (xs : list string) :
  String.concat "" (x :: xs) = x +:+ String.concat "" xs.
Proof.
  destruct xs as [|y ys]; [|reflexivity].
  symmetry. apply append_nil_r.
Qed.

Lemma foldl_snoc {A B : Type} (g : A -> B) (xs : list A) :
  forall l : list B, foldl (fun l x => l ++ [g x]) l xs = l ++ map g xs.
Proof.
  induction xs as [|x xs IH]; intros l; simpl.
  - now rewrite app_nil_r.
  - rewrite IH, <- app_assoc. reflexivity.
Qed.

Lemma imap_imap {A B C : Type} (l : list A) :
  forall (f : nat -> B -> C) (g : nat -> A -> B),
    imap f (imap g l) = imap (fun i x => f i (g i x)) l.
Proof.
  induction l as [|x l IH]; intros f g; [reflexivity|].
  rewrite !imap_cons. f_equal. apply IH.
Qed.

Lemma deliveries_length env req t evs :
  length (deliveries env req t evs) = length evs.
Proof. apply length_imap. Qed.

Lemma deliveries_cons env req t ev evs :
  deliveries env req t (ev :: evs) =
  delivered req (clock env t) ev :: deliveries env req (S t) evs.
Proof.
  unfold deliveries. rewrite imap_cons. f_equal.
  - f_equal. f_equal. lia.
  - apply imap_ext. intros i x _. simpl. do 2 f_equal. lia.
Qed.

Lemma deliveries_delta env req t evs :
  map delta (deliveries env req t evs) = map delta evs.
Proof.
  revert t. induction evs as [|ev evs IH]; intros t; [reflexivity|].
  rewrite deliveries_cons. simpl. now rewrite IH.
Qed.

Lemma numbered_cons {A : Type} (out : A -> list Effect) n x xs :
  numbered out n (x :: xs) = Decode n :: out x ++ numbered out (S n) xs.
Proof.
  unfold numbered. rewrite imap_cons. simpl. rewrite Nat.add_0_r.
  do 2 f_equal. f_equal. apply imap_ext. intros i y _. simpl.
  do 2 f_equal. lia.
Qed.

(** ** The decoding loops, step by step *)

Section Loops.
Variable env : Env.

Lemma ChatStream_loop_object {L : Type} req
    (callback : ChatStreamResponse -> L -> M L) ev rest n l w :
  ChatStream_loop env req callback (Object ev :: rest) n l w =
  let (l', w') :=
    callback (delivered req (clock env (ticks w)) ev) l
      {| trace := trace w ++ [Decode n]; ticks := S (ticks w);
         serials := serials w |} in
  (if ChatStreamResponse_Done ev then ret (l', None)
   else ChatStream_loop env req callback rest (S n) l') w'.
Proof. reflexivity. Qed.

Lemma ChatStream_loop_simple {L : Type} (req : ChatRequest)
    (callback : ChatStreamResponse -> L -> M L) f out
    (Hcb : simple callback f out) (body : list (Decoded ChatStreamResponse)) :
  forall n l w,
    ChatStream_loop env req callback body n l w =
    let evs :=
      deliveries env req (ticks w) (consumed ChatStreamResponse_Done body) in
    ((foldl (fun l x => f x l) l evs,
      (fun err => "error decoding response: " +:+ err)
        <$> decode_failure ChatStreamResponse_Done body),
     {| trace := trace w ++ numbered out n evs
                 ++ failed_decode ChatStreamResponse_Done body (n + length evs);
        ticks := ticks w + length evs;
        serials := serials w |}).
Proof.
  induction body as [|[ev|err] rest IH]; intros n l [tr tk sr].
  - simpl. unfold ret. rewrite app_nil_r, Nat.add_0_r. reflexivity.
  - rewrite ChatStream_loop_object, Hcb. cbv zeta.
    unfold failed_decode. simpl consumed. simpl decode_failure.
    simpl trace. simpl ticks. simpl serials.
    destruct (ChatStreamResponse_Done ev) eqn:Hdone.
    + unfold ret. rewrite deliveries_cons, numbered_cons. simpl.
      rewrite <- app_assoc. simpl.
      change (numbered out (S n) (deliveries env req (S tk) [])) with (@nil Effect).
      rewrite !app_nil_r. replace (tk + 1) with (S tk) by lia. reflexivity.
    + rewrite IH. cbv zeta. simpl trace. simpl ticks. simpl serials.
      rewrite deliveries_cons, numbered_cons. simpl foldl. simpl length.
      unfold failed_decode.
      rewrite <- ?app_assoc. simpl app. rewrite <- ?app_assoc.
      replace (n + S (length (deliveries env req (S tk) (consumed ChatStreamResponse_Done rest))))
        with (S n + length (deliveries env req (S tk) (consumed ChatStreamResponse_Done rest))) by lia.
      replace (tk + S (length (deliveries env req (S tk) (consumed ChatStreamResponse_Done rest))))
        with (S tk + length (deliveries env req (S tk) (consumed ChatStreamResponse_Done rest))) by lia.
      reflexivity.
  - simpl. unfold bind, emit, ret. simpl. rewrite !Nat.add_0_r. reflexivity.
Qed.

Lemma PullModel_loop_object {L : Type}
    (progressCallback : option (PullModelProgress -> L -> M L))
    p rest n l w :
  PullModel_loop progressCallback (Object p :: rest) n l w =
  let (l', w') :=
    match progressCallback with
    | Some callback => callback p l
    | None => ret l
    end {| trace := trace w ++ [Decode n]; ticks := ticks w;
           serials := serials w |} in
  (if is_success p then ret (l', None)
   else PullModel_loop progressCallback rest (S n) l') w'.
Proof. reflexivity. Qed.

(** Whatever the callback does, the error [PullModel]'s loop returns is the
    one of the value it fails on. *)
Lemma PullModel_loop_error {L : Type}
    (progressCallback : option (PullModelProgress -> L -> M L))
    (body : list (Decoded PullModelProgress)) :
  forall n l w,
    snd (fst (PullModel_loop progressCallback body n l w)) =
    decode_failure is_success body.
Proof.
  induction body as [|[p|err] rest IH]; intros n l w; [reflexivity| |reflexivity].
  rewrite PullModel_loop_object.
  destruct (match progressCallback with
            | Some callback => callback p l
            | None => ret l
            end _) as [l' w'].
  simpl decode_failure. destruct (is_success p); [reflexivity | apply IH].
Qed.

Lemma PullModel_loop_simple {L : Type}
    (callback : PullModelProgress -> L -> M L) f out
    (Hcb : simple callback f out) (body : list (Decoded PullModelProgress)) :
  forall n l w,
    PullModel_loop (Some callback) body n l w =
    let ps := consumed is_success body in
    ((foldl (fun l x => f x l) l ps, decode_failure is_success body),
     {| trace := trace w ++ numbered out n ps
                 ++ failed_decode is_success body (n + length ps);
        ticks := ticks w;
        serials := serials w |}).
Proof.
  induction body as [|[p|err] rest IH]; intros n l [tr tk sr].
  - simpl. unfold ret. rewrite app_nil_r. reflexivity.
  - rewrite PullModel_loop_object, Hcb. cbv zeta.
    unfold failed_decode. simpl consumed. simpl decode_failure.
    simpl trace. simpl ticks. simpl serials.
    destruct (is_success p) eqn:Hstop.
    + unfold ret. rewrite numbered_cons. simpl.
      rewrite <- app_assoc. simpl.
      change (numbered out (S n) []) with (@nil Effect).
      rewrite !app_nil_r. reflexivity.
    + rewrite IH. cbv zeta. simpl trace. simpl ticks. simpl serials.
      rewrite numbered_cons. simpl foldl. simpl length.
      unfold failed_decode.
      rewrite <- ?app_assoc. simpl app. rewrite <- ?app_assoc.
      replace (n + S (length (consumed is_success rest)))
        with (S n + length (consumed is_success rest)) by lia.
      reflexivity.
  - simpl. unfold bind, emit, ret. simpl. rewrite !Nat.add_0_r. reflexivity.
Qed.

Lemma Chat_loop_spec (body : list (Decoded ChatResponse)) :
  forall n finalResponse fullContent w,
    Chat_loop body n finalResponse fullContent w =
    let evs := consumed ChatResponse_Done body in
    (match decode_failure ChatResponse_Done body with
     | Some err => Err ("error decoding response: " +:+ err)
     | None =>
         Ok (Chat_last finalResponse evs,
             fullContent +:+ String.concat "" (map chat_delta evs))
     end,
     {| trace := trace w ++ numbered (fun _ => []) n evs
                 ++ failed_decode ChatResponse_Done body (n + length evs);
        ticks := ticks w;
        serials := serials w |}).
Proof.
  induction body as [|[ev|err] rest IH]; intros n fr fc [tr tk sr].
  - simpl. unfold ret. rewrite app_nil_r, append_nil_r. reflexivity.
  - simpl Chat_loop. unfold bind at 1, emit at 1.
    unfold failed_decode. simpl consumed. simpl decode_failure.
    simpl trace. simpl ticks. simpl serials.
    destruct (ChatResponse_Done ev) eqn:Hdone.
    + unfold ret. rewrite numbered_cons. simpl.
      change (numbered (fun _ => []) (S n) []) with (@nil Effect).
      rewrite ?append_nil_r, ?app_nil_r, ?Hdone. reflexivity.
    + rewrite IH. cbv zeta. simpl trace. simpl ticks. simpl serials.
      rewrite numbered_cons. simpl length. simpl map. rewrite concat_cons.
      simpl Chat_last. rewrite ?Hdone.
      unfold failed_decode.
      rewrite <- ?app_assoc. simpl app. rewrite <- ?app_assoc.
      replace (n + S (length (consumed ChatResponse_Done rest)))
        with (S n + length (consumed ChatResponse_Done rest)) by lia.
      rewrite append_assoc.
      destruct (decode_failure ChatResponse_Done rest); reflexivity.
  - simpl. unfold bind, emit, ret. simpl. rewrite !Nat.add_0_r. reflexivity.
Qed.


Lemma record_simple {A : Type} :
  simple (@record A) (fun x l => l ++ [x]) (fun _ => []).
Proof. intros x l [tr tk sr]. unfold record, ret. simpl. now rewrite app_nil_r. Qed.

Lemma foldl_record {A : Type} (xs : list A) :
  forall l, foldl (fun l x => l ++ [x]) l xs = l ++ xs.
Proof. intros l. rewrite (foldl_snoc (fun x => x)). now rewrite map_id. Qed.

Lemma chatStreamProgressCallback_simple :
  simple (chatStreamProgressCallback env)
    (fun x content => content ++ [delta x])
    (fun x =>
       [Write (sse_data (json_Marshal env (ChatStreamResponse_json env x)));
        Flush]).
Proof.
  intros x l [tr tk sr]. unfold chatStreamProgressCallback, bind, Fprintf, emit, ret.
  simpl. rewrite <- app_assoc. reflexivity.
Qed.

Lemma consumed_until {A : Type} (stop : A -> bool) pre x rest :
  Forall (fun a => stop a = false) pre -> stop x = true ->
  consumed stop (map Object pre ++ Object x :: rest) = pre ++ [x] /\
  decode_failure stop (map Object pre ++ Object x :: rest) = None.
Proof.
  intros Hpre Hx. induction Hpre as [|a pre Ha _ [IH1 IH2]]; simpl.
  - now rewrite Hx.
  - now rewrite Ha, IH1, IH2.
Qed.

Lemma consumed_malformed {A : Type} (stop : A -> bool) pre err rest :
  Forall (fun a => stop a = false) pre ->
  consumed stop (map Object pre ++ Malformed err :: rest) = pre /\
  decode_failure stop (map Object pre ++ Malformed err :: rest) = Some err.
Proof.
  intros Hpre. induction Hpre as [|a pre Ha _ [IH1 IH2]]; simpl.
  - split; reflexivity.
  - now rewrite Ha, IH1, IH2.
Qed.

Lemma consumed_all {A : Type} (stop : A -> bool) ps :
  Forall (fun a => stop a = false) ps ->
  consumed stop (map Object ps) = ps /\
  decode_failure stop (map Object ps) = None.
Proof.
  intros Hps. induction Hps as [|a ps Ha _ [IH1 IH2]]; simpl.
  - split; reflexivity.
  - now rewrite Ha, IH1, IH2.
Qed.

End Loops.

(** C9: every event decoded by [ChatStream] reaches the callback with the
    model of the request in place of the backend's, a timestamp read from the
    local clock, and the content of that event alone. *)
Theorem ChatStream_callback_arguments (env : Env) (req : ChatRequest)
    (w : World) :
  let evs :=
    consumed ChatStreamResponse_Done
      (response_body (api_chat_stream env (streaming req))) in
  let calls := fst (fst (ChatStream env req record [] w)) in
  length calls = length evs /\
  forall i ev, evs !! i = Some ev ->
    exists c, calls !! i = Some c /\
      ChatStreamResponse_Model c = ChatRequest_Model req /\
      ChatStreamResponse_CreatedAt c = clock env (ticks w + i) /\
      Content (ChatStreamResponse_Message c) =
        Content (ChatStreamResponse_Message ev) /\
      Role (ChatStreamResponse_Message c) =
        Role (ChatStreamResponse_Message ev) /\
      ChatStreamResponse_Done c = ChatStreamResponse_Done ev.
Proof.
  intros evs calls.
  assert (Hcalls : calls = deliveries env req (ticks w) evs).
  { unfold calls, evs, ChatStream, response_body. fold (streaming req).
    destruct (api_chat_stream env (streaming req)) as [e|e|status raw body];
      try reflexivity.
    unfold bind, emit. destruct (decide (status <> StatusOK)) as [Hne|Heq].
    - rewrite decide_False by (intros ->; now apply Hne). reflexivity.
    - rewrite decide_True by (destruct (decide (status = StatusOK)); [assumption | now exfalso]).
      rewrite (ChatStream_loop_simple env (streaming req) record _ _ record_simple).
      cbv zeta. simpl. now rewrite foldl_record. }
  rewrite Hcalls. split; [apply deliveries_length|].
  intros i ev Hev. unfold deliveries. rewrite list_lookup_imap, Hev. simpl.
  eexists. split; [reflexivity|]. simpl. repeat split.
Qed.


(** C9, run: the second event of the demo backend reaches the callback under
    the model of the request, stamped by the local clock, with its own
    delta. *)
Lemma ChatStream_callback_arguments_demo :
  exists c,
    fst (fst (ChatStream demo (demo_request "llama3") record [] world0)) !! 1
      = Some c /\
    ChatStreamResponse_Model c = "llama3" /\
    ChatStreamResponse_CreatedAt c = 1010%Z /\
    Content (ChatStreamResponse_Message c) = "lo".
Proof.
  destruct (ChatStream_callback_arguments demo (demo_request "llama3") world0)
    as [_ Hcalls].
  destruct (Hcalls 1 (demo_event "lo" true) eq_refl)
    as (c & Hc & Hmodel & Hstamp & Hcontent & _).
  exists c. split; [exact Hc|]. split; [exact Hmodel|].
  split; [exact Hstamp | exact Hcontent].
Defined.

Lemma CallLLM_stream_spec (env : Env) (chatRequest : ChatRequest)
    (model : string) (startTime : Time) (w : World) raw body :
  Flusher env = true ->
  api_chat_stream env (streaming chatRequest) = Response StatusOK raw body ->
  let evs :=
    deliveries env chatRequest (ticks w)
      (consumed ChatStreamResponse_Done body) in
  let relayed :=
    trace w
    ++ [SetHeader "Content-Type" "text/event-stream";
        SetHeader "Cache-Control" "no-cache";
        SetHeader "Connection" "keep-alive";
        Flush;
        HttpDo (baseURL env +:+ "/api/chat") (ApiChat (streaming chatRequest))]
    ++ numbered
         (fun ev =>
            [Write (sse_data (json_Marshal env (ChatStreamResponse_json env ev)));
             Flush]) 0 evs in
  CallLLM_stream env chatRequest model startTime w =
  match decode_failure ChatStreamResponse_Done body with
  | Some err =>
      (tt,
       {| trace :=
            relayed
            ++ [Decode (length evs);
                Write (sse_data
                         (json_Marshal env
                            (error_frame ("error decoding response: " +:+ err))));
                Flush];
          ticks := ticks w + length evs;
          serials := serials w |})
  | None =>
      (tt,
       {| trace :=
            relayed
            ++ [Write (sse_data
                         (json_Marshal env
                            (chat_summary_frame
                               (String.concat "" (map delta evs))
                               (uuid env (serials w))
                               (Duration_String env
                                  (clock env (ticks w + length evs)
                                   - startTime)%Z)
                               model)));
                Flush];
          ticks := S (ticks w + length evs);
          serials := S (serials w) |})
  end.
Proof.
  intros Hflush Hreply evs relayed. subst relayed evs.
  unfold CallLLM_stream. rewrite Hflush. simpl negb. cbv iota.
  unfold bind at 1 2 3 4. unfold emit at 1 2 3 4. cbv beta iota.
  unfold bind at 1. unfold ChatStream at 1. fold (streaming chatRequest).
  rewrite Hreply. unfold bind at 1. unfold emit at 1. cbv beta iota.
  rewrite decide_False by (intros H; now apply H).
  rewrite (ChatStream_loop_simple env (streaming chatRequest) _ _ _
             (chatStreamProgressCallback_simple env)).
  cbv zeta. simpl trace. simpl ticks. simpl serials.
  change (deliveries env (streaming chatRequest)) with (deliveries env chatRequest).
  set (evs := deliveries env chatRequest (ticks w)
                (consumed ChatStreamResponse_Done body)).
  unfold failed_decode.
  destruct (decode_failure ChatStreamResponse_Done body) as [err|]; simpl.
  - unfold bind, Fprintf, emit. simpl. rewrite <- ?app_assoc. simpl.
    rewrite <- ?app_assoc. reflexivity.
  - unfold bind, uuid_New, time_Since, bind, time_Now, ret, Fprintf, emit.
    simpl. rewrite (foldl_snoc delta). simpl.
    rewrite <- ?app_assoc. simpl. rewrite <- ?app_assoc, ?app_nil_r. simpl.
    replace (ticks w + length evs + 1) with (S (ticks w + length evs)) by lia.
    reflexivity.
Qed.

(** What the streaming branch of [CallLLM] leaves behind on a 200 reply,
    with every frame written out. *)
Lemma CallLLM_stream_written (env : Env) (chatRequest : ChatRequest)
    (model : string) (startTime : Time) (w : World) raw body :
  Flusher env = true ->
  api_chat_stream env (streaming chatRequest) = Response StatusOK raw body ->
  let evs := consumed ChatStreamResponse_Done body in
  let frame (json : JValue) :=
    Write ("data: " +:+ json_Marshal env json
           +:+ String (Ascii.ascii_of_nat 10)
                 (String (Ascii.ascii_of_nat 10) "")) in
  let event (i : nat) (ev : ChatStreamResponse) :=
    JObject
      ([("model", JString (ChatRequest_Model chatRequest));
        ("message",
         JObject
           [("role", JString (Role (ChatStreamResponse_Message ev)));
            ("content", JString (Content (ChatStreamResponse_Message ev)))]);
        ("created_at", time_json env (clock env (ticks w + i)));
        ("done", JBool (ChatStreamResponse_Done ev));
        ("progress", JNumber (ChatStreamResponse_Progress ev))]
       ++ (if Z.eqb (ChatStreamResponse_Total ev) 0 then []
           else [("total", JNumber (ChatStreamResponse_Total ev))])
       ++ (if Z.eqb (ChatStreamResponse_Completed ev) 0 then []
           else [("completed", JNumber (ChatStreamResponse_Completed ev))])) in
  CallLLM_stream env chatRequest model startTime w =
  (tt,
   {| trace :=
        trace w
        ++ [SetHeader "Content-Type" "text/event-stream";
            SetHeader "Cache-Control" "no-cache";
            SetHeader "Connection" "keep-alive";
            Flush;
            HttpDo (baseURL env +:+ "/api/chat")
              (ApiChat (streaming chatRequest))]
        ++ concat (imap (fun i ev => [Decode i; frame (event i ev); Flush])
                     evs)
        ++ match decode_failure ChatStreamResponse_Done body with
           | Some err =>
               [Decode (length evs);
                frame (JObject
                         [("error",
                           JString ("error decoding response: " +:+ err));
                          ("status", JString "error")]);
                Flush]
           | None =>
               [frame (JObject
                         [("content",
                           JString
                             (String.concat ""
                                (map (fun ev =>
                                        Content (ChatStreamResponse_Message ev))
                                   evs)));
                          ("message",
                           JString "LLM request received successfully");
                          ("model", JString model);
                          ("serial", JString (uuid env (serials w)));
                          ("status", JString "success");
                          ("stream", JBool true);
                          ("time_taken",
                           JString
                             (Duration_String env
                                (clock env (ticks w + length evs)
                                 - startTime)%Z))]);
                Flush]
           end;
      ticks := match decode_failure ChatStreamResponse_Done body with
               | Some _ => ticks w + length evs
               | None => S (ticks w + length evs)
               end;
      serials := match decode_failure ChatStreamResponse_Done body with
                 | Some _ => serials w
                 | None => S (serials w)
                 end |}).
Proof.
  intros Hflush Hreply evs frame event.
  rewrite (CallLLM_stream_spec env chatRequest model startTime w raw body
             Hflush Hreply).
  cbv zeta. fold evs.
  rewrite deliveries_length, deliveries_delta.
  unfold numbered, deliveries. rewrite imap_imap.
  destruct (decode_failure ChatStreamResponse_Done body) as [err|];
    rewrite <- ?app_assoc; reflexivity.
Qed.

(** C7: on the streaming chat path every decoded event is written as one
    frame [data: <json>] followed by a blank line and flushed before the next
    value is decoded, in arrival order, the JSON being the event under the
    model of the request and the time of its receipt; after a stream that
    ends normally one summary frame follows, whose [content] is the
    concatenation of the deltas, whose [serial] is the identifier drawn for
    it and whose [time_taken] is the time elapsed since [startTime]. *)
Theorem CallLLM_stream_frames (env : Env) (chatRequest : ChatRequest)
    (model : string) (startTime : Time) (w : World) raw body :
  Flusher env = true ->
  api_chat_stream env (streaming chatRequest) = Response StatusOK raw body ->
  decode_failure ChatStreamResponse_Done body = None ->
  let evs := consumed ChatStreamResponse_Done body in
  let frame (json : JValue) :=
    Write ("data: " +:+ json_Marshal env json
           +:+ String (Ascii.ascii_of_nat 10)
                 (String (Ascii.ascii_of_nat 10) "")) in
  let event (i : nat) (ev : ChatStreamResponse) :=
    JObject
      ([("model", JString (ChatRequest_Model chatRequest));
        ("message",
         JObject
           [("role", JString (Role (ChatStreamResponse_Message ev)));
            ("content", JString (Content (ChatStreamResponse_Message ev)))]);
        ("created_at", time_json env (clock env (ticks w + i)));
        ("done", JBool (ChatStreamResponse_Done ev));
        ("progress", JNumber (ChatStreamResponse_Progress ev))]
       ++ (if Z.eqb (ChatStreamResponse_Total ev) 0 then []
           else [("total", JNumber (ChatStreamResponse_Total ev))])
       ++ (if Z.eqb (ChatStreamResponse_Completed ev) 0 then []
           else [("completed", JNumber (ChatStreamResponse_Completed ev))])) in
  let summary :=
    JObject
      [("content",
        JString
          (String.concat ""
             (map (fun ev => Content (ChatStreamResponse_Message ev)) evs)));
       ("message", JString "LLM request received successfully");
       ("model", JString model);
       ("serial", JString (uuid env (serials w)));
       ("status", JString "success");
       ("stream", JBool true);
       ("time_taken",
        JString
          (Duration_String env
             (clock env (ticks w + length evs) - startTime)%Z))] in
  CallLLM_stream env chatRequest model startTime w =
  (tt,
   {| trace :=
        trace w
        ++ [SetHeader "Content-Type" "text/event-stream";
            SetHeader "Cache-Control" "no-cache";
            SetHeader "Connection" "keep-alive";
            Flush;
            HttpDo (baseURL env +:+ "/api/chat")
              (ApiChat (streaming chatRequest))]
        ++ concat (imap (fun i ev => [Decode i; frame (event i ev); Flush])
                     evs)
        ++ [frame summary; Flush];
      ticks := S (ticks w + length evs);
      serials := S (serials w) |}).
Proof.
  intros Hflush Hreply Hok evs frame event summary.
  rewrite (CallLLM_stream_written env chatRequest model startTime w raw body
             Hflush Hreply).
  cbv zeta. rewrite Hok. reflexivity.
Qed.

(** C7, run: the two events of the demo backend give two frames and the
    summary. *)
Lemma CallLLM_stream_frames_demo :
  CallLLM_stream demo (demo_request "llama3") "llama3" 1000%Z world0 =
  (tt,
   {| trace :=
        [SetHeader "Content-Type" "text/event-stream";
         SetHeader "Cache-Control" "no-cache";
         SetHeader "Connection" "keep-alive";
         Flush;
         HttpDo "http://localhost:11434/api/chat"
           (ApiChat (demo_request "llama3"));
         Decode 0;
         Write ("data: {model:llama3,message:{role:assistant,content:Hel},created_at:1000,done:false,progress:0}"
                +:+ String (Ascii.ascii_of_nat 10)
                      (String (Ascii.ascii_of_nat 10) ""));
         Flush;
         Decode 1;
         Write ("data: {model:llama3,message:{role:assistant,content:lo},created_at:1010,done:true,progress:0}"
                +:+ String (Ascii.ascii_of_nat 10)
                      (String (Ascii.ascii_of_nat 10) ""));
         Flush;
         Write ("data: {content:Hello,message:LLM request received successfully,model:llama3,serial:serial-0,status:success,stream:true,time_taken:20ns}"
                +:+ String (Ascii.ascii_of_nat 10)
                      (String (Ascii.ascii_of_nat 10) ""));
         Flush];
      ticks := 3;
      serials := 1 |}).
Proof.
  rewrite (CallLLM_stream_frames demo (demo_request "llama3") "llama3" 1000%Z
             world0 ""
             [Object (demo_event "Hel" false); Object (demo_event "lo" true)]);
    vm_compute; reflexivity.
Defined.

Lemma Chat_spec (env : Env) (req : ChatRequest) (w : World) raw body :
  api_chat env req = Response StatusOK raw body ->
  decode_failure ChatResponse_Done body = None ->
  exists resp w',
    Chat env req w = (Ok resp, w') /\
    Content (ChatResponse_Message resp) =
      String.concat "" (map chat_delta (consumed ChatResponse_Done body)).
Proof.
  intros Hreply Hok. unfold Chat. rewrite Hreply.
  unfold bind at 1. unfold emit at 1. cbv beta iota.
  rewrite decide_False by (intros H; now apply H).
  unfold bind at 1. rewrite Chat_loop_spec. cbv zeta. rewrite Hok.
  unfold ret. eexists. eexists. split; [reflexivity|]. reflexivity.
Qed.

(** C1: the content handed to the client is the concatenation, in arrival
    order, of the deltas decoded from the backend stream: [Chat] returns it
    in [Message.Content], and the streaming branch of [CallLLM] closes with
    a summary frame whose [content] field holds it. *)
Theorem chat_content_is_concatenation (env : Env) (req : ChatRequest)
    (model : string) (startTime : Time) (w : World) :
  (forall raw body deltas,
     api_chat env req = Response StatusOK raw body ->
     decode_failure ChatResponse_Done body = None ->
     map (fun c => Content (ChatResponse_Message c))
         (consumed ChatResponse_Done body) = deltas ->
     exists resp w',
       Chat env req w = (Ok resp, w') /\
       Content (ChatResponse_Message resp) = String.concat "" deltas) /\
  (forall raw body deltas,
     Flusher env = true ->
     api_chat_stream env (streaming req) = Response StatusOK raw body ->
     decode_failure ChatStreamResponse_Done body = None ->
     map (fun c => Content (ChatStreamResponse_Message c))
         (consumed ChatStreamResponse_Done body) = deltas ->
     exists relayed,
       trace (snd (CallLLM_stream env req model startTime w)) =
       relayed
       ++ [Write ("data: "
                  +:+ json_Marshal env
                        (JObject
                           [("content", JString (String.concat "" deltas));
                            ("message",
                             JString "LLM request received successfully");
                            ("model", JString model);
                            ("serial", JString (uuid env (serials w)));
                            ("status", JString "success");
                            ("stream", JBool true);
                            ("time_taken",
                             JString
                               (Duration_String env
                                  (clock env (ticks w + length deltas)
                                   - startTime)%Z))])
                  +:+ String (Ascii.ascii_of_nat 10)
                        (String (Ascii.ascii_of_nat 10) ""));
           Flush]).
Proof.
  split.
  - intros raw body deltas Hreply Hok <-.
    now apply (Chat_spec env req w raw body).
  - intros raw body deltas Hflush Hreply Hok <-.
    rewrite (CallLLM_stream_written env req model startTime w raw body
               Hflush Hreply).
    cbv zeta. rewrite Hok, length_map. cbn [snd trace].
    eexists. rewrite !app_assoc. reflexivity.
Qed.

(** C1, run: the events [{content: Hel, done: false}] and
    [{content: lo, done: true}] give "Hello" on both paths. *)
Lemma chat_content_is_concatenation_demo :
  (exists resp w',
     Chat demo (demo_request "llama3") world0 = (Ok resp, w') /\
     Content (ChatResponse_Message resp) = "Hello") /\
  (exists relayed,
     trace (snd (CallLLM_stream demo (demo_request "llama3") "llama3" 1000%Z
                   world0)) =
     relayed
     ++ [Write ("data: {content:Hello,message:LLM request received successfully,model:llama3,serial:serial-0,status:success,stream:true,time_taken:20ns}"
                +:+ String (Ascii.ascii_of_nat 10)
                      (String (Ascii.ascii_of_nat 10) ""));
         Flush]).
Proof.
  destruct (chat_content_is_concatenation demo (demo_request "llama3")
              "llama3" 1000%Z world0) as [Hchat Hstream].
  split.
  - apply (Hchat ""
             [Object (demo_reply "Hel" false); Object (demo_reply "lo" true)]
             ["Hel"; "lo"]); reflexivity.
  - destruct (Hstream ""
                [Object (demo_event "Hel" false); Object (demo_event "lo" true)]
                ["Hel"; "lo"] eq_refl eq_refl eq_refl eq_refl)
      as (relayed & Htrace).
    exists relayed. exact Htrace.
Defined.

Lemma seen_until_closing {A : Type} (pre : list A) (rest : list (Item A)) :
  seen_by_decoder (map Value pre ++ Closing :: rest) = map Object pre.
Proof.
  induction pre as [|a pre IH]; [reflexivity|]. simpl. now rewrite IH.
Qed.

Lemma ChatStream_error (env : Env) (req : ChatRequest) (w : World) raw body :
  api_chat_stream env (streaming req) = Response StatusOK raw body ->
  ChatStream env req record [] w =
  ((deliveries env req (ticks w) (consumed ChatStreamResponse_Done body),
    match decode_failure ChatStreamResponse_Done body with
    | Some err => Some ("error decoding response: " +:+ err)
    | None => None
    end),
   {| trace :=
        trace w
        ++ [HttpDo (baseURL env +:+ "/api/chat") (ApiChat (streaming req))]
        ++ concat (imap (fun i _ => [Decode i])
                     (consumed ChatStreamResponse_Done body))
        ++ match decode_failure ChatStreamResponse_Done body with
           | Some _ =>
               [Decode (length (consumed ChatStreamResponse_Done body))]
           | None => []
           end;
      ticks := ticks w + length (consumed ChatStreamResponse_Done body);
      serials := serials w |}).
Proof.
  intros Hreply.
  unfold ChatStream. fold (streaming req). rewrite Hreply.
  unfold bind at 1. unfold emit at 1. cbv beta iota.
  rewrite decide_False by (intros H; now apply H).
  rewrite (ChatStream_loop_simple env (streaming req) record _ _
             record_simple).
  cbv zeta. unfold failed_decode.
  change (deliveries env (streaming req)) with (deliveries env req).
  rewrite foldl_record, ?deliveries_length.
  cbn [trace ticks serials app].
  unfold numbered, deliveries. rewrite imap_imap.
  destruct (decode_failure ChatStreamResponse_Done body);
    cbn [fmap option_fmap option_map]; rewrite <- ?app_assoc; reflexivity.
Qed.

(** C8, amended: a value on which [Decode] fails, met before any event with
    [done] set, ends the stream with a decode error at that value: the
    callback has received the events before it and nothing else, no later
    value is decoded, and the streaming branch of [CallLLM] writes one error
    frame after the frames already sent.  A value that comes after an event
    with [done] set is never read, and a closing bracket or brace, at which
    [More] answers false, ends the stream as its end does: in both cases
    [ChatStream] returns a nil error and the streaming branch closes with
    the success summary of what was relayed. *)
Theorem malformed_object_aborts_stream (env : Env) (req : ChatRequest)
    (model : string) (startTime : Time) (w : World) :
  Flusher env = true ->
  let call := HttpDo (baseURL env +:+ "/api/chat") (ApiChat (streaming req)) in
  let frame (json : JValue) :=
    Write ("data: " +:+ json_Marshal env json
           +:+ String (Ascii.ascii_of_nat 10)
                 (String (Ascii.ascii_of_nat 10) "")) in
  let event (i : nat) (ev : ChatStreamResponse) :=
    JObject
      ([("model", JString (ChatRequest_Model req));
        ("message",
         JObject
           [("role", JString (Role (ChatStreamResponse_Message ev)));
            ("content", JString (Content (ChatStreamResponse_Message ev)))]);
        ("created_at", time_json env (clock env (ticks w + i)));
        ("done", JBool (ChatStreamResponse_Done ev));
        ("progress", JNumber (ChatStreamResponse_Progress ev))]
       ++ (if Z.eqb (ChatStreamResponse_Total ev) 0 then []
           else [("total", JNumber (ChatStreamResponse_Total ev))])
       ++ (if Z.eqb (ChatStreamResponse_Completed ev) 0 then []
           else [("completed", JNumber (ChatStreamResponse_Completed ev))])) in
  let relayed (evs : list ChatStreamResponse) :=
    trace w
    ++ [SetHeader "Content-Type" "text/event-stream";
        SetHeader "Cache-Control" "no-cache";
        SetHeader "Connection" "keep-alive";
        Flush;
        call]
    ++ concat (imap (fun i ev => [Decode i; frame (event i ev); Flush]) evs) in
  let summarised (evs : list ChatStreamResponse) :=
    (tt,
     {| trace :=
          relayed evs
          ++ [frame
                (JObject
                   [("content",
                     JString
                       (String.concat ""
                          (map (fun ev =>
                                  Content (ChatStreamResponse_Message ev))
                             evs)));
                    ("message", JString "LLM request received successfully");
                    ("model", JString model);
                    ("serial", JString (uuid env (serials w)));
                    ("status", JString "success");
                    ("stream", JBool true);
                    ("time_taken",
                     JString
                       (Duration_String env
                          (clock env (ticks w + length evs) - startTime)%Z))]);
              Flush];
        ticks := S (ticks w + length evs);
        serials := S (serials w) |}) in
  (forall raw pre err rest,
     Forall (fun ev => ChatStreamResponse_Done ev = false) pre ->
     api_chat_stream env (streaming req) =
       Response StatusOK raw (map Object pre ++ Malformed err :: rest) ->
     ChatStream env req record [] w =
       ((deliveries env req (ticks w) pre,
         Some ("error decoding response: " +:+ err)),
        {| trace := trace w ++ [call]
                    ++ concat (imap (fun i _ => [Decode i]) pre)
                    ++ [Decode (length pre)];
           ticks := ticks w + length pre;
           serials := serials w |}) /\
     CallLLM_stream env req model startTime w =
       (tt,
        {| trace :=
             relayed pre
             ++ [Decode (length pre);
                 frame
                   (JObject
                      [("error",
                        JString ("error decoding response: " +:+ err));
                       ("status", JString "error")]);
                 Flush];
           ticks := ticks w + length pre;
           serials := serials w |})) /\
  (forall raw pre ev rest,
     Forall (fun ev => ChatStreamResponse_Done ev = false) pre ->
     ChatStreamResponse_Done ev = true ->
     api_chat_stream env (streaming req) =
       Response StatusOK raw (map Object pre ++ Object ev :: rest) ->
     ChatStream env req record [] w =
       ((deliveries env req (ticks w) (pre ++ [ev]), None),
        {| trace := trace w ++ [call]
                    ++ concat (imap (fun i _ => [Decode i]) (pre ++ [ev]));
           ticks := ticks w + length (pre ++ [ev]);
           serials := serials w |}) /\
     CallLLM_stream env req model startTime w = summarised (pre ++ [ev])) /\
  (forall raw pre rest,
     Forall (fun ev => ChatStreamResponse_Done ev = false) pre ->
     api_chat_stream env (streaming req) =
       Response StatusOK raw
         (seen_by_decoder (map Value pre ++ Closing :: rest)) ->
     ChatStream env req record [] w =
       ((deliveries env req (ticks w) pre, None),
        {| trace := trace w ++ [call]
                    ++ concat (imap (fun i _ => [Decode i]) pre);
           ticks := ticks w + length pre;
           serials := serials w |}) /\
     CallLLM_stream env req model startTime w = summarised pre).
Proof.
  intros Hflush call frame event relayed summarised.
  subst summarised relayed event frame call.
  split; [|split].
  - intros raw pre err rest Hpre Hreply.
    destruct (consumed_malformed ChatStreamResponse_Done pre err rest Hpre)
      as [Hcons Hfail].
    rewrite (ChatStream_error env req w raw _ Hreply).
    rewrite (CallLLM_stream_written env req model startTime w raw _
               Hflush Hreply).
    cbv zeta. rewrite Hcons, Hfail, <- ?app_assoc. split; reflexivity.
  - intros raw pre ev rest Hpre Hev Hreply.
    destruct (consumed_until ChatStreamResponse_Done pre ev rest Hpre Hev)
      as [Hcons Hfail].
    rewrite (ChatStream_error env req w raw _ Hreply).
    rewrite (CallLLM_stream_written env req model startTime w raw _
               Hflush Hreply).
    cbv zeta. rewrite Hcons, Hfail, <- ?app_assoc, ?app_nil_r.
    split; reflexivity.
  - intros raw pre rest Hpre Hreply.
    rewrite seen_until_closing in Hreply.
    destruct (consumed_all ChatStreamResponse_Done pre Hpre)
      as [Hcons Hfail].
    rewrite (ChatStream_error env req w raw _ Hreply).
    rewrite (CallLLM_stream_written env req model startTime w raw _
               Hflush Hreply).
    cbv zeta. rewrite Hcons, Hfail, <- ?app_assoc, ?app_nil_r.
    split; reflexivity.
Qed.

(** C8, amended, run: the model "broken" of the demo backend sends a value
    that does not parse between its two events. *)
Lemma malformed_object_aborts_stream_demo :
  fst (ChatStream demo (demo_request "broken") record [] world0) =
    ([delivered (demo_request "broken") 1000%Z (demo_event "Hel" false)],
     Some "error decoding response: unexpected end of JSON input") /\
  trace (snd (CallLLM_stream demo (demo_request "broken") "broken" 1000%Z
                world0)) =
    [SetHeader "Content-Type" "text/event-stream";
     SetHeader "Cache-Control" "no-cache";
     SetHeader "Connection" "keep-alive";
     Flush;
     HttpDo "http://localhost:11434/api/chat" (ApiChat (demo_request "broken"));
     Decode 0;
     Write ("data: {model:broken,message:{role:assistant,content:Hel},created_at:1000,done:false,progress:0}"
            +:+ String (Ascii.ascii_of_nat 10)
                  (String (Ascii.ascii_of_nat 10) ""));
     Flush;
     Decode 1;
     Write ("data: {error:error decoding response: unexpected end of JSON input,status:error}"
            +:+ String (Ascii.ascii_of_nat 10)
                  (String (Ascii.ascii_of_nat 10) ""));
     Flush].
Proof.
  destruct (malformed_object_aborts_stream demo (demo_request "broken")
              "broken" 1000%Z world0 eq_refl) as (Hfail & _ & _).
  destruct (Hfail "" [demo_event "Hel" false] "unexpected end of JSON input"
              [Object (demo_event "lo" true)]) as [H1 H2].
  - repeat constructor.
  - reflexivity.
  - rewrite H1, H2. split; vm_compute; reflexivity.
Defined.

(** C8 as the claim has it fails: a stream may hold a malformed object and
    yet end without a decode error.  In the first stream a value that does
    not parse follows the event with [done] set; in the second a stray
    closing brace stands between the two events.  [ChatStream] returns a nil
    error on both, and the streaming branch of [CallLLM] closes with the
    success summary, of "Hello" and of "Hel". *)
Lemma malformed_stream_ends_in_success :
  snd (fst (ChatStream
              (demo_stream
                 [Object (demo_event "Hello" true);
                  Malformed "invalid character 'x' looking for beginning of value";
                  Object (demo_event "!" true)])
              (demo_request "llama3") record [] world0)) = None /\
  trace (snd (CallLLM_stream
                (demo_stream
                   [Object (demo_event "Hello" true);
                    Malformed "invalid character 'x' looking for beginning of value";
                    Object (demo_event "!" true)])
                (demo_request "llama3") "llama3" 1000%Z world0)) =
    [SetHeader "Content-Type" "text/event-stream";
     SetHeader "Cache-Control" "no-cache";
     SetHeader "Connection" "keep-alive";
     Flush;
     HttpDo "http://localhost:11434/api/chat" (ApiChat (demo_request "llama3"));
     Decode 0;
     Write ("data: {model:llama3,message:{role:assistant,content:Hello},created_at:1000,done:true,progress:0}"
            +:+ String (Ascii.ascii_of_nat 10)
                  (String (Ascii.ascii_of_nat 10) ""));
     Flush;
     Write ("data: {content:Hello,message:LLM request received successfully,model:llama3,serial:serial-0,status:success,stream:true,time_taken:10ns}"
            +:+ String (Ascii.ascii_of_nat 10)
                  (String (Ascii.ascii_of_nat 10) ""));
     Flush] /\
  snd (fst (ChatStream
              (demo_stream
                 (seen_by_decoder
                    [Value (demo_event "Hel" false); Closing;
                     Value (demo_event "lo" true)]))
              (demo_request "llama3") record [] world0)) = None /\
  trace (snd (CallLLM_stream
                (demo_stream
                   (seen_by_decoder
                      [Value (demo_event "Hel" false); Closing;
                       Value (demo_event "lo" true)]))
                (demo_request "llama3") "llama3" 1000%Z world0)) =
    [SetHeader "Content-Type" "text/event-stream";
     SetHeader "Cache-Control" "no-cache";
     SetHeader "Connection" "keep-alive";
     Flush;
     HttpDo "http://localhost:11434/api/chat" (ApiChat (demo_request "llama3"));
     Decode 0;
     Write ("data: {model:llama3,message:{role:assistant,content:Hel},created_at:1000,done:false,progress:0}"
            +:+ String (Ascii.ascii_of_nat 10)
                  (String (Ascii.ascii_of_nat 10) ""));
     Flush;
     Write ("data: {content:Hel,message:LLM request received successfully,model:llama3,serial:serial-0,status:success,stream:true,time_taken:10ns}"
            +:+ String (Ascii.ascii_of_nat 10)
                  (String (Ascii.ascii_of_nat 10) ""));
     Flush].
Proof. repeat split; vm_compute; reflexivity. Qed.

Lemma is_success_spec (p : PullModelProgress) :
  is_success p = true <-> PullModelProgress_Status p = "success".
Proof. unfold is_success. apply String.eqb_eq. Qed.

Lemma not_success_spec (p : PullModelProgress) :
  is_success p = false <-> PullModelProgress_Status p <> "success".
Proof. unfold is_success. apply String.eqb_neq. Qed.

(** C10: [PullModel] leaves its loop right after handing the first progress
    object with status "success" to the callback, and returns a nil error:
    nothing that follows that object in the stream is decoded or handed
    over. *)
Theorem PullModel_stops_at_success (env : Env) (modelName : string)
    (w : World) raw pre p rest :
  Forall (fun q => PullModelProgress_Status q <> "success") pre ->
  PullModelProgress_Status p = "success" ->
  api_pull env modelName =
    Response StatusOK raw (map Object pre ++ Object p :: rest) ->
  PullModel env modelName (Some record) [] w =
    ((pre ++ [p], None),
     {| trace := trace w
                 ++ [HttpDo (baseURL env +:+ "/api/pull")
                       (ApiPull modelName true)]
                 ++ concat (imap (fun i _ => [Decode i]) (pre ++ [p]));
        ticks := ticks w;
        serials := serials w |}).
Proof.
  intros Hpre Hp Hreply.
  assert (Hpre' : Forall (fun q => is_success q = false) pre).
  { eapply Forall_impl; [exact Hpre|]. intros q. apply not_success_spec. }
  apply is_success_spec in Hp.
  destruct (consumed_until is_success pre p rest Hpre' Hp) as [Hcons Hfail].
  unfold PullModel. rewrite Hreply.
  unfold bind at 1. unfold emit at 1. cbv beta iota.
  rewrite decide_False by (intros H; now apply H).
  rewrite (PullModel_loop_simple record _ _ record_simple).
  cbv zeta. unfold failed_decode. rewrite Hcons, Hfail, foldl_record.
  cbn [trace ticks serials]. rewrite <- ?app_assoc, ?app_nil_r. reflexivity.
Qed.

(** C10, run: pulling "llama3" from the demo backend, whose stream goes on
    after the success object. *)
Lemma PullModel_stops_at_success_demo :
  PullModel demo "llama3" (Some record) [] world0 =
    (([demo_progress "pulling manifest" 40; demo_progress "success" 100],
      None),
     {| trace := [HttpDo "http://localhost:11434/api/pull"
                    (ApiPull "llama3" true);
                  Decode 0; Decode 1];
        ticks := 0;
        serials := 0 |}).
Proof.
  rewrite (PullModel_stops_at_success demo "llama3" world0 ""
             [demo_progress "pulling manifest" 40]
             (demo_progress "success" 100)
             [Object (demo_progress "verifying" 100)]).
  - reflexivity.
  - repeat constructor. discriminate.
  - reflexivity.
  - reflexivity.
Defined.

(** C3 as the claim has it fails: the stream of the demo backend for
    "mistral" holds two well-formed objects, none with status "success", and
    ends; [PullModel] returns a nil error and the last frame written by
    the relay of [OllamaPullModel] is the success frame. *)
Lemma pull_without_success_reports_success :
  api_pull demo "mistral" =
    Response StatusOK ""
      [Object (demo_progress "pulling manifest" 40);
       Object (demo_progress "downloading" 70)] /\
  snd (fst (PullModel demo "mistral" (Some (progressCallback demo demo_http))
              tt world0)) = None /\
  trace (snd (OllamaPullModel_from demo "mistral" demo_http world0)) =
    [SetHeader "Content-Type" "text/event-stream";
     SetHeader "Cache-Control" "no-cache";
     SetHeader "Connection" "keep-alive";
     HttpDo "http://localhost:11434/api/pull" (ApiPull "mistral" true);
     Decode 0;
     Write ("data: {status:pulling manifest,digest:sha256:6a0746a1ec1a,total:100,completed:40}"
            +:+ String (Ascii.ascii_of_nat 10)
                  (String (Ascii.ascii_of_nat 10) ""));
     Flush;
     Decode 1;
     Write ("data: {status:downloading,digest:sha256:6a0746a1ec1a,total:100,completed:70}"
            +:+ String (Ascii.ascii_of_nat 10)
                  (String (Ascii.ascii_of_nat 10) ""));
     Flush;
     Write ("data: {message:Model mistral downloaded successfully,status:success}"
            +:+ String (Ascii.ascii_of_nat 10)
                  (String (Ascii.ascii_of_nat 10) ""));
     Flush].
Proof. repeat split; vm_compute; reflexivity. Qed.

(** How [OllamaPullModel] ends, whatever the progress callback does in
    between: one frame whose kind follows the error of [PullModel]. *)
Lemma OllamaPullModel_closing (env : Env) (name : string) (r : Request)
    (w : World) :
  name <> "" ->
  Flusher env = true ->
  exists relayed,
    trace (snd (OllamaPullModel_from env name r w)) =
    relayed
    ++ [Write ("data: "
               +:+ json_Marshal env
                     match snd (fst (PullModel env name
                                       (Some (progressCallback env r)) tt
                                       {| trace :=
                                            trace w
                                            ++ [SetHeader "Content-Type"
                                                  "text/event-stream";
                                                SetHeader "Cache-Control"
                                                  "no-cache";
                                                SetHeader "Connection"
                                                  "keep-alive"];
                                          ticks := ticks w;
                                          serials := serials w |})) with
                     | Some err =>
                         JObject [("error", JString err);
                                  ("status", JString "error")]
                     | None =>
                         JObject
                           [("message",
                             JString ("Model " +:+ name
                                      +:+ " downloaded successfully"));
                            ("status", JString "success")]
                     end
               +:+ String (Ascii.ascii_of_nat 10)
                     (String (Ascii.ascii_of_nat 10) ""));
        Flush].
Proof.
  intros Hname Hflush.
  unfold OllamaPullModel_from. apply String.eqb_neq in Hname.
  rewrite Hname, Hflush. simpl negb. cbv iota.
  unfold bind at 1 2 3. unfold emit at 1 2 3. cbv beta iota.
  cbn [trace ticks serials]. rewrite <- !app_assoc. cbn [app].
  unfold bind at 1.
  destruct (PullModel env name (Some (progressCallback env r)) tt _)
    as [[l e] w'].
  cbn [fst snd]. destruct e as [err|].
  - unfold bind, Fprintf, emit. cbn [snd trace].
    rewrite <- app_assoc. eexists. reflexivity.
  - unfold bind, Fprintf, emit. cbn [snd trace].
    rewrite <- app_assoc. eexists. reflexivity.
Qed.

Lemma PullModel_error (env : Env) (name : string) {L : Type}
    (callback : option (PullModelProgress -> L -> M L)) (l : L) (w : World) :
  snd (fst (PullModel env name callback l w)) =
  match api_pull env name with
  | RequestInvalid err => Some err
  | TransportError err => Some err
  | Response status raw body =>
      if decide (status = StatusOK)
      then decode_failure is_success body
      else Some ("erro do servidor: status " +:+ pretty status)
  end.
Proof.
  unfold PullModel.
  destruct (api_pull env name) as [e|e|status raw body]; try reflexivity.
  unfold bind, emit.
  destruct (decide (status = StatusOK)) as [->|Hne].
  - rewrite decide_False by (intros H; now apply H).
    apply PullModel_loop_error.
  - rewrite decide_True by assumption. reflexivity.
Qed.

(** C3, amended: a pull stream that ends without a success object and
    without a value that fails to decode is a success: [PullModel] hands
    every object to the callback and returns a nil error, and
    [OllamaPullModel] closes with the success frame.  In general the closing
    frame of [OllamaPullModel] is the error frame, with the error in it,
    when the request cannot be made or sent, when the backend status is not
    200, and when a value fails to decode before a success object; in every
    other case it is the success frame. *)
Theorem pull_without_success_is_success (env : Env) (name : string)
    (r : Request) (w : World) :
  name <> "" ->
  Flusher env = true ->
  let frame (json : JValue) :=
    Write ("data: " +:+ json_Marshal env json
           +:+ String (Ascii.ascii_of_nat 10)
                 (String (Ascii.ascii_of_nat 10) "")) in
  let success :=
    frame (JObject
             [("message",
               JString ("Model " +:+ name +:+ " downloaded successfully"));
              ("status", JString "success")]) in
  let failure (err : string) :=
    frame (JObject [("error", JString err); ("status", JString "error")]) in
  (forall raw ps,
     Forall (fun q => PullModelProgress_Status q <> "success") ps ->
     api_pull env name = Response StatusOK raw (map Object ps) ->
     fst (PullModel env name (Some record) [] w) = (ps, None) /\
     exists relayed,
       trace (snd (OllamaPullModel_from env name r w)) =
       relayed ++ [success; Flush]) /\
  (exists relayed,
     trace (snd (OllamaPullModel_from env name r w)) =
     relayed
     ++ [match api_pull env name with
         | RequestInvalid err => failure err
         | TransportError err => failure err
         | Response status raw body =>
             if decide (status = StatusOK)
             then match decode_failure
                          (fun p =>
                             String.eqb (PullModelProgress_Status p) "success")
                          body with
                  | Some err => failure err
                  | None => success
                  end
             else failure ("erro do servidor: status " +:+ pretty status)
         end;
         Flush]).
Proof.
  intros Hname Hflush frame success failure.
  subst failure success frame.
  destruct (OllamaPullModel_closing env name r w Hname Hflush)
    as (relayed & Htrace).
  rewrite PullModel_error in Htrace.
  split.
  - intros raw ps Hps Hreply.
    assert (Hps' : Forall (fun q => is_success q = false) ps).
    { eapply Forall_impl; [exact Hps|]. intros q. apply not_success_spec. }
    destruct (consumed_all is_success ps Hps') as [Hcons Hfail].
    split.
    + unfold PullModel. rewrite Hreply.
      unfold bind at 1. unfold emit at 1. cbv beta iota.
      rewrite decide_False by (intros H; now apply H).
      rewrite (PullModel_loop_simple record _ _ record_simple).
      cbv zeta. rewrite Hcons, Hfail, foldl_record. reflexivity.
    + exists relayed. rewrite Htrace, Hreply.
      rewrite decide_True by reflexivity. now rewrite Hfail.
  - exists relayed. rewrite Htrace.
    destruct (api_pull env name) as [e|e|status raw body]; try reflexivity.
    destruct (decide (status = StatusOK)); [|reflexivity].
    change (fun p => String.eqb (PullModelProgress_Status p) "success")
      with is_success.
    destruct (decode_failure is_success body); reflexivity.
Qed.

(** C3, amended, run: the "mistral" stream of the demo backend ends without
    a success object; the switched-off backend answers 500. *)
Lemma pull_without_success_is_success_demo :
  fst (PullModel demo "mistral" (Some record) [] world0) =
    ([demo_progress "pulling manifest" 40; demo_progress "downloading" 70],
     None) /\
  (exists relayed,
     trace (snd (OllamaPullModel_from demo "mistral" demo_http world0)) =
     relayed
     ++ [Write ("data: {message:Model mistral downloaded successfully,status:success}"
                +:+ String (Ascii.ascii_of_nat 10)
                      (String (Ascii.ascii_of_nat 10) ""));
         Flush]) /\
  (exists relayed,
     trace (snd (OllamaPullModel_from (demo_of true false) "mistral" demo_http
                   world0)) =
     relayed
     ++ [Write ("data: {error:erro do servidor: status 500,status:error}"
                +:+ String (Ascii.ascii_of_nat 10)
                      (String (Ascii.ascii_of_nat 10) ""));
         Flush]).
Proof.
  assert (Hname : "mistral" <> "") by discriminate.
  destruct (pull_without_success_is_success demo "mistral" demo_http world0
              Hname eq_refl) as [Hend _].
  destruct (pull_without_success_is_success (demo_of true false) "mistral"
              demo_http world0 Hname eq_refl) as [_ Hclose].
  destruct (Hend ""
              [demo_progress "pulling manifest" 40;
               demo_progress "downloading" 70]) as [Hpull Hrelay].
  - repeat constructor; discriminate.
  - reflexivity.
  - split; [exact Hpull|]. split; [exact Hrelay | exact Hclose].
Defined.

(** C2: the last revisions of [EmbedText], [CallLLM] and [OllamaPullModel]
    never read the inbound body: whatever the request, the first two answer
    with the [missing_model] validation error and the third with
    [missing_name], and neither the embedder nor the backend is called. *)
Theorem handlers_ignore_request_body (env : Env) (r : Request) (w : World) :
  EmbedText env r w =
    (None,
     {| trace := trace w
                 ++ [RespondError StatusBadRequest "missing_model"
                       "Field 'model' is required"];
        ticks := S (ticks w);
        serials := serials w |}) /\
  CallLLM env r w =
    (tt,
     {| trace := trace w
                 ++ [RespondError StatusBadRequest "missing_model"
                       "Field 'model' is required"];
        ticks := S (ticks w);
        serials := serials w |}) /\
  OllamaPullModel env r w =
    (tt,
     {| trace := trace w
                 ++ [RespondError StatusBadRequest "missing_name"
                       "Field 'name' is required"];
        ticks := ticks w;
        serials := serials w |}) /\
  (forall e,
     e ∈ trace (snd (EmbedText env r world0))
         ++ trace (snd (CallLLM env r world0))
         ++ trace (snd (OllamaPullModel env r world0)) ->
     calls_out e = false).
Proof.
  assert (H1 : EmbedText env r w =
    (None,
     {| trace := trace w
                 ++ [RespondError StatusBadRequest "missing_model"
                       "Field 'model' is required"];
        ticks := S (ticks w);
        serials := serials w |})).
  { unfold EmbedText, EmbedText_from, new_OrusRequest, bind, time_Now.
    cbn [Body]. rewrite lookup_empty. reflexivity. }
  assert (H2 : CallLLM env r w =
    (tt,
     {| trace := trace w
                 ++ [RespondError StatusBadRequest "missing_model"
                       "Field 'model' is required"];
        ticks := S (ticks w);
        serials := serials w |})).
  { unfold CallLLM, CallLLM_from, new_OrusRequest, bind, time_Now.
    cbn [Body]. rewrite lookup_empty. reflexivity. }
  assert (H3 : OllamaPullModel env r w =
    (tt,
     {| trace := trace w
                 ++ [RespondError StatusBadRequest "missing_name"
                       "Field 'name' is required"];
        ticks := ticks w;
        serials := serials w |})).
  { reflexivity. }
  repeat split; try assumption.
  intros e He.
  assert (He' : e ∈ [RespondError StatusBadRequest "missing_model"
                       "Field 'model' is required";
                     RespondError StatusBadRequest "missing_model"
                       "Field 'model' is required";
                     RespondError StatusBadRequest "missing_name"
                       "Field 'name' is required"]).
  { revert He. unfold EmbedText, EmbedText_from, CallLLM, CallLLM_from,
      new_OrusRequest, bind, time_Now. cbn [Body]. rewrite !lookup_empty.
    intros He. exact He. }
  rewrite !elem_of_cons in He'. rewrite elem_of_nil in He'.
  destruct He' as [-> | [-> | [-> | []]]]; reflexivity.
Qed.

Lemma embedText_invalid (env : Env) (model text : string) (startTime : Time)
    (w : World) :
  model <> "bge-m3" -> model <> "nomic-embed-text:latest" ->
  model <> "ollama-bge-m3" ->
  embedText env model text startTime w =
    ({| OrusResponse_Success := false;
        OrusResponse_Serial := OrusResponse_Serial (NewOrusResponse env);
        OrusResponse_Message := "Invalid model";
        OrusResponse_Error := "Invalid model";
        OrusResponse_TimeTaken := (clock env (ticks w) - startTime)%Z;
        OrusResponse_Data := OrusResponse_Data (NewOrusResponse env) |},
     {| trace := trace w; ticks := S (ticks w); serials := S (serials w) |}).
Proof.
  intros H1 H2 H3. unfold embedText.
  apply String.eqb_neq in H1, H2, H3. rewrite H1, H2, H3. reflexivity.
Qed.

Lemma embed_succeeded_quantization (env : Env) resp serial vector text model
    dimensions quantization startTime w :
  let resp' :=
    fst (embed_succeeded env resp serial vector text model dimensions
           quantization startTime w) in
  OrusResponse_Success resp' = true /\
  OrusResponse_Data resp' !! "quantization" = Some (AString quantization) /\
  OrusResponse_Data resp' !! "model" = Some (AString model) /\
  OrusResponse_Data resp' !! "vector" = Some (ASlice vector) /\
  OrusResponse_Data resp' !! "dimensions" =
    Some (AInt (Z.of_nat dimensions)).
Proof.
  simpl. repeat split; by simplify_map_eq.
Qed.

Lemma GetEmbedding_spec (env : Env) (model text : string) :
  exists r es,
    (forall w,
       GetEmbedding env model text w =
       (r, {| trace := trace w ++ es; ticks := ticks w;
              serials := serials w |})) /\
    (forall status raw body,
       api_embeddings env model text = Response status raw body ->
       HttpDo (baseURL env +:+ "/api/embeddings") (ApiEmbeddings model text)
         ∈ es).
Proof.
  unfold GetEmbedding.
  destruct (api_embeddings env model text) as [e|e|status raw body].
  - exists (Err ("error creating request: " +:+ e)), [].
    split; [|discriminate].
    intros [tr tk sr]. unfold ret. simpl. now rewrite app_nil_r.
  - eexists. eexists. split; [|discriminate].
    intros [tr tk sr]. unfold bind, emit, ret. simpl. reflexivity.
  - destruct (decide (status <> StatusOK)).
    + eexists. eexists. split.
      * intros [tr tk sr]. unfold bind, emit, ret. simpl. reflexivity.
      * intros _ _ _ _. apply list_elem_of_here.
    + destruct body as [|[v|e] body].
      * eexists. exists [HttpDo (baseURL env +:+ "/api/embeddings")
                           (ApiEmbeddings model text); Decode 0]. split.
        -- intros [tr tk sr]. unfold bind, emit, ret. simpl.
           rewrite <- app_assoc. reflexivity.
        -- intros _ _ _ _. apply list_elem_of_here.
      * eexists. exists [HttpDo (baseURL env +:+ "/api/embeddings")
                           (ApiEmbeddings model text); Decode 0]. split.
        -- intros [tr tk sr]. unfold bind, emit, ret. simpl.
           rewrite <- app_assoc. reflexivity.
        -- intros _ _ _ _. apply list_elem_of_here.
      * eexists. exists [HttpDo (baseURL env +:+ "/api/embeddings")
                           (ApiEmbeddings model text); Decode 0]. split.
        -- intros [tr tk sr]. unfold bind, emit, ret. simpl.
           rewrite <- app_assoc. reflexivity.
        -- intros _ _ _ _. apply list_elem_of_here.
Qed.

Lemma embedText_bge_m3 (env : Env) (text : string) (startTime : Time)
    (w : World) :
  embedText env "bge-m3" text startTime w =
  match BGEM3Embedder_Embed env text with
  | Err err =>
      embed_failed env (NewOrusResponse env) err
        ("Error embedding text with model " +:+ "bge-m3") startTime
  | Ok vector32 =>
      embed_succeeded env (NewOrusResponse env) (uuid env (serials w))
        (map AFloat32 vector32) text "bge-m3" (length vector32) "float32"
        startTime
  end {| trace := trace w ++ [Embed text]; ticks := ticks w;
         serials := S (serials w) |}.
Proof.
  unfold embedText. cbn [String.eqb Ascii.eqb Bool.eqb].
  unfold bind, uuid_New, emit. cbn [trace ticks serials].
  destruct (BGEM3Embedder_Embed env text); reflexivity.
Qed.

Lemma embedText_remote (env : Env) (model backend text : string)
    (startTime : Time) (w : World) :
  (r <- GetEmbedding env backend text ;;
   match r with
   | Err err =>
       embed_failed env (NewOrusResponse env) err
         ("Error embedding text with model " +:+ model) startTime
   | Ok vector64 =>
       embed_succeeded env (NewOrusResponse env) (uuid env (serials w))
         (map AFloat64 vector64) text model (length vector64) "float64"
         startTime
   end) {| trace := trace w; ticks := ticks w; serials := S (serials w) |} =
  match fst (GetEmbedding env backend text
               {| trace := trace w; ticks := ticks w;
                  serials := S (serials w) |}) with
  | Err err =>
      embed_failed env (NewOrusResponse env) err
        ("Error embedding text with model " +:+ model) startTime
  | Ok vector64 =>
      embed_succeeded env (NewOrusResponse env) (uuid env (serials w))
        (map AFloat64 vector64) text model (length vector64) "float64"
        startTime
  end (snd (GetEmbedding env backend text
              {| trace := trace w; ticks := ticks w;
                 serials := S (serials w) |})).
Proof. unfold bind. destruct (GetEmbedding _ _ _ _). reflexivity. Qed.

Lemma embedText_nomic (env : Env) (text : string) (startTime : Time)
    (w : World) :
  embedText env "nomic-embed-text:latest" text startTime w =
  match fst (GetEmbedding env "nomic-embed-text:latest" text
               {| trace := trace w; ticks := ticks w;
                  serials := S (serials w) |}) with
  | Err err =>
      embed_failed env (NewOrusResponse env) err
        ("Error embedding text with model " +:+ "nomic-embed-text:latest")
        startTime
  | Ok vector64 =>
      embed_succeeded env (NewOrusResponse env) (uuid env (serials w))
        (map AFloat64 vector64) text "nomic-embed-text:latest"
        (length vector64) "float64" startTime
  end (snd (GetEmbedding env "nomic-embed-text:latest" text
              {| trace := trace w; ticks := ticks w;
                 serials := S (serials w) |})).
Proof.
  rewrite <- embedText_remote. reflexivity.
Qed.

Lemma embedText_alias (env : Env) (text : string) (startTime : Time)
    (w : World) :
  embedText env "ollama-bge-m3" text startTime w =
  match fst (GetEmbedding env "bge-m3:latest" text
               {| trace := trace w; ticks := ticks w;
                  serials := S (serials w) |}) with
  | Err err =>
      embed_failed env (NewOrusResponse env) err
        ("Error embedding text with model " +:+ "ollama-bge-m3") startTime
  | Ok vector64 =>
      embed_succeeded env (NewOrusResponse env) (uuid env (serials w))
        (map AFloat64 vector64) text "ollama-bge-m3" (length vector64)
        "float64" startTime
  end (snd (GetEmbedding env "bge-m3:latest" text
              {| trace := trace w; ticks := ticks w;
                 serials := S (serials w) |})).
Proof.
  rewrite <- embedText_remote. reflexivity.
Qed.

(** C6: the model switch of [embedText] is an exact match with no default:
    an identifier outside the table, "unknown-model" among them, gets the
    "Invalid model" response and no provider is called; "bge-m3" goes to the
    in-process embedder and reports quantization "float32";
    "nomic-embed-text:latest" goes to the backend under its own name and
    reports "float64"; the alias "ollama-bge-m3" goes to the backend as
    "bge-m3:latest". *)
Theorem embedText_provider_switch (env : Env) (text : string)
    (startTime : Time) (w : World) :
  let resp model := fst (embedText env model text startTime w) in
  let effects model := trace (snd (embedText env model text startTime w)) in
  let quantization model := OrusResponse_Data (resp model) !! "quantization" in
  (forall model,
     model <> "bge-m3" -> model <> "nomic-embed-text:latest" ->
     model <> "ollama-bge-m3" ->
     OrusResponse_Success (resp model) = false /\
     OrusResponse_Error (resp model) = "Invalid model" /\
     effects model = trace w) /\
  (OrusResponse_Success (resp "unknown-model") = false /\
   OrusResponse_Error (resp "unknown-model") = "Invalid model" /\
   effects "unknown-model" = trace w) /\
  (effects "bge-m3" = trace w ++ [Embed text] /\
   forall vector32,
     BGEM3Embedder_Embed env text = Ok vector32 ->
     OrusResponse_Success (resp "bge-m3") = true /\
     quantization "bge-m3" = Some (AString "float32") /\
     OrusResponse_Data (resp "bge-m3") !! "vector" =
       Some (ASlice (map AFloat32 vector32))) /\
  (effects "nomic-embed-text:latest" =
     trace (snd (GetEmbedding env "nomic-embed-text:latest" text w)) /\
   forall vector64,
     fst (GetEmbedding env "nomic-embed-text:latest" text w) = Ok vector64 ->
     OrusResponse_Success (resp "nomic-embed-text:latest") = true /\
     quantization "nomic-embed-text:latest" = Some (AString "float64") /\
     OrusResponse_Data (resp "nomic-embed-text:latest") !! "vector" =
       Some (ASlice (map AFloat64 vector64))) /\
  (effects "ollama-bge-m3" =
     trace (snd (GetEmbedding env "bge-m3:latest" text w)) /\
   (forall status raw body,
      api_embeddings env "bge-m3:latest" text = Response status raw body ->
      HttpDo (baseURL env +:+ "/api/embeddings")
        (ApiEmbeddings "bge-m3:latest" text) ∈ effects "ollama-bge-m3") /\
   forall vector64,
     fst (GetEmbedding env "bge-m3:latest" text w) = Ok vector64 ->
     OrusResponse_Success (resp "ollama-bge-m3") = true /\
     quantization "ollama-bge-m3" = Some (AString "float64") /\
     OrusResponse_Data (resp "ollama-bge-m3") !! "model" =
       Some (AString "ollama-bge-m3")).
Proof.
  cbv zeta. split; [|split; [|split; [|split]]].
  - intros model H1 H2 H3.
    rewrite (embedText_invalid env model text startTime w H1 H2 H3).
    repeat split.
  - rewrite embedText_invalid by discriminate. repeat split.
  - rewrite !embedText_bge_m3.
    destruct (BGEM3Embedder_Embed env text) as [vector32|err].
    + split; [reflexivity|]. intros v Hv. injection Hv as <-.
      pose proof (embed_succeeded_quantization env (NewOrusResponse env)
                    (uuid env (serials w)) (map AFloat32 vector32) text
                    "bge-m3" (length vector32) "float32" startTime
                    {| trace := trace w ++ [Embed text]; ticks := ticks w;
                       serials := S (serials w) |}) as Hq.
      cbv zeta in Hq. tauto.
    + split; [reflexivity | discriminate].
  - rewrite !embedText_nomic.
    destruct (GetEmbedding_spec env "nomic-embed-text:latest" text)
      as (r & es & Hget & _).
    rewrite !Hget. cbn [trace ticks serials fst snd].
    destruct r as [vector64|err].
    + split; [reflexivity|]. intros v Hv. injection Hv as <-.
      pose proof (embed_succeeded_quantization env (NewOrusResponse env)
                    (uuid env (serials w)) (map AFloat64 vector64) text
                    "nomic-embed-text:latest" (length vector64) "float64"
                    startTime
                    {| trace := trace w ++ es; ticks := ticks w;
                       serials := S (serials w) |}) as Hq.
      cbv zeta in Hq. tauto.
    + split; [reflexivity | discriminate].
  - rewrite !embedText_alias.
    destruct (GetEmbedding_spec env "bge-m3:latest" text)
      as (r & es & Hget & Hcall).
    rewrite !Hget. cbn [trace ticks serials fst snd].
    assert (Hin : forall status raw body,
               api_embeddings env "bge-m3:latest" text =
                 Response status raw body ->
               HttpDo (baseURL env +:+ "/api/embeddings")
                 (ApiEmbeddings "bge-m3:latest" text) ∈ trace w ++ es).
    { intros status raw body Hreply. rewrite elem_of_app. right.
      eapply Hcall, Hreply. }
    destruct r as [vector64|err].
    + split; [reflexivity|]. split; [exact Hin|].
      intros v Hv. injection Hv as <-.
      pose proof (embed_succeeded_quantization env (NewOrusResponse env)
                    (uuid env (serials w)) (map AFloat64 vector64) text
                    "ollama-bge-m3" (length vector64) "float64"
                    startTime
                    {| trace := trace w ++ es; ticks := ticks w;
                       serials := S (serials w) |}) as Hq.
      cbv zeta in Hq. tauto.
    + split; [reflexivity|]. split; [exact Hin | discriminate].
Qed.

(** C6, run: the four identifiers on the demo backend. *)
Lemma embedText_provider_switch_demo :
  OrusResponse_Error (fst (embedText demo "unknown-model" "hello" 1000%Z world0))
    = "Invalid model" /\
  OrusResponse_Data (fst (embedText demo "bge-m3" "hello" 1000%Z world0))
    !! "quantization" = Some (AString "float32") /\
  OrusResponse_Data
    (fst (embedText demo "nomic-embed-text:latest" "hello" 1000%Z world0))
    !! "quantization" = Some (AString "float64") /\
  HttpDo "http://localhost:11434/api/embeddings"
    (ApiEmbeddings "bge-m3:latest" "hello")
    ∈ trace (snd (embedText demo "ollama-bge-m3" "hello" 1000%Z world0)).
Proof.
  pose proof (embedText_provider_switch demo "hello" 1000%Z world0)
    as (_ & Hunknown & Hbge & Hnomic & Halias).
  split; [|split; [|split]].
  - apply Hunknown.
  - destruct Hbge as [_ Hbge]. eapply Hbge. reflexivity.
  - destruct Hnomic as [_ Hnomic]. eapply Hnomic. reflexivity.
  - destruct Halias as (_ & Hcall & _). eapply Hcall. reflexivity.
Defined.

(** ** The dispatch under a deadline *)

Ltac step_cases H :=
  unfold step in H; cbn [elapsed ctxDone respChan worker handler written] in H;
  repeat match type of H with
         | context [match ?x with _ => _ end] => destruct x eqn:?
         end;
  try discriminate H; injection H as <-; subst.

Lemma may_pass_spec d s t :
  may_pass d s t = true ->
  (elapsed s < t)%Z /\
  (ctxDone s = false -> (t <= deadline d)%Z) /\
  (worker s = Running -> forall l, latency d = Some l -> (t <= l)%Z).
Proof.
  unfold may_pass. rewrite !andb_true_iff, !orb_true_iff.
  intros [[H1 H3] H4]. apply Z.ltb_lt in H1.
  split; [exact H1|]. split.
  { intros E. destruct H3 as [H3|H3]; [congruence | now apply Z.leb_le]. }
  intros E l Hl. destruct H4 as [H4|H4].
  - rewrite E in H4. discriminate.
  - rewrite Hl in H4. now apply Z.leb_le.
Qed.


Section Dispatching.
Variable env : Env.
Variable d : Dispatch.

Lemma safe_init : safe env d (init d).
Proof.
  unfold safe, one_response, init. simpl. repeat split; try discriminate.
  intros H _. now apply Z.leb_le.
Qed.

Lemma safe_step ev s s' : safe env d s -> step env d ev s = Some s' -> safe env d s'.
Proof.
  intros (Hone & Hchan & Hwoken & Hdone & Hexp) Hstep.
  destruct s as [el cd ch wk hd wr]. unfold one_response in *. simpl in *.
  destruct ev.
  - unfold step in Hstep. destruct (may_pass _ _ _) eqn:Hpass; [|discriminate].
    injection Hstep as <-. apply may_pass_spec in Hpass. simpl in *.
    unfold safe, one_response. simpl. repeat split; auto.
    + intros E1 E2. specialize (Hdone E1 E2). lia.
    + intros E. specialize (Hexp E). lia.
  - step_cases Hstep; unfold safe, one_response; simpl in *.
    all: rewrite andb_true_iff in *.
    all: match goal with H : _ /\ (_ =? _)%Z = true |- _ =>
        destruct H as [_ H]; apply Z.eqb_eq in H end.
    all: repeat split; auto; try discriminate; try congruence; try lia.
  - step_cases Hstep; unfold safe, one_response; simpl in *;
      repeat split; auto.
  - step_cases Hstep; unfold safe, one_response; simpl in *;
      repeat split; auto; try discriminate; try congruence.
  - step_cases Hstep; unfold safe, one_response; simpl in *;
      repeat split; auto.
  - step_cases Hstep; unfold safe, one_response; simpl in *;
      repeat split; auto; try discriminate.
  - step_cases Hstep; unfold safe, one_response; simpl in *;
      repeat split; auto; try discriminate; try congruence.
    intros resp E. injection E as <-. now apply Hchan.
  - step_cases Hstep; unfold safe, one_response; simpl in *;
      repeat split; auto; try discriminate.
  - step_cases Hstep; unfold safe, one_response; simpl in *.
    repeat split; auto; try discriminate; try congruence.
    destruct b as [resp|]; simpl.
    + left. now rewrite (Hwoken resp eq_refl).
    + right. exists el. split; [|reflexivity]. now apply Hexp.
Qed.

Lemma safe_run evs : forall s s', safe env d s -> run env d evs s = Some s' -> safe env d s'.
Proof.
  induction evs as [|ev evs IH]; intros s s' Hs Hrun; simpl in Hrun.
  - now injection Hrun as <-.
  - destruct (step env d ev s) as [s1|] eqn:Hstep; [|discriminate].
    eapply IH; [|exact Hrun]. eapply safe_step; eassumption.
Qed.







End Dispatching.





(** C5: a dispatch delivers one result and only one.  In every state of
    every schedule nothing has been written while the handler waits in its
    [select]; once a branch of the [select] has fired, the handler's next
    move writes the response of that branch; after it has returned, what was
    written is one response: the worker's result (the success payload or the
    backend error, as [embedText] made it) or the timeout envelope. *)
Theorem dispatch_delivers_one_result (env : Env) (d : Dispatch)
    (evs : list Event) (s : State) :
  run env d evs (init d) = Some s ->
  length (written s) <= 1 /\
  match handler s with
  | Entering | Parked => written s = []
  | Woken b =>
      written s = [] /\
      exists s',
        step env d Respond s = Some s' /\
        handler s' = Returned /\
        written s' = [respond env b (elapsed s)]
  | Returned =>
      written s = [RespondJSON StatusOK (Envelope (result d))]
      \/ exists taken,
           written s =
             [RespondJSON StatusGatewayTimeout
                (Envelope (timeoutResp env taken))]
  end.
Proof.
  intros Hrun.
  pose proof (safe_run env d evs _ _ (safe_init env d) Hrun) as (Hone & _).
  unfold one_response in Hone.
  destruct s as [el cd ch wk hd wr]. simpl in *.
  destruct hd as [| |b|].
  - subst wr. split; [simpl; lia | reflexivity].
  - subst wr. split; [simpl; lia | reflexivity].
  - subst wr. split; [simpl; lia|]. split; [reflexivity|].
    eexists. split; [reflexivity|]. split; reflexivity.
  - destruct Hone as [-> | (taken & _ & ->)].
    + split; [simpl; lia | now left].
    + split; [simpl; lia|]. right. now exists taken.
Qed.



(** C5, run: [embedText] returns after 2 seconds and its result is the one
    response. *)
Lemma dispatch_delivers_one_result_demo :
  let s :=
    {| elapsed := (2 * Second)%Z; ctxDone := true; respChan := None;
       worker := Exited; handler := Returned;
       written := [RespondJSON StatusOK (Envelope demo_result)] |} in
  run demo demo_fast [EnterPark; Tick (2 * Second)%Z; Return; Send; Respond]
    (init demo_fast) = Some s /\
  length (written s) <= 1 /\
  (written s = [RespondJSON StatusOK (Envelope (result demo_fast))]
   \/ exists taken,
        written s =
          [RespondJSON StatusGatewayTimeout
             (Envelope (timeoutResp demo taken))]).
Proof.
  split; [reflexivity|].
  apply (dispatch_delivers_one_result demo demo_fast
           [EnterPark; Tick (2 * Second)%Z; Return; Send; Respond]).
  reflexivity.
Defined.

(** ** More of the client *)

Lemma Generate_loop_spec (body : list (Decoded GenerateResponse)) :
  forall finalResponse,
    Generate_loop body finalResponse =
    match decode_failure GenerateResponse_Done body with
    | Some err => Err ("error decoding response: " +:+ err)
    | None =>
        let evs := consumed GenerateResponse_Done body in
        let lst := default finalResponse (last evs) in
        Ok {| GenerateResponse_Model := GenerateResponse_Model lst;
              GenerateResponse_Response :=
                GenerateResponse_Response finalResponse
                +:+ String.concat "" (map GenerateResponse_Response evs);
              GenerateResponse_CreatedAt := GenerateResponse_CreatedAt lst;
              GenerateResponse_Done := GenerateResponse_Done lst |}
    end.
Proof.
  induction body as [|[ev|err] rest IH]; intros fr.
  - simpl. rewrite append_nil_r. now destruct fr.
  - simpl Generate_loop. simpl decode_failure. simpl consumed.
    destruct (GenerateResponse_Done ev) eqn:Hdone.
    + simpl. rewrite Hdone. reflexivity.
    + rewrite IH. destruct (decode_failure GenerateResponse_Done rest); [reflexivity|].
      cbv zeta. rewrite last_cons. simpl map. rewrite concat_cons.
      cbn [GenerateResponse_Response]. rewrite append_assoc.
      destruct (last (consumed GenerateResponse_Done rest)) as [l|]; simpl.
      * reflexivity.
      * now rewrite Hdone.
  - reflexivity.
Qed.

(** X1: [Generate] on a 200 reply returns the concatenation of the
    [Response] fragments of the objects it decodes, with the model, the
    timestamp and the [Done] flag of the last of them (the zero values when
    the body is empty); a value that fails to decode turns the whole call
    into an error and what was accumulated is dropped. *)
Theorem Generate_accumulates (raw : string)
    (body : list (Decoded GenerateResponse)) :
  Generate (Response StatusOK raw body) =
  match decode_failure GenerateResponse_Done body with
  | Some err => Err ("error decoding response: " +:+ err)
  | None =>
      let evs := consumed GenerateResponse_Done body in
      let lst := default GenerateResponse_zero (last evs) in
      Ok {| GenerateResponse_Model := GenerateResponse_Model lst;
            GenerateResponse_Response :=
              String.concat "" (map GenerateResponse_Response evs);
            GenerateResponse_CreatedAt := GenerateResponse_CreatedAt lst;
            GenerateResponse_Done := GenerateResponse_Done lst |}
  end.
Proof.
  unfold Generate. rewrite decide_False by (intros H; now apply H).
  apply Generate_loop_spec.
Qed.

Lemma Chat_last_fields (evs : list ChatResponse) :
  forall finalResponse,
    Chat_last finalResponse evs =
    let lst := default finalResponse (last evs) in
    {| ChatResponse_Model := ChatResponse_Model lst;
       ChatResponse_Message :=
         {| Role := Role (ChatResponse_Message lst);
            Content := Content (ChatResponse_Message finalResponse) |};
       ChatResponse_CreatedAt := ChatResponse_CreatedAt lst;
       ChatResponse_Done := ChatResponse_Done lst |}.
Proof.
  induction evs as [|ev evs IH]; intros fr.
  - simpl. now destruct fr as [m [r c] t d].
  - unfold Chat_last in *. simpl foldl. rewrite IH. cbv zeta.
    rewrite last_cons. destruct (last evs); reflexivity.
Qed.

(** X2: [Chat] on a 200 reply returns the model, role, timestamp and [Done]
    flag of the last object it decoded (the zero values when the body is
    empty) around the concatenated content; when a value fails to decode the
    call returns the decode error alone, and the content gathered before it
    is lost. *)
Theorem Chat_response (env : Env) (req : ChatRequest) (w : World) raw body :
  api_chat env req = Response StatusOK raw body ->
  fst (Chat env req w) =
  match decode_failure ChatResponse_Done body with
  | Some err => Err ("error decoding response: " +:+ err)
  | None =>
      let evs := consumed ChatResponse_Done body in
      let lst := default ChatResponse_zero (last evs) in
      Ok {| ChatResponse_Model := ChatResponse_Model lst;
            ChatResponse_Message :=
              {| Role := Role (ChatResponse_Message lst);
                 Content := String.concat "" (map chat_delta evs) |};
            ChatResponse_CreatedAt := ChatResponse_CreatedAt lst;
            ChatResponse_Done := ChatResponse_Done lst |}
  end.
Proof.
  intros Hreply. unfold Chat. rewrite Hreply.
  unfold bind at 1. unfold emit at 1. cbv beta iota.
  rewrite decide_False by (intros H; now apply H).
  unfold bind at 1. rewrite Chat_loop_spec. cbv zeta.
  destruct (decode_failure ChatResponse_Done body); [reflexivity|].
  unfold ret. cbn [fst]. rewrite Chat_last_fields. reflexivity.
Qed.

(** X2, run: the two replies of the demo backend. *)
Lemma Chat_response_demo :
  fst (Chat demo (demo_request "llama3") world0) =
    Ok {| ChatResponse_Model := "llama3.1:8b-instruct";
          ChatResponse_Message := {| Role := "assistant"; Content := "Hello" |};
          ChatResponse_CreatedAt := 1700000000%Z;
          ChatResponse_Done := true |}.
Proof.
  rewrite (Chat_response demo (demo_request "llama3") world0 ""
             [Object (demo_reply "Hel" false); Object (demo_reply "lo" true)]);
    reflexivity.
Defined.

(** X3: [ChatStream] leaves its loop right after handing the first event
    with [done] set to the callback and returns a nil error: the callback
    has received the events up to that one, and nothing that follows it in
    the stream, well formed or not, is decoded. *)
Theorem ChatStream_stops_at_done (env : Env) (req : ChatRequest) (w : World)
    raw pre ev rest :
  Forall (fun e => ChatStreamResponse_Done e = false) pre ->
  ChatStreamResponse_Done ev = true ->
  api_chat_stream env (streaming req) =
    Response StatusOK raw (map Object pre ++ Object ev :: rest) ->
  let evs := deliveries env req (ticks w) (pre ++ [ev]) in
  ChatStream env req record [] w =
    ((evs, None),
     {| trace := trace w
                 ++ [HttpDo (baseURL env +:+ "/api/chat")
                       (ApiChat (streaming req))]
                 ++ concat (imap (fun i _ => [Decode i]) evs);
        ticks := ticks w + length (pre ++ [ev]);
        serials := serials w |}).
Proof.
  intros Hpre Hev Hreply evs.
  destruct (consumed_until ChatStreamResponse_Done pre ev rest Hpre Hev)
    as [Hcons Hfail].
  unfold ChatStream. fold (streaming req). rewrite Hreply.
  unfold bind at 1. unfold emit at 1. cbv beta iota.
  rewrite decide_False by (intros H; now apply H).
  rewrite (ChatStream_loop_simple env (streaming req) record _ _ record_simple).
  cbv zeta. unfold failed_decode. rewrite Hcons, Hfail.
  change (deliveries env (streaming req)) with (deliveries env req).
  rewrite foldl_record, ?deliveries_length.
  cbn [trace ticks serials fmap option_fmap option_map].
  rewrite <- ?app_assoc, ?app_nil_r. reflexivity.
Qed.

(** X3, run: the stream of the demo backend. *)
Lemma ChatStream_stops_at_done_demo :
  fst (ChatStream demo (demo_request "llama3") record [] world0) =
    ([delivered (demo_request "llama3") 1000%Z (demo_event "Hel" false);
      delivered (demo_request "llama3") 1010%Z (demo_event "lo" true)],
     None).
Proof.
  rewrite (ChatStream_stops_at_done demo (demo_request "llama3") world0 ""
             [demo_event "Hel" false] (demo_event "lo" true) []).
  - reflexivity.
  - repeat constructor.
  - reflexivity.
  - reflexivity.
Defined.

(** X4: when the backend does not answer 200, or cannot be reached, the
    streaming branch of [CallLLM] writes the headers and then one error frame
    that carries the client's error (status and body, or the transport
    error); no event is decoded, no event frame and no summary frame is
    written, and no identifier is drawn. *)
Theorem CallLLM_stream_upstream_error (env : Env) (chatRequest : ChatRequest)
    (model : string) (startTime : Time) (w : World) :
  Flusher env = true ->
  let opened :=
    trace w
    ++ [SetHeader "Content-Type" "text/event-stream";
        SetHeader "Cache-Control" "no-cache";
        SetHeader "Connection" "keep-alive";
        Flush;
        HttpDo (baseURL env +:+ "/api/chat")
          (ApiChat (streaming chatRequest))] in
  let error_written err :=
    (tt,
     {| trace := opened
                 ++ [Write (sse_data (json_Marshal env (error_frame err)));
                     Flush];
        ticks := ticks w;
        serials := serials w |}) in
  (forall status raw body,
     status <> StatusOK ->
     api_chat_stream env (streaming chatRequest) = Response status raw body ->
     CallLLM_stream env chatRequest model startTime w =
     error_written
       ("error from Ollama (status " +:+ pretty status +:+ "): " +:+ raw)) /\
  (forall err,
     api_chat_stream env (streaming chatRequest) = TransportError err ->
     CallLLM_stream env chatRequest model startTime w =
     error_written ("error making request: " +:+ err)).
Proof.
  intros Hflush opened error_written. subst error_written opened.
  split.
  - intros status raw body Hst Hreply.
    unfold CallLLM_stream. rewrite Hflush. simpl negb. cbv iota.
    unfold bind at 1 2 3 4. unfold emit at 1 2 3 4. cbv beta iota.
    unfold bind at 1. unfold ChatStream at 1. fold (streaming chatRequest).
    rewrite Hreply. unfold bind at 1. unfold emit at 1. cbv beta iota.
    rewrite decide_True by assumption.
    unfold ret, bind, Fprintf, emit. cbn [fst snd trace ticks serials].
    rewrite <- ?app_assoc. reflexivity.
  - intros err Hreply.
    unfold CallLLM_stream. rewrite Hflush. simpl negb. cbv iota.
    unfold bind at 1 2 3 4. unfold emit at 1 2 3 4. cbv beta iota.
    unfold bind at 1. unfold ChatStream at 1. fold (streaming chatRequest).
    rewrite Hreply. unfold bind at 1. unfold emit at 1. cbv beta iota.
    unfold ret, bind, Fprintf, emit. cbn [fst snd trace ticks serials].
    rewrite <- ?app_assoc. reflexivity.
Qed.

(** ** More of the handlers *)

(** X5: [EmbedText] goes on to the dispatch exactly when [model] and [text]
    are both present as strings, and then with those two values and no
    effect; otherwise it answers with one 400 validation error and nothing
    else, [model] being looked at before [text]. *)
Theorem EmbedText_validation (request : OrusRequest)
    (startTime : Time) (w : World) :
  match embed_fields request with
  | Some (model, text) =>
      EmbedText_from request startTime w =
      (Some (startTime, model, text), w)
  | None =>
      exists code message,
        EmbedText_from request startTime w =
        (None,
         {| trace := trace w ++ [RespondError StatusBadRequest code message];
            ticks := ticks w;
            serials := serials w |}) /\
        (Body request !! "model" = None -> code = "missing_model") /\
        ((exists model, Body request !! "model" = Some (JString model)) ->
         Body request !! "text" = None -> code = "missing_text")
  end.
Proof.
  unfold embed_fields, EmbedText_from.
  destruct (Body request !! "model") as [[| | |model| |]|];
    destruct (Body request !! "text") as [[| | |text| |]|];
    try (destruct w; reflexivity);
    unfold bind, emit, ret; eexists; eexists;
    (split; [reflexivity|]); split; try discriminate; try reflexivity;
    try (intros [m Hm]; discriminate); intros; reflexivity.
Qed.

(** X6: [CallLLM] gets past its validation exactly when [model] is a
    string, [think] a boolean and [messages] present and decodable;
    otherwise it answers with one 400 validation error, nothing else, and the
    backend is not called.  Past the validation, [stream] counts as false
    unless it is present as a boolean, and decides between the two
    branches. *)
Theorem CallLLM_validation (env : Env) (request : OrusRequest)
    (response : OrusResponse) (startTime : Time) (w : World) :
  match chat_fields env request with
  | None =>
      exists code message,
        CallLLM_from env request response startTime w =
        (tt,
         {| trace := trace w ++ [RespondError StatusBadRequest code message];
            ticks := ticks w;
            serials := serials w |})
  | Some (model, think, messages) =>
      let stream :=
        match Body request !! "stream" with
        | Some (JBool b) => b
        | _ => false
        end in
      exists format images,
        let chatRequest :=
          {| ChatRequest_Model := model;
             ChatRequest_Messages := messages;
             ChatRequest_Stream := stream;
             ChatRequest_Format := format;
             ChatRequest_Think := think;
             ChatRequest_Images := images |} in
        CallLLM_from env request response startTime w =
        if stream
        then CallLLM_stream env chatRequest model startTime w
        else CallLLM_sync env chatRequest model stream think response
               startTime w
  end.
Proof.
  unfold chat_fields, CallLLM_from.
  destruct (Body request !! "model") as [[| | |model| |]|];
    try (unfold emit; eexists; eexists; reflexivity).
  destruct (Body request !! "think") as [[|think| | | |]|];
    try (unfold emit; eexists; eexists; reflexivity).
  destruct (Body request !! "messages") as [messagesRaw|];
    try (unfold emit; eexists; eexists; reflexivity).
  destruct (json_messages env messagesRaw) as [messages|err];
    try (unfold emit; eexists; eexists; reflexivity).
  cbv zeta. eexists. eexists.
  destruct (match Body request !! "stream" with
            | Some (JBool b) => b
            | _ => false
            end); reflexivity.
Qed.

Lemma Chat_world (env : Env) (req : ChatRequest) (w : World) :
  exists called,
    snd (Chat env req w) =
    {| trace := trace w ++ called; ticks := ticks w; serials := serials w |}.
Proof.
  unfold Chat. destruct (api_chat env req) as [e|e|status raw body].
  - exists []. unfold ret. simpl. rewrite app_nil_r. now destruct w.
  - eexists. unfold bind, emit, ret. simpl. reflexivity.
  - unfold bind at 1. unfold emit at 1. cbv beta iota.
    destruct (decide (status <> StatusOK)).
    + eexists. unfold ret. simpl. reflexivity.
    + unfold bind at 1. rewrite Chat_loop_spec. cbv zeta.
      cbn [trace ticks serials].
      destruct (decode_failure ChatResponse_Done body);
        unfold ret; cbn [snd]; rewrite <- app_assoc; eexists; reflexivity.
Qed.

(** X7: the non-streaming branch of [CallLLM] answers once: with status 200
    and a map whose [content] is what [Chat] returned when [Chat] succeeds,
    with status 500 and an envelope whose [Error] is the client's error when
    it fails; an identifier is drawn only for the success. *)
Theorem CallLLM_sync_response (env : Env) (chatRequest : ChatRequest)
    (model : string) (stream think : bool) (response : OrusResponse)
    (startTime : Time) (w : World) :
  exists called,
    trace (snd (Chat env chatRequest w)) = trace w ++ called /\
    CallLLM_sync env chatRequest model stream think response startTime w =
    (tt,
     match fst (Chat env chatRequest w) with
     | Ok responseLLM =>
         {| trace :=
              trace w ++ called
              ++ [RespondJSON 200
                    (JsonMap
                       (JObject
                          [("content",
                            JString
                              (Content (ChatResponse_Message responseLLM)));
                           ("message",
                            JString "LLM request received successfully");
                           ("model", JString model);
                           ("serial", JString (uuid env (serials w)));
                           ("stream", JBool stream);
                           ("success", JBool true);
                           ("think", JBool think);
                           ("time_taken",
                            JString
                              (Duration_String env
                                 (clock env (ticks w) - startTime)%Z))]))];
            ticks := S (ticks w);
            serials := S (serials w) |}
     | Err err =>
         {| trace :=
              trace w ++ called
              ++ [RespondJSON 500
                    (Envelope
                       {| OrusResponse_Success := false;
                          OrusResponse_Serial := OrusResponse_Serial response;
                          OrusResponse_Message := "Error calling LLM";
                          OrusResponse_Error := err;
                          OrusResponse_TimeTaken :=
                            (clock env (ticks w) - startTime)%Z;
                          OrusResponse_Data := OrusResponse_Data response |})];
            ticks := S (ticks w);
            serials := serials w |}
     end).
Proof.
  destruct (Chat_world env chatRequest w) as [called Hworld].
  exists called. unfold CallLLM_sync. unfold bind at 1.
  destruct (Chat env chatRequest w) as [r w'] eqn:HChat.
  cbn [fst snd] in *. subst w'. split; [reflexivity|].
  destruct r as [responseLLM|err].
  - unfold bind, uuid_New, time_Since, bind, time_Now, ret, emit.
    cbn [trace ticks serials]. rewrite <- app_assoc. reflexivity.
  - unfold bind, time_Since, bind, time_Now, ret, emit.
    cbn [trace ticks serials]. rewrite <- app_assoc. reflexivity.
Qed.

(** X7, run: the demo backend answers "Hello"; the switched-off one refuses
    the connection. *)
Lemma CallLLM_sync_response_demo :
  (exists called,
     snd (CallLLM_sync demo (demo_request "llama3") "llama3" false true
            demo_response 1000%Z world0) =
     {| trace :=
          called
          ++ [RespondJSON 200
                (JsonMap
                   (JObject
                      [("content", JString "Hello");
                       ("message", JString "LLM request received successfully");
                       ("model", JString "llama3");
                       ("serial", JString "serial-0");
                       ("stream", JBool false);
                       ("success", JBool true);
                       ("think", JBool true);
                       ("time_taken", JString "0ns")]))];
        ticks := 1;
        serials := 1 |}) /\
  (exists called,
     snd (CallLLM_sync (demo_of true false) (demo_request "llama3") "llama3"
            false true demo_response 1000%Z world0) =
     {| trace :=
          called
          ++ [RespondJSON 500
                (Envelope
                   {| OrusResponse_Success := false;
                      OrusResponse_Serial := "";
                      OrusResponse_Message := "Error calling LLM";
                      OrusResponse_Error :=
                        "error making request: connection refused";
                      OrusResponse_TimeTaken := 0%Z;
                      OrusResponse_Data := ∅ |})];
        ticks := 1;
        serials := 0 |}).
Proof.
  split.
  - destruct (CallLLM_sync_response demo (demo_request "llama3") "llama3"
                false true demo_response 1000%Z world0)
      as (called & _ & Hsync).
    exists called. rewrite Hsync. reflexivity.
  - destruct (CallLLM_sync_response (demo_of true false)
                (demo_request "llama3") "llama3" false true demo_response
                1000%Z world0)
      as (called & _ & Hsync).
    exists called. rewrite Hsync. reflexivity.
Defined.

(** X8: when the response writer cannot flush, the streaming handlers set
    the three event-stream headers, answer with the 500 error
    [streaming_not_supported] and stop: the backend is not called and no
    frame is written. *)
Theorem streaming_not_supported (env : Env) (chatRequest : ChatRequest)
    (model name : string) (r : Request) (startTime : Time) (w : World) :
  Flusher env = false ->
  name <> "" ->
  let refused :=
    (tt,
     {| trace :=
          trace w
          ++ [SetHeader "Content-Type" "text/event-stream";
              SetHeader "Cache-Control" "no-cache";
              SetHeader "Connection" "keep-alive";
              RespondError StatusInternalServerError "streaming_not_supported"
                "Streaming not supported"];
        ticks := ticks w;
        serials := serials w |}) in
  CallLLM_stream env chatRequest model startTime w = refused /\
  OllamaPullModel_from env name r w = refused.
Proof.
  intros Hflush Hname refused. subst refused. split.
  - unfold CallLLM_stream. rewrite Hflush. simpl negb. cbv iota.
    unfold bind, emit. cbn [trace ticks serials].
    rewrite <- ?app_assoc. reflexivity.
  - unfold OllamaPullModel_from. apply String.eqb_neq in Hname.
    rewrite Hname, Hflush. simpl negb. cbv iota.
    unfold bind, emit. cbn [trace ticks serials].
    rewrite <- ?app_assoc. reflexivity.
Qed.

(** ** The relay of [OllamaPullModel] *)

Lemma progressCallback_live (env : Env) (r : Request) :
  (forall k, Request_ctx_Done r k = false) ->
  (forall k, write_fails env k = false) ->
  simple (progressCallback env r) (fun _ l => l)
    (fun p =>
       [Write (sse_data (json_Marshal env (PullModelProgress_json p)));
        Flush]).
Proof.
  intros Hctx Hwr p [] [tr tk sr].
  unfold progressCallback, bind, ctx_Done, Fprintf, emit, ret.
  cbn [trace ticks serials]. rewrite Hctx, Hwr. cbn [negb trace ticks serials].
  rewrite <- app_assoc. reflexivity.
Qed.

Lemma progressCallback_gone (env : Env) (r : Request) :
  (forall k, Request_ctx_Done r k = true) ->
  simple (progressCallback env r) (fun _ l => l) (fun _ => []).
Proof.
  intros Hctx p [] [tr tk sr].
  unfold progressCallback, bind, ctx_Done, ret.
  cbn [trace ticks serials]. rewrite Hctx, app_nil_r. reflexivity.
Qed.

Lemma foldl_keep {A L : Type} (xs : list A) (l : L) :
  foldl (fun l _ => l) l xs = l.
Proof. induction xs as [|x xs IH]; simpl; auto. Qed.

Lemma OllamaPullModel_relay (env : Env) (name : string) (r : Request)
    (w : World) raw body out :
  name <> "" ->
  Flusher env = true ->
  api_pull env name = Response StatusOK raw body ->
  simple (progressCallback env r) (fun _ l => l) out ->
  OllamaPullModel_from env name r w =
  (tt,
   {| trace :=
        trace w
        ++ [SetHeader "Content-Type" "text/event-stream";
            SetHeader "Cache-Control" "no-cache";
            SetHeader "Connection" "keep-alive";
            HttpDo (baseURL env +:+ "/api/pull") (ApiPull name true)]
        ++ numbered out 0 (consumed is_success body)
        ++ match decode_failure is_success body with
           | Some err =>
               [Decode (length (consumed is_success body));
                Write (sse_data (json_Marshal env (error_frame err)));
                Flush]
           | None =>
               [Write (sse_data (json_Marshal env (pull_success_frame name)));
                Flush]
           end;
      ticks := ticks w;
      serials := serials w |}).
Proof.
  intros Hname Hflush Hreply Hcb.
  unfold OllamaPullModel_from. apply String.eqb_neq in Hname.
  rewrite Hname, Hflush. simpl negb. cbv iota.
  unfold bind at 1 2 3. unfold emit at 1 2 3. cbv beta iota.
  unfold bind at 1. unfold PullModel at 1. rewrite Hreply.
  unfold bind at 1. unfold emit at 1. cbv beta iota.
  rewrite decide_False by (intros H; now apply H).
  rewrite (PullModel_loop_simple (progressCallback env r) _ _ Hcb).
  cbv zeta. cbn [trace ticks serials fst snd]. unfold failed_decode.
  destruct (decode_failure is_success body) as [err|].
  - unfold bind, Fprintf, emit. cbn [trace ticks serials fst snd].
    rewrite <- ?app_assoc. cbn [app]. rewrite <- ?app_assoc. reflexivity.
  - unfold bind, Fprintf, emit. cbn [trace ticks serials fst snd].
    rewrite <- ?app_assoc. cbn [app]. rewrite <- ?app_assoc, ?app_nil_r.
    reflexivity.
Qed.

(** X9: while the client's context is live and the writes go through, the
    relay of [OllamaPullModel] writes every progress object as one frame
    [data: <json>] and flushes it before the next value is decoded, in
    arrival order, and closes with one frame: the success frame when the
    stream ended or reached a success object, the error frame when a value
    failed to decode. *)
Theorem OllamaPullModel_relays_progress (env : Env) (name : string)
    (r : Request) (w : World) raw body :
  name <> "" ->
  Flusher env = true ->
  (forall k, Request_ctx_Done r k = false) ->
  (forall k, write_fails env k = false) ->
  api_pull env name = Response StatusOK raw body ->
  let frame (json : JValue) :=
    Write ("data: " +:+ json_Marshal env json +:+ LF +:+ LF) in
  trace (snd (OllamaPullModel_from env name r w)) =
  trace w
  ++ [SetHeader "Content-Type" "text/event-stream";
      SetHeader "Cache-Control" "no-cache";
      SetHeader "Connection" "keep-alive";
      HttpDo (baseURL env +:+ "/api/pull") (ApiPull name true)]
  ++ concat (imap (fun i p =>
                     [Decode i; frame (PullModelProgress_json p); Flush])
                  (consumed is_success body))
  ++ match decode_failure is_success body with
     | Some err =>
         [Decode (length (consumed is_success body));
          frame (error_frame err); Flush]
     | None => [frame (pull_success_frame name); Flush]
     end.
Proof.
  intros Hname Hflush Hctx Hwr Hreply frame.
  rewrite (OllamaPullModel_relay env name r w raw body _ Hname Hflush Hreply
             (progressCallback_live env r Hctx Hwr)).
  reflexivity.
Qed.

(** X9, run: pulling "llama3" from the demo backend. *)
Lemma OllamaPullModel_relays_progress_demo :
  trace (snd (OllamaPullModel_from demo "llama3" demo_http world0)) =
  [SetHeader "Content-Type" "text/event-stream";
   SetHeader "Cache-Control" "no-cache";
   SetHeader "Connection" "keep-alive";
   HttpDo "http://localhost:11434/api/pull" (ApiPull "llama3" true);
   Decode 0;
   Write ("data: {status:pulling manifest,digest:sha256:6a0746a1ec1a,total:100,completed:40}" +:+ LF +:+ LF);
   Flush;
   Decode 1;
   Write ("data: {status:success,digest:sha256:6a0746a1ec1a,total:100,completed:100}" +:+ LF +:+ LF);
   Flush;
   Write ("data: {message:Model llama3 downloaded successfully,status:success}" +:+ LF +:+ LF);
   Flush].
Proof.
  rewrite (OllamaPullModel_relays_progress demo "llama3" demo_http world0 ""
             [Object (demo_progress "pulling manifest" 40);
              Object (demo_progress "success" 100);
              Object (demo_progress "verifying" 100)]);
    try reflexivity. discriminate.
Defined.

(** X10: a client that has gone away does not stop a pull: with the
    request's context done, no progress frame is written, yet the backend
    stream is decoded as far as it would have been and the closing frame is
    written all the same. *)
Theorem OllamaPullModel_ignores_cancellation (env : Env) (name : string)
    (r : Request) (w : World) raw body :
  name <> "" ->
  Flusher env = true ->
  (forall k, Request_ctx_Done r k = true) ->
  api_pull env name = Response StatusOK raw body ->
  trace (snd (OllamaPullModel_from env name r w)) =
  trace w
  ++ [SetHeader "Content-Type" "text/event-stream";
      SetHeader "Cache-Control" "no-cache";
      SetHeader "Connection" "keep-alive";
      HttpDo (baseURL env +:+ "/api/pull") (ApiPull name true)]
  ++ concat (imap (fun i _ => [Decode i]) (consumed is_success body))
  ++ match decode_failure is_success body with
     | Some err =>
         [Decode (length (consumed is_success body));
          Write (sse_data (json_Marshal env (error_frame err))); Flush]
     | None =>
         [Write (sse_data (json_Marshal env (pull_success_frame name)));
          Flush]
     end.
Proof.
  intros Hname Hflush Hctx Hreply.
  rewrite (OllamaPullModel_relay env name r w raw body _ Hname Hflush Hreply
             (progressCallback_gone env r Hctx)).
  reflexivity.
Qed.

(** X10, run: the same pull for a request whose context is done. *)
Lemma OllamaPullModel_ignores_cancellation_demo :
  trace (snd (OllamaPullModel_from demo "llama3" demo_gone world0)) =
  [SetHeader "Content-Type" "text/event-stream";
   SetHeader "Cache-Control" "no-cache";
   SetHeader "Connection" "keep-alive";
   HttpDo "http://localhost:11434/api/pull" (ApiPull "llama3" true);
   Decode 0;
   Decode 1;
   Write ("data: {message:Model llama3 downloaded successfully,status:success}" +:+ LF +:+ LF);
   Flush].
Proof.
  rewrite (OllamaPullModel_ignores_cancellation demo "llama3" demo_gone world0
             ""
             [Object (demo_progress "pulling manifest" 40);
              Object (demo_progress "success" 100);
              Object (demo_progress "verifying" 100)]);
    try reflexivity. discriminate.
Defined.

(** X11: the error [PullModel] returns does not depend on the progress
    callback, nil or not, nor on the state it closes over: a callback cannot
    stop a pull or change its outcome. *)
Theorem PullModel_outcome_ignores_callback (env : Env) (modelName : string)
    {L1 L2 : Type}
    (callback1 : option (PullModelProgress -> L1 -> M L1))
    (callback2 : option (PullModelProgress -> L2 -> M L2))
    (l1 : L1) (l2 : L2) (w1 w2 : World) :
  snd (fst (PullModel env modelName callback1 l1 w1)) =
  snd (fst (PullModel env modelName callback2 l2 w2)).
Proof.
  unfold PullModel.
  destruct (api_pull env modelName) as [e|e|status raw body]; try reflexivity.
  unfold bind, emit.
  destruct (decide (status <> StatusOK)); [reflexivity|].
  now rewrite !PullModel_loop_error.
Qed.

(** X4, run: the chat stream of the switched-off demo backend answers 503. *)
Lemma CallLLM_stream_upstream_error_demo :
  trace (snd (CallLLM_stream (demo_of true false) (demo_request "llama3")
                "llama3" 1000%Z world0)) =
  [SetHeader "Content-Type" "text/event-stream";
   SetHeader "Cache-Control" "no-cache";
   SetHeader "Connection" "keep-alive";
   Flush;
   HttpDo "http://localhost:11434/api/chat" (ApiChat (demo_request "llama3"));
   Write ("data: {error:error from Ollama (status 503): model is loading,status:error}" +:+ LF +:+ LF);
   Flush].
Proof.
  destruct (CallLLM_stream_upstream_error (demo_of true false)
              (demo_request "llama3") "llama3" 1000%Z world0 eq_refl)
    as [Hstatus _].
  rewrite (Hstatus 503%Z "model is loading" []); [| discriminate | reflexivity].
  vm_compute. reflexivity.
Defined.

(** X8, run: the demo backend behind a writer that cannot flush. *)
Lemma streaming_not_supported_demo :
  trace (snd (CallLLM_stream (demo_of false true) (demo_request "llama3")
                "llama3" 1000%Z world0)) =
  [SetHeader "Content-Type" "text/event-stream";
   SetHeader "Cache-Control" "no-cache";
   SetHeader "Connection" "keep-alive";
   RespondError 500 "streaming_not_supported" "Streaming not supported"] /\
  trace (snd (OllamaPullModel_from (demo_of false true) "llama3" demo_http
                world0)) =
  [SetHeader "Content-Type" "text/event-stream";
   SetHeader "Cache-Control" "no-cache";
   SetHeader "Connection" "keep-alive";
   RespondError 500 "streaming_not_supported" "Streaming not supported"].
Proof.
  destruct (streaming_not_supported (demo_of false true)
              (demo_request "llama3") "llama3" "llama3" demo_http 1000%Z
              world0 eq_refl) as [H1 H2]; [discriminate|].
  rewrite H1, H2. split; reflexivity.
Defined.

(** ** More of [GetEmbedding], [ListModels] and [embedText] *)

(** X12: [GetEmbedding] returns a vector exactly when the backend answers
    200 and the first value of the body decodes, and then it is that
    vector, untouched; every other reply is an error. *)
Theorem GetEmbedding_succeeds_iff (env : Env) (model text : string)
    (w : World) (embedding : list float64) :
  fst (GetEmbedding env model text w) = Ok embedding <->
  exists raw rest,
    api_embeddings env model text =
      Response StatusOK raw (Object embedding :: rest).
Proof.
  unfold GetEmbedding.
  destruct (api_embeddings env model text) as [e|e|status raw body].
  - split; [discriminate | intros (? & ? & ?); discriminate].
  - split; [discriminate | intros (? & ? & ?); discriminate].
  - unfold bind, emit, ret. destruct (decide (status <> StatusOK)) as [Hne|Heq].
    + split; [discriminate|]. intros (raw' & rest & H).
      injection H as -> _ _. now contradiction Hne.
    + assert (status = StatusOK) as ->
        by (destruct (decide (status = StatusOK)); [assumption | now exfalso]).
      destruct body as [|[v|e] body]; cbn [fst].
      * split; [discriminate | intros (? & ? & ?); discriminate].
      * split.
        -- intros H. injection H as ->. eexists. eexists. reflexivity.
        -- intros (raw' & rest & H). injection H as _ -> _. reflexivity.
      * split; [discriminate | intros (? & ? & ?); discriminate].
Qed.

Lemma fill_slots (names : list string) :
  forall (filled slots : list string),
    length slots = length names ->
    foldl (fun models im => <[fst im := snd im]> models) (filled ++ slots)
          (imap (fun i m => (length filled + i, m)) names)
    = filled ++ names.
Proof.
  induction names as [|m names IH]; intros filled slots Hlen.
  - destruct slots; [reflexivity | discriminate].
  - destruct slots as [|s slots]; [discriminate|].
    rewrite imap_cons. simpl foldl. rewrite insert_app_r. simpl.
    replace (filled ++ m :: slots) with ((filled ++ [m]) ++ slots)
      by (now rewrite <- app_assoc).
    replace (filled ++ m :: names) with ((filled ++ [m]) ++ names)
      by (now rewrite <- app_assoc).
    rewrite <- (IH (filled ++ [m]) slots) by (simpl in Hlen; lia).
    f_equal. apply imap_ext. intros i x _. simpl.
    rewrite length_app. simpl. f_equal. lia.
Qed.

(** X13: [ListModels] returns a list exactly when the backend answers 200
    and the body decodes, and then it is the names of the reply, as many and
    in the same order: filling the slots of [models] by index gives the list
    back. *)
Theorem ListModels_succeeds_iff (reply : HttpReply (list string))
    (models : list string) :
  ListModels reply = Ok models <->
  exists raw rest, reply = Response StatusOK raw (Object models :: rest).
Proof.
  assert (Hfill : forall names,
             foldl (fun models im => <[fst im := snd im]> models)
                   (replicate (length names) "") (imap pair names) = names).
  { intros names.
    apply (fill_slots names [] (replicate (length names) "")).
    apply length_replicate. }
  unfold ListModels. destruct reply as [e|e|status raw body].
  - split; [discriminate | intros (? & ? & ?); discriminate].
  - split; [discriminate | intros (? & ? & ?); discriminate].
  - destruct (decide (status <> StatusOK)) as [Hne|Heq].
    + split; [discriminate|]. intros (raw' & rest & H).
      injection H as -> _ _. now contradiction Hne.
    + assert (status = StatusOK) as ->
        by (destruct (decide (status = StatusOK)); [assumption | now exfalso]).
      destruct body as [|[names|e] body].
      * split; [discriminate | intros (? & ? & ?); discriminate].
      * cbv zeta. rewrite Hfill. split.
        -- intros H. injection H as ->. eexists. eexists. reflexivity.
        -- intros (raw' & rest & H). injection H as _ -> _. reflexivity.
      * split; [discriminate | intros (? & ? & ?); discriminate].
Qed.

Lemma embed_succeeded_data (env : Env) resp serial vector text model
    dimensions quantization startTime w :
  let resp' :=
    fst (embed_succeeded env resp serial vector text model dimensions
           quantization startTime w) in
  OrusResponse_Success resp' = true /\
  OrusResponse_Message resp' = "Embed request received successfully" /\
  OrusResponse_TimeTaken resp' = (clock env (ticks w) - startTime)%Z /\
  OrusResponse_Data resp' !! "serial" = Some (AString serial) /\
  OrusResponse_Data resp' !! "text" = Some (AString text) /\
  OrusResponse_Data resp' !! "model" = Some (AString model) /\
  OrusResponse_Data resp' !! "vector" = Some (ASlice vector) /\
  OrusResponse_Data resp' !! "dimensions" =
    Some (AInt (Z.of_nat dimensions)).
Proof.
  simpl. repeat split; by simplify_map_eq.
Qed.

(** X14: whenever [embedText] reports success, the model is one of the three
    of the switch and the data of the response hold the vector with its
    length as [dimensions], the model and the text as they were asked, and
    the identifier drawn for this call; the elapsed time is measured from
    [startTime] on the clock. *)
Theorem embedText_success_data (env : Env) (model text : string)
    (startTime : Time) (w : World) :
  let resp := fst (embedText env model text startTime w) in
  OrusResponse_Success resp = true ->
  (model = "bge-m3" \/ model = "nomic-embed-text:latest"
   \/ model = "ollama-bge-m3") /\
  OrusResponse_TimeTaken resp = (clock env (ticks w) - startTime)%Z /\
  OrusResponse_Data resp !! "serial" = Some (AString (uuid env (serials w))) /\
  OrusResponse_Data resp !! "text" = Some (AString text) /\
  OrusResponse_Data resp !! "model" = Some (AString model) /\
  exists vector,
    OrusResponse_Data resp !! "vector" = Some (ASlice vector) /\
    OrusResponse_Data resp !! "dimensions" =
      Some (AInt (Z.of_nat (length vector))).
Proof.
  cbv zeta.
  destruct (String.eqb_spec model "bge-m3") as [->|H1].
  { rewrite embedText_bge_m3.
    destruct (BGEM3Embedder_Embed env text) as [v|err]; [|discriminate].
    intros _.
    pose proof (embed_succeeded_data env (NewOrusResponse env)
                  (uuid env (serials w)) (map AFloat32 v) text "bge-m3"
                  (length v) "float32" startTime
                  {| trace := trace w ++ [Embed text]; ticks := ticks w;
                     serials := S (serials w) |}) as Hd.
    cbv zeta in Hd. cbn [ticks] in Hd.
    destruct Hd as (_ & _ & Ht & Hs & Htx & Hm & Hv & Hdim).
    repeat split; auto.
    exists (map AFloat32 v). rewrite length_map. auto. }
  destruct (String.eqb_spec model "nomic-embed-text:latest") as [->|H2].
  { rewrite embedText_nomic.
    destruct (GetEmbedding_spec env "nomic-embed-text:latest" text)
      as (r & es & Hget & _).
    rewrite !Hget. cbn [fst snd].
    destruct r as [v|err]; [|discriminate].
    intros _.
    pose proof (embed_succeeded_data env (NewOrusResponse env)
                  (uuid env (serials w)) (map AFloat64 v) text
                  "nomic-embed-text:latest" (length v) "float64" startTime
                  {| trace := trace w ++ es; ticks := ticks w;
                     serials := S (serials w) |}) as Hd.
    cbv zeta in Hd. cbn [ticks trace serials] in *.
    destruct Hd as (_ & _ & Ht & Hs & Htx & Hm & Hv & Hdim).
    repeat split; auto.
    exists (map AFloat64 v). rewrite length_map. auto. }
  destruct (String.eqb_spec model "ollama-bge-m3") as [->|H3].
  { rewrite embedText_alias.
    destruct (GetEmbedding_spec env "bge-m3:latest" text)
      as (r & es & Hget & _).
    rewrite !Hget. cbn [fst snd].
    destruct r as [v|err]; [|discriminate].
    intros _.
    pose proof (embed_succeeded_data env (NewOrusResponse env)
                  (uuid env (serials w)) (map AFloat64 v) text
                  "ollama-bge-m3" (length v) "float64" startTime
                  {| trace := trace w ++ es; ticks := ticks w;
                     serials := S (serials w) |}) as Hd.
    cbv zeta in Hd. cbn [ticks trace serials] in *.
    destruct Hd as (_ & _ & Ht & Hs & Htx & Hm & Hv & Hdim).
    repeat split; auto.
    exists (map AFloat64 v). rewrite length_map. auto. }
  rewrite (embedText_invalid env model text startTime w H1 H2 H3).
  discriminate.
Qed.

(** X14, run: "ollama-bge-m3" on the demo backend, whose vector has three
    components. *)
Lemma embedText_success_data_demo :
  OrusResponse_Data (fst (embedText demo "ollama-bge-m3" "hello" 1000%Z world0))
    !! "model" = Some (AString "ollama-bge-m3") /\
  exists vector,
    OrusResponse_Data
      (fst (embedText demo "ollama-bge-m3" "hello" 1000%Z world0))
      !! "vector" = Some (ASlice vector) /\
    OrusResponse_Data
      (fst (embedText demo "ollama-bge-m3" "hello" 1000%Z world0))
      !! "dimensions" = Some (AInt (Z.of_nat (length vector))).
Proof.
  destruct (embedText_success_data demo "ollama-bge-m3" "hello" 1000%Z world0
              eq_refl) as (_ & _ & _ & _ & Hm & Hv).
  split; [exact Hm | exact Hv].
Defined.

(** X15: when the provider of a route fails, [embedText] reports the
    provider's error as it is: [Success] false, the error text in [Error],
    a message that names the model as it was asked (the alias, not the
    backend's name), and the serial and data of the fresh envelope left as
    they were. *)
Theorem embedText_provider_error (env : Env) (text : string)
    (startTime : Time) (w : World) (err : string) :
  let failed model :=
    {| OrusResponse_Success := false;
       OrusResponse_Serial := OrusResponse_Serial (NewOrusResponse env);
       OrusResponse_Message := "Error embedding text with model " +:+ model;
       OrusResponse_Error := err;
       OrusResponse_TimeTaken := (clock env (ticks w) - startTime)%Z;
       OrusResponse_Data := OrusResponse_Data (NewOrusResponse env) |} in
  (BGEM3Embedder_Embed env text = Err err ->
   fst (embedText env "bge-m3" text startTime w) = failed "bge-m3") /\
  (fst (GetEmbedding env "nomic-embed-text:latest" text w) = Err err ->
   fst (embedText env "nomic-embed-text:latest" text startTime w) =
     failed "nomic-embed-text:latest") /\
  (fst (GetEmbedding env "bge-m3:latest" text w) = Err err ->
   fst (embedText env "ollama-bge-m3" text startTime w) =
     failed "ollama-bge-m3").
Proof.
  cbv zeta. split; [|split].
  - intros Herr. rewrite embedText_bge_m3, Herr. reflexivity.
  - rewrite embedText_nomic.
    destruct (GetEmbedding_spec env "nomic-embed-text:latest" text)
      as (r & es & Hget & _).
    rewrite !Hget. cbn [fst snd]. intros ->. reflexivity.
  - rewrite embedText_alias.
    destruct (GetEmbedding_spec env "bge-m3:latest" text)
      as (r & es & Hget & _).
    rewrite !Hget. cbn [fst snd]. intros ->. reflexivity.
Qed.

(** X15, run: the switched-off demo backend answers 404 to embeddings. *)
Lemma embedText_provider_error_demo :
  OrusResponse_Error
    (fst (embedText (demo_of true false) "ollama-bge-m3" "hello" 1000%Z world0))
    = "error from Ollama (status 404): model not found" /\
  OrusResponse_Message
    (fst (embedText (demo_of true false) "ollama-bge-m3" "hello" 1000%Z world0))
    = "Error embedding text with model ollama-bge-m3".
Proof.
  destruct (embedText_provider_error (demo_of true false) "hello" 1000%Z world0
              "error from Ollama (status 404): model not found")
    as (_ & _ & Halias).
  rewrite Halias by reflexivity. split; reflexivity.
Defined.

(** X16: [CallLLMCloud], like [CallLLM], never fills its request: whatever
    the inbound request and whatever the cloud client does, it answers with
    the [missing_model] validation error and calls nothing. *)
Theorem CallLLMCloud_ignores_request_body (env : Env)
    (ChatStreamCloud :
       ChatRequest ->
       (ChatStreamResponse -> list string -> M (list string)) ->
       list string -> M (list string * option string))
    (ChatCloud : ChatRequest -> M (Result ChatResponse))
    (r : Request) (w : World) :
  CallLLMCloud env ChatStreamCloud ChatCloud r w =
  (tt,
   {| trace := trace w
               ++ [RespondError StatusBadRequest "missing_model"
                     "Field 'model' is required"];
      ticks := S (ticks w);
      serials := serials w |}).
Proof.
  unfold CallLLMCloud, CallLLMCloud_from, new_OrusRequest, bind, time_Now.
  cbn [Body]. rewrite lookup_empty. reflexivity.
Qed.

(** X23: [CallLLMCloud] validates its request as [CallLLM] does: a request
    that [CallLLM] turns down is turned down by [CallLLMCloud] with the same
    400 error, whatever the cloud client, which is not called. *)
Theorem CallLLMCloud_validates_like_CallLLM (env : Env)
    (ChatStreamCloud :
       ChatRequest ->
       (ChatStreamResponse -> list string -> M (list string)) ->
       list string -> M (list string * option string))
    (ChatCloud : ChatRequest -> M (Result ChatResponse))
    (request : OrusRequest) (response : OrusResponse) (startTime : Time)
    (w : World) :
  chat_fields env request = None ->
  CallLLMCloud_from env ChatStreamCloud ChatCloud request response startTime w
  = CallLLM_from env request response startTime w.
Proof.
  unfold chat_fields, CallLLMCloud_from, CallLLM_from.
  destruct (Body request !! "model") as [[| | |model| |]|]; try reflexivity.
  destruct (Body request !! "think") as [[|think| | | |]|]; try reflexivity.
  destruct (Body request !! "messages") as [messagesRaw|]; try reflexivity.
  destruct (json_messages env messagesRaw) as [messages|err];
    [discriminate | reflexivity].
Qed.

(** X23, run: a request with a model and no [think]. *)
Lemma CallLLMCloud_validates_like_CallLLM_demo :
  CallLLMCloud_from demo
    (fun _ _ content => ret (content, None))
    (fun _ => ret (Err "cloud client not configured"))
    (demo_body [("model", JString "llama3")]) demo_response 1000%Z world0
  = (tt,
     {| trace := [RespondError StatusBadRequest "missing_think"
                    "Field 'think' is required"];
        ticks := 0; serials := 0 |}).
Proof.
  rewrite (CallLLMCloud_validates_like_CallLLM demo
             (fun _ _ content => ret (content, None))
             (fun _ => ret (Err "cloud client not configured"))
             (demo_body [("model", JString "llama3")]) demo_response 1000%Z
             world0 eq_refl).
  reflexivity.
Defined.

(** ** [ConvertInterfaceToStrings] and the view *)

Lemma ConvertInterfaceToStrings_loop_spec (input : list JValue) :
  forall result warned,
    ConvertInterfaceToStrings_loop input result warned =
    (result ++ omap as_string input,
     warned ++ filter (fun val => as_string val = None) input).
Proof.
  induction input as [|val rest IH]; intros result warned.
  - simpl. now rewrite !app_nil_r.
  - destruct val; simpl; rewrite IH.
    all: try (rewrite filter_cons_True by reflexivity).
    all: try (rewrite filter_cons_False by discriminate).
    all: now rewrite <- ?app_assoc.
Qed.

(** X17: [ConvertInterfaceToStrings] keeps the strings of its input, in
    their order, and drops every other value with one warning each: the
    result and the warnings together are as many as the input, no warning is
    about a string, and a slice of strings only comes back as it is, with no
    warning. *)
Theorem ConvertInterfaceToStrings_keeps_strings (input : list JValue) :
  fst (ConvertInterfaceToStrings input) = omap as_string input /\
  length (fst (ConvertInterfaceToStrings input))
  + length (snd (ConvertInterfaceToStrings input)) = length input /\
  Forall (fun val => as_string val = None)
         (snd (ConvertInterfaceToStrings input)) /\
  forall strs,
    ConvertInterfaceToStrings (map JString strs) = (strs, []).
Proof.
  unfold ConvertInterfaceToStrings.
  rewrite ConvertInterfaceToStrings_loop_spec. cbn [fst snd app].
  split; [reflexivity|]. split; [|split].
  - induction input as [|val rest IH]; [reflexivity|].
    destruct val; simpl.
    all: try (rewrite filter_cons_True by reflexivity).
    all: try (rewrite filter_cons_False by discriminate).
    all: change (list_omap _ _ as_string rest) with (omap as_string rest).
    all: simpl; lia.
  - apply Forall_forall. intros val Hin.
    apply list_elem_of_filter in Hin. tauto.
  - intros strs. rewrite ConvertInterfaceToStrings_loop_spec. cbn [app].
    f_equal.
    + induction strs as [|str strs IH]; [reflexivity|].
      cbn [map]. change (str :: omap as_string (map JString strs) = str :: strs).
      now rewrite IH.
    + induction strs as [|str strs IH]; [reflexivity|].
      cbn [map]. now rewrite filter_cons_False by discriminate.
Qed.

Lemma foldl_option_line (models : list string) :
  forall optionsHtml,
    foldl (fun optionsHtml model => optionsHtml +:+ option_line model)
          optionsHtml models
    = optionsHtml +:+ String.concat "" (map option_line models).
Proof.
  induction models as [|model models IH]; intros optionsHtml.
  - simpl. now rewrite append_nil_r.
  - cbn [foldl map]. rewrite IH, concat_cons, append_assoc. reflexivity.
Qed.

(** X18: the options of the page are rebuilt from the models at every
    rendering, never appended to what an earlier rendering left: the two
    fixed options come first, then one option per model in the order of the
    models; rendering twice gives what rendering once gives, and
    [RenderIndex] called again on the view it leaves writes the same page
    again. *)
Theorem renderOptions_rebuilds (indexHTML : string -> string) (v : View)
    (w : World) :
  let page :=
    indexHTML
      ("<option class='bg-white' value=''>Select a model</option>"
       +:+ "<option class='bg-white' value='bge-m3'>bge-m3</option>"
       +:+ String.concat "" (map option_line (View_models v))) in
  renderOptions (renderOptions v) = renderOptions v /\
  renderOptions v = renderOptions (SetModels (View_models v) NewView) /\
  RenderIndex indexHTML v w =
    (renderOptions v,
     {| trace := trace w ++ [SetHeader "Content-Type" "text/html"; Write page];
        ticks := ticks w; serials := serials w |}) /\
  snd (RenderIndex indexHTML (fst (RenderIndex indexHTML v w))
         (snd (RenderIndex indexHTML v w))) =
    {| trace := trace w
                ++ [SetHeader "Content-Type" "text/html"; Write page;
                    SetHeader "Content-Type" "text/html"; Write page];
       ticks := ticks w; serials := serials w |}.
Proof.
  cbv zeta.
  assert (Hhtml : forall v',
            View_optionsHtml (renderOptions v') =
            "<option class='bg-white' value=''>Select a model</option>"
            +:+ "<option class='bg-white' value='bge-m3'>bge-m3</option>"
            +:+ String.concat "" (map option_line (View_models v'))).
  { intros v'. unfold renderOptions. cbn [View_optionsHtml].
    rewrite foldl_option_line, append_assoc. reflexivity. }
  assert (Hrender : forall v' w',
            RenderIndex indexHTML v' w' =
            (renderOptions v',
             {| trace := trace w'
                         ++ [SetHeader "Content-Type" "text/html";
                             Write (indexHTML
                                      (View_optionsHtml (renderOptions v')))];
                ticks := ticks w'; serials := serials w' |})).
  { intros v' w'. unfold RenderIndex, bind, emit, ret.
    cbn [trace ticks serials]. now rewrite <- app_assoc. }
  split; [reflexivity|]. split; [reflexivity|]. split.
  - rewrite Hrender, Hhtml. reflexivity.
  - rewrite !Hrender. cbn [fst snd trace ticks serials].
    rewrite <- app_assoc. cbn [app].
    change (renderOptions (renderOptions v)) with (renderOptions v).
    rewrite Hhtml. reflexivity.
Qed.

(** ** More of the dispatch *)

Lemma run_app (env : Env) (d : Dispatch) (evs1 evs2 : list Event) :
  forall s s1,
    run env d evs1 s = Some s1 ->
    run env d (evs1 ++ evs2) s = run env d evs2 s1.
Proof.
  induction evs1 as [|ev evs1 IH]; intros s s1 Hrun; simpl in *.
  - now injection Hrun as <-.
  - destruct (step env d ev s) as [s'|]; [|discriminate]. now apply IH.
Qed.

Section Keeping.
Variable env : Env.
Variable d : Dispatch.

Lemma worker_kept_init : worker_kept d (init d).
Proof.
  unfold worker_kept, init. simpl.
  repeat split; try discriminate; try tauto.
  all: intros H; now contradiction H.
Qed.

Lemma worker_kept_step ev s s' :
  worker_kept d s -> step env d ev s = Some s' -> worker_kept d s'.
Proof.
  intros (Hchan & Hwk & Hrecv & Hwr & Hret) Hstep.
  destruct s as [el cd ch wk hd wr]. simpl in *.
  destruct ev.
  - unfold step in Hstep. destruct (may_pass _ _ _) eqn:Hpass; [|discriminate].
    injection Hstep as <-. apply may_pass_spec in Hpass. simpl in *.
    destruct Hpass as (Hlt & _).
    unfold worker_kept. simpl. repeat split; auto.
    intros E. destruct (Hwk E) as (l & Hl & Hle).
    exists l. split; [exact Hl | lia].
  - step_cases Hstep; unfold worker_kept; simpl in *.
    all: repeat split; auto; try discriminate; try congruence.
  - step_cases Hstep; unfold worker_kept; simpl in *.
    apply Z.eqb_eq in Heqb. subst el.
    repeat split; auto; try discriminate; try congruence.
    + intros H. apply Hchan in H. discriminate.
    + intros _. exists z. split; [assumption | lia].
    + intros resp H. apply Hrecv in H. discriminate.
    + intros resp H. apply Hwr in H. discriminate.
  - step_cases Hstep; unfold worker_kept; simpl in *.
    all: repeat split; auto; try discriminate; try congruence.
    all: try (intros; apply Hwk; discriminate).
  - step_cases Hstep; unfold worker_kept; simpl in *.
    repeat split; auto; try discriminate; try congruence.
    all: try (intros; apply Hwk; discriminate).
  - step_cases Hstep; unfold worker_kept; simpl in *.
    repeat split; auto; try discriminate; try congruence.
  - step_cases Hstep; unfold worker_kept; simpl in *.
    repeat split; auto; try discriminate; try congruence.
    all: try (intros resp _; apply Hchan; discriminate).
  - step_cases Hstep; unfold worker_kept; simpl in *.
    repeat split; auto; try discriminate; try congruence.
  - step_cases Hstep; unfold worker_kept; simpl in *.
    repeat split; auto; try discriminate; try congruence.
    intros resp Hin. apply in_app_or in Hin. destruct Hin as [Hin|Hin].
    + now apply (Hwr resp).
    + destruct b as [resp'|]; simpl in Hin.
      * now apply (Hrecv resp').
      * destruct Hin as [Hin|[]]. discriminate.
Qed.

Lemma worker_kept_run evs :
  forall s s',
    worker_kept d s -> run env d evs s = Some s' -> worker_kept d s'.
Proof.
  induction evs as [|ev evs IH]; intros s s' Hs Hrun; simpl in Hrun.
  - now injection Hrun as <-.
  - destruct (step env d ev s) as [s1|] eqn:Hstep; [|discriminate].
    eapply IH; [|exact Hrun]. eapply worker_kept_step; eassumption.
Qed.

Lemma handler_kept_init : latency_is_duration d -> handler_kept d (init d).
Proof.
  intros Hlat. unfold handler_kept, init. simpl.
  repeat split; try discriminate; auto.
  intros H. apply Z.leb_gt in H. lia.
Qed.

Lemma handler_kept_step ev s s' :
  handler_kept d s -> step env d ev s = Some s' -> handler_kept d s'.
Proof.
  intros (Hlive & Hpark & Hrun) Hstep.
  destruct s as [el cd ch wk hd wr]. simpl in *.
  destruct ev.
  - unfold step in Hstep. destruct (may_pass _ _ _) eqn:Hpass; [|discriminate].
    injection Hstep as <-. apply may_pass_spec in Hpass. simpl in *.
    destruct Hpass as (Hlt & Hdl & Hl).
    unfold handler_kept. simpl. repeat split; auto.
  - step_cases Hstep; unfold handler_kept; simpl in *.
    all: repeat split; auto; try discriminate; try congruence.
  - step_cases Hstep; unfold handler_kept; simpl in *.
    repeat split; auto; try discriminate; try congruence.
  - step_cases Hstep; unfold handler_kept; simpl in *.
    all: repeat split; auto; try discriminate; try congruence.
  - step_cases Hstep; unfold handler_kept; simpl in *.
    repeat split; auto; try discriminate; try congruence.
  - step_cases Hstep; unfold handler_kept; simpl in *.
    repeat split; auto; try discriminate; try congruence.
  - step_cases Hstep; unfold handler_kept; simpl in *.
    repeat split; auto; try discriminate; try congruence.
  - step_cases Hstep; unfold handler_kept; simpl in *.
    repeat split; auto; try discriminate; try congruence.
  - step_cases Hstep; unfold handler_kept; simpl in *.
    repeat split; auto; try discriminate; try congruence.
Qed.

Lemma handler_kept_run evs :
  forall s s',
    handler_kept d s -> run env d evs s = Some s' -> handler_kept d s'.
Proof.
  induction evs as [|ev evs IH]; intros s s' Hs Hrun; simpl in Hrun.
  - now injection Hrun as <-.
  - destruct (step env d ev s) as [s1|] eqn:Hstep; [|discriminate].
    eapply IH; [|exact Hrun]. eapply handler_kept_step; eassumption.
Qed.

End Keeping.

(** X19: the worker never blocks on its send.  [respChan] has room for one
    value and the worker is its only sender, so in every state of every
    schedule in which the worker is at its [select], the sending case is
    ready: the worker leaves, whether or not the handler is still there to
    receive, and nothing is written by that. *)
Theorem worker_send_never_blocks (env : Env) (d : Dispatch)
    (evs : list Event) (s : State) :
  run env d evs (init d) = Some s ->
  worker s = Selecting ->
  respChan s = None /\
  exists s',
    step env d Send s = Some s' /\
    worker s' = Exited /\
    written s' = written s.
Proof.
  intros Hrun Hsel.
  pose proof (worker_kept_run env d evs _ _ (worker_kept_init d) Hrun)
    as (Hchan & _).
  destruct s as [el cd ch wk hd wr]. simpl in *. subst wk.
  destruct ch as [resp|].
  { assert (H : Selecting = Exited) by (apply Hchan; discriminate).
    discriminate. }
  split; [reflexivity|].
  unfold step. cbn [elapsed ctxDone respChan worker handler written].
  destruct hd; eexists; (split; [reflexivity|]); split; reflexivity.
Qed.

(** X19, run: the handler has timed out at 60 seconds and is gone when
    [embedText] returns at 90; the worker still sends. *)
Lemma worker_send_never_blocks_demo :
  exists s',
    step demo demo_slow Send
      {| elapsed := (90 * Second)%Z; ctxDone := true; respChan := None;
         worker := Selecting; handler := Returned;
         written := [RespondJSON StatusGatewayTimeout
                       (Envelope (timeoutResp demo (60 * Second)%Z))] |}
    = Some s' /\
    worker s' = Exited.
Proof.
  destruct (worker_send_never_blocks demo demo_slow
              [EnterPark; Tick (60 * Second)%Z; Fire; Respond;
               Tick (90 * Second)%Z; Return]
              {| elapsed := (90 * Second)%Z; ctxDone := true;
                 respChan := None; worker := Selecting; handler := Returned;
                 written := [RespondJSON StatusGatewayTimeout
                               (Envelope (timeoutResp demo (60 * Second)%Z))] |}
              eq_refl eq_refl) as (_ & s' & Hstep & Hexit & _).
  exists s'. split; [exact Hstep | exact Hexit].
Defined.

(** X20: every answer of a dispatch is justified.  Whatever the schedule, a
    response written under status 200 is the result of [embedText], written
    when the worker has handed it over and is gone, not before [embedText]
    returned; any other response is the timeout envelope under status 504,
    written not before the deadline.  When [embedText] never returns, no
    200 is ever written. *)
Theorem dispatch_answer_is_justified (env : Env) (d : Dispatch)
    (evs : list Event) (s : State) (e : Effect) :
  run env d evs (init d) = Some s ->
  In e (written s) ->
  (e = RespondJSON StatusOK (Envelope (result d)) /\
   worker s = Exited /\
   exists l, latency d = Some l /\ (l <= elapsed s)%Z)
  \/
  (exists taken,
     e = RespondJSON StatusGatewayTimeout (Envelope (timeoutResp env taken)) /\
     (deadline d <= taken)%Z).
Proof.
  intros Hrun Hin.
  pose proof (safe_run env d evs _ _ (safe_init env d) Hrun) as (Hone & _).
  pose proof (worker_kept_run env d evs _ _ (worker_kept_init d) Hrun)
    as (_ & Hwk & _ & Hwr & _).
  unfold one_response in Hone.
  destruct (handler s).
  1-3: rewrite Hone in Hin; destruct Hin.
  destruct Hone as [Hone | (taken & Hle & Hone)].
  - rewrite Hone in Hin. destruct Hin as [<-|[]].
    assert (Hex : worker s = Exited).
    { apply (Hwr (result d)). rewrite Hone. now left. }
    left. split; [reflexivity|]. split; [exact Hex|].
    apply Hwk. rewrite Hex. discriminate.
  - rewrite Hone in Hin. destruct Hin as [<-|[]].
    right. exists taken. split; [reflexivity | exact Hle].
Qed.

(** X20, run: the result of the fast demo dispatch, written at 2 seconds. *)
Lemma dispatch_answer_is_justified_demo :
  exists l, latency demo_fast = Some l /\ (l <= 2 * Second)%Z.
Proof.
  destruct (dispatch_answer_is_justified demo demo_fast
              [EnterPark; Tick (2 * Second)%Z; Return; Send; Respond]
              {| elapsed := (2 * Second)%Z; ctxDone := true; respChan := None;
                 worker := Exited; handler := Returned;
                 written := [RespondJSON StatusOK (Envelope demo_result)] |}
              (RespondJSON StatusOK (Envelope demo_result))
              eq_refl (or_introl eq_refl))
    as [(_ & _ & Hl) | (taken & Habs & _)].
  - exact Hl.
  - discriminate Habs.
Defined.

Lemma returned_step (env : Env) (d : Dispatch) ev s s' :
  handler s = Returned -> ctxDone s = true ->
  step env d ev s = Some s' ->
  handler s' = Returned /\ ctxDone s' = true /\ written s' = written s.
Proof.
  intros Hret Hdone Hstep.
  destruct s as [el cd ch wk hd wr]. simpl in *. subst hd cd.
  destruct ev; unfold step in Hstep;
    cbn [elapsed ctxDone respChan worker handler written negb andb] in Hstep;
    try discriminate Hstep.
  all: repeat match type of Hstep with
              | context [match ?x with _ => _ end] => destruct x
              end;
       try discriminate Hstep; injection Hstep as <-; repeat split.
Qed.

(** X21: the response is final.  Once the handler has returned the context
    is cancelled (the deferred [cancel]), and whatever happens afterwards,
    a late return of [embedText] and the worker's send or give-up included,
    the handler stays returned and nothing more is written: a result that
    comes after the timeout never reaches the client. *)
Theorem response_is_final (env : Env) (d : Dispatch)
    (evs : list Event) (s : State) :
  run env d evs (init d) = Some s ->
  handler s = Returned ->
  ctxDone s = true /\
  forall evs' s',
    run env d evs' s = Some s' ->
    handler s' = Returned /\ ctxDone s' = true /\ written s' = written s.
Proof.
  intros Hrun Hret.
  pose proof (worker_kept_run env d evs _ _ (worker_kept_init d) Hrun)
    as (_ & _ & _ & _ & Hdone).
  specialize (Hdone Hret). split; [exact Hdone|].
  clear Hrun. revert s Hret Hdone.
  intros s Hret Hdone evs'. revert s Hret Hdone.
  induction evs' as [|ev evs' IH]; intros s Hret Hdone s' Hrun'; simpl in Hrun'.
  - injection Hrun' as <-. repeat split; assumption.
  - destruct (step env d ev s) as [s1|] eqn:Hstep; [|discriminate].
    destruct (returned_step env d ev s s1 Hret Hdone Hstep)
      as (Hret1 & Hdone1 & Hwr1).
    destruct (IH s1 Hret1 Hdone1 s' Hrun') as (H1 & H2 & H3).
    repeat split; try assumption. congruence.
Qed.

(** X21, run: after the 504 at 60 seconds, [embedText] returns at 90 and
    the worker sends; the one response stays the timeout. *)
Lemma response_is_final_demo :
  exists s',
    run demo demo_slow [Tick (90 * Second)%Z; Return; Send]
      {| elapsed := (60 * Second)%Z; ctxDone := true; respChan := None;
         worker := Running; handler := Returned;
         written := [RespondJSON StatusGatewayTimeout
                       (Envelope (timeoutResp demo (60 * Second)%Z))] |}
    = Some s' /\
    respChan s' = Some demo_result /\
    written s' =
      [RespondJSON StatusGatewayTimeout
         (Envelope (timeoutResp demo (60 * Second)%Z))].
Proof.
  destruct (response_is_final demo demo_slow
              [EnterPark; Tick (60 * Second)%Z; Fire; Respond]
              {| elapsed := (60 * Second)%Z; ctxDone := true;
                 respChan := None; worker := Running; handler := Returned;
                 written := [RespondJSON StatusGatewayTimeout
                               (Envelope (timeoutResp demo (60 * Second)%Z))] |}
              eq_refl eq_refl) as (_ & Hfinal).
  exists {| elapsed := (90 * Second)%Z; ctxDone := true;
            respChan := Some demo_result; worker := Exited;
            handler := Returned;
            written := [RespondJSON StatusGatewayTimeout
                          (Envelope (timeoutResp demo (60 * Second)%Z))] |}.
  split; [reflexivity|]. split; [reflexivity|].
  destruct (Hfinal [Tick (90 * Second)%Z; Return; Send] _ eq_refl)
    as (_ & _ & Hwr).
  exact Hwr.
Defined.

Lemma advance (env : Env) (d : Dispatch) (s : State) (t : Z) :
  (elapsed s <= t)%Z ->
  (ctxDone s = false -> (t <= deadline d)%Z) ->
  (worker s = Running -> forall l, latency d = Some l -> (t <= l)%Z) ->
  exists evs, run env d evs s = Some (at_time t s).
Proof.
  intros Hle Hdl Hlat.
  destruct (Z.eq_dec (elapsed s) t) as [<-|Hneq].
  { exists []. destruct s. reflexivity. }
  exists [Tick t]. unfold run, step.
  assert (Hpass : may_pass d s t = true).
  { unfold may_pass. rewrite !andb_true_iff, !orb_true_iff. repeat split.
    - apply Z.ltb_lt. lia.
    - destruct (ctxDone s); [now left | right].
      apply Z.leb_le. now apply Hdl.
    - destruct (worker s); try (now left). right.
      destruct (latency d) as [l|]; [|reflexivity].
      apply Z.leb_le. now apply Hlat. }
  rewrite Hpass. reflexivity.
Qed.

Lemma parked_answers (env : Env) (d : Dispatch) (s : State) :
  worker_kept d s -> handler_kept d s -> handler s = Parked ->
  exists evs s', run env d evs s = Some s' /\ handler s' = Returned.
Proof.
  intros (Hchan & _) (Hlive & Hpark & Hrun) Hp.
  specialize (Hpark Hp). specialize (Hlive Hpark).
  assert (Hfire :
            (worker s = Running ->
             forall l, latency d = Some l -> (deadline d <= l)%Z) ->
            exists evs s', run env d evs s = Some s' /\ handler s' = Returned).
  { intros Hlat.
    destruct (advance env d s (deadline d) Hlive (fun _ => Z.le_refl _) Hlat)
      as (evs & Hevs).
    exists (evs ++ [Fire; Respond]). eexists.
    rewrite (run_app env d evs _ _ _ Hevs).
    unfold run, step, at_time.
    cbn [elapsed ctxDone respChan worker handler written].
    rewrite Hpark, Hp, Z.eqb_refl. cbn [negb andb handler].
    split; reflexivity. }
  destruct (worker s) eqn:Hwk.
  - (* [embedText] is running *)
    destruct (latency d) as [l|] eqn:Hl; [|apply Hfire; discriminate].
    destruct (Z.le_gt_cases (deadline d) l) as [Hcmp|Hcmp].
    { apply Hfire. intros _ l' E. injection E as <-. exact Hcmp. }
    assert (Hnone : respChan s = None).
    { destruct (respChan s); [|reflexivity].
      assert (H : Running = Exited) by (apply Hchan; discriminate).
      discriminate. }
    assert (Hlat : worker s = Running ->
                   forall l', latency d = Some l' -> (l <= l')%Z).
    { intros _ l' E. rewrite Hl in E. injection E as <-. lia. }
    assert (Hel : (elapsed s <= l)%Z) by (apply (Hrun eq_refl l eq_refl)).
    destruct (advance env d s l Hel (fun _ => Z.lt_le_incl _ _ Hcmp) Hlat)
      as (evs & Hevs).
    exists (evs ++ [Return; Send; Respond]). eexists.
    rewrite (run_app env d evs _ _ _ Hevs).
    unfold run, step, at_time.
    cbn [elapsed ctxDone respChan worker handler written].
    rewrite Hwk, Hl, Z.eqb_refl.
    cbn [elapsed ctxDone respChan worker handler written].
    rewrite Hnone, Hp.
    cbn [elapsed ctxDone respChan worker handler written].
    split; reflexivity.
  - (* the worker is at its [select] *)
    assert (Hnone : respChan s = None).
    { destruct (respChan s); [|reflexivity].
      assert (H : Selecting = Exited) by (apply Hchan; discriminate).
      discriminate. }
    exists [Send; Respond]. eexists.
    unfold run, step. rewrite Hwk, Hnone, Hp.
    cbn [elapsed ctxDone respChan worker handler written].
    split; reflexivity.
  - apply Hfire. discriminate.
Qed.

(** X22: the handler always gets to answer.  When the time [embedText] needs
    is a duration, no state of any schedule is a dead end for the handler:
    from every state some continuation brings it to its return, and then one
    response has been written, under status 200 or 504. *)
Theorem handler_always_answers (env : Env) (d : Dispatch)
    (evs : list Event) (s : State) :
  latency_is_duration d ->
  run env d evs (init d) = Some s ->
  exists evs' s',
    run env d evs' s = Some s' /\
    handler s' = Returned /\
    exists status resp,
      written s' = [RespondJSON status (Envelope resp)] /\
      (status = StatusOK \/ status = StatusGatewayTimeout).
Proof.
  intros Hlat Hrun.
  pose proof (worker_kept_run env d evs _ _ (worker_kept_init d) Hrun) as Hw.
  pose proof (handler_kept_run env d evs _ _ (handler_kept_init d Hlat) Hrun)
    as Hh.
  assert (Hsome : exists evs' s',
             run env d evs' s = Some s' /\ handler s' = Returned).
  { destruct (handler s) eqn:Hhd.
    - (* about to enter the [select] *)
      destruct (respChan s) as [resp|] eqn:Hch.
      { exists [EnterRecv; Respond]. eexists.
        unfold run, step. rewrite Hhd, Hch.
        cbn [elapsed ctxDone respChan worker handler written].
        split; reflexivity. }
      destruct (ctxDone s) eqn:Hcd.
      { exists [EnterExpired; Respond]. eexists.
        unfold run, step. rewrite Hhd, Hcd.
        cbn [elapsed ctxDone respChan worker handler written].
        split; reflexivity. }
      assert (Hstep : step env d EnterPark s =
                Some {| elapsed := elapsed s; ctxDone := ctxDone s;
                        respChan := respChan s; worker := worker s;
                        handler := Parked; written := written s |}).
      { unfold step. now rewrite Hhd, Hch, Hcd. }
      destruct (parked_answers env d _
                  (worker_kept_step env d _ _ _ Hw Hstep)
                  (handler_kept_step env d _ _ _ Hh Hstep) eq_refl)
        as (evs' & s' & Hrun' & Hret).
      exists (EnterPark :: evs'), s'.
      split; [|exact Hret]. cbn [run]. now rewrite Hstep.
    - now apply parked_answers.
    - exists [Respond]. eexists. unfold run, step. rewrite Hhd.
      split; reflexivity.
    - exists [], s. split; [reflexivity | exact Hhd]. }
  destruct Hsome as (evs' & s' & Hrun' & Hret).
  exists evs', s'. split; [exact Hrun'|]. split; [exact Hret|].
  assert (Hall : run env d (evs ++ evs') (init d) = Some s').
  { rewrite (run_app env d evs evs' _ _ Hrun). exact Hrun'. }
  pose proof (safe_run env d _ _ _ (safe_init env d) Hall) as (Hone & _).
  unfold one_response in Hone. rewrite Hret in Hone.
  destruct Hone as [Hone | (taken & _ & Hone)].
  - exists StatusOK, (result d). split; [exact Hone | now left].
  - exists StatusGatewayTimeout, (timeoutResp env taken).
    split; [exact Hone | now right].
Qed.

(** X22, run: the fast demo dispatch with the handler parked in its
    [select]. *)
Lemma handler_always_answers_demo :
  exists evs' s',
    run demo demo_fast evs'
      {| elapsed := 0%Z; ctxDone := false; respChan := None;
         worker := Running; handler := Parked; written := [] |} = Some s' /\
    handler s' = Returned.
Proof.
  assert (Hlat : latency_is_duration demo_fast).
  { intros l E. injection E as <-. discriminate. }
  destruct (handler_always_answers demo demo_fast [EnterPark]
              {| elapsed := 0%Z; ctxDone := false; respChan := None;
                 worker := Running; handler := Parked; written := [] |}
              Hlat eq_refl) as (evs' & s' & Hrun' & Hret & _).
  exists evs', s'. split; [exact Hrun' | exact Hret].
Defined.
